(** * pillarbox_to_4x3: crop decision and re-encode plan

    A shallow embedding of [aspect-ratio/pillarbox_to_4x3.py] and the
    properties of its crop decision engine, encoder resolver, quality
    selector, plan builder and batch orchestrator.

    Python integers are [Z]; Python floats are the kernel's binary64
    floats ([PrimFloat.float]); strings are [string]; the [CODEC_MAP]
    dictionary is a [gmap]; the [Counter] of crop suggestions is an
    association list in first-seen order, because [most_common] depends
    on that order. *)

From Stdlib Require Import ZArith Uint63 Floats Lia Ascii.
From stdpp Require Import gmap strings list pretty.

Local Open Scope Z_scope.

(** ** Python numeric primitives *)

Module Py.

(** [float(n)] for an integer [n].  The conversion is exact for
    [|n| <= 2^53]; every integer that reaches a division below is a
    pixel dimension or four times one. *)
Definition float_of_int (n : Z) : float :=
  if n <? 0 then PrimFloat.opp (PrimFloat.of_uint63 (Uint63.of_Z (- n)))
  else PrimFloat.of_uint63 (Uint63.of_Z n).

(** [a / b] on two integers with [b <> 0]: the binary64 quotient.  The
    callers test [b] for zero where Python would raise
    [ZeroDivisionError].  Python rounds the exact quotient once, at any
    size of the operands; dividing the two converted operands is the
    same as long as both are below 2^53 in size, which the statements
    about quotients below assume. *)
Definition truediv (a b : Z) : float :=
  PrimFloat.div (float_of_int a) (float_of_int b).

(** Nearest integer to [m * 2^e], ties to the even integer. *)
Definition round_half_even (m e : Z) : Z :=
  if 0 <=? e then m * 2 ^ e
  else
    let d := 2 ^ (- e) in
    let q := m / d in
    let r := m mod d in
    if 2 * r <? d then q
    else if d <? 2 * r then q + 1
    else if Z.even q then q else q + 1.

(** [round(x)] with one argument: the integer nearest to the float
    [x], ties to even.  (It raises on infinities and NaN, which the
    quotients of this program cannot be below 2^1023; the model gives
    0 there.) *)
Definition round (x : float) : Z :=
  match Prim2SF x with
  | S754_finite s m e => cond_Zopp s (round_half_even (Zpos m) e)
  | _ => 0
  end.

(** The literals [0.01] and [0.005], as the binary64 values Python
    reads them to. *)
Definition lit_0_01 : float := 0x1.47ae147ae147bp-7%float.
Definition lit_0_005 : float := 0x1.47ae147ae147bp-8%float.

(** [n // d] and [n % d] for a positive [d] are [Z.div] and [Z.modulo]:
    both round towards minus infinity. *)
Definition floordiv (n d : Z) : Z := n / d.
Definition mod_ (n d : Z) : Z := n mod d.

End Py.

(** ** Crop geometry *)

(** A crop rectangle [(w, h, x, y)]. *)
Definition crop : Type := Z * Z * Z * Z.

(** [even(n)]: [int(n) - (int(n) % 2)]. *)
Definition even (n : Z) : Z := n - Py.mod_ n 2.

(** [int(round(h * 4 / 3))]. *)
Definition round_4x3 (h : Z) : Z := Py.round (Py.truediv (h * 4) 3).

(** [centered_4x3_crop(iw, ih)]. *)
Definition centered_4x3_crop (iw ih : Z) : crop :=
  let target_w := Z.min iw (round_4x3 ih) in
  let target_w := even target_w in
  let target_h := even ih in
  let x := even (Py.floordiv (iw - target_w) 2) in
  let y := even (Py.floordiv (ih - target_h) 2) in
  (target_w, target_h, x, y).

(** ** Strings: the fragments of [str] the program uses *)

Module PyStr.

(** [c.isspace()], for the characters below 256: the ASCII blanks, the
    four separators 0x1C to 0x1F, NEL (0x85) and the no-break space
    (0xA0).  [str.split()] splits at these. *)
Definition isspace (c : ascii) : bool :=
  let n := N_of_ascii c in
  ((9 <=? n) && (n <=? 13) || (28 <=? n) && (n <=? 32)
   || (n =? 133) || (n =? 160))%N.

(** The blanks [int()] skips around a literal: C's [isspace], and the
    blanks outside ASCII, which it first turns into spaces.  The four
    separators 0x1C to 0x1F are not among them. *)
Definition isspace_int (c : ascii) : bool :=
  let n := N_of_ascii c in
  ((9 <=? n) && (n <=? 13) || (n =? 32) || (n =? 133) || (n =? 160))%N.

Definition digit_of (c : ascii) : option Z :=
  let n := N_of_ascii c in
  if ((48 <=? n) && (n <=? 57))%N then Some (Z.of_N n - 48) else None.

(** [s] without the prefix [p], when it has it. *)
Fixpoint strip_prefix (p s : string) : option string :=
  match p, s with
  | EmptyString, _ => Some s
  | String a p', String b s' =>
      if Ascii.eqb a b then strip_prefix p' s' else None
  | String _ _, EmptyString => None
  end.

(** [s.partition(sep)] when [sep] occurs: the text before the first
    occurrence and the text after it. *)
Fixpoint cut (sep s : string) : option (string * string) :=
  match strip_prefix sep s with
  | Some rest => Some (EmptyString, rest)
  | None =>
      match s with
      | EmptyString => None
      | String c s' =>
          match cut sep s' with
          | Some (b, a) => Some (String c b, a)
          | None => None
          end
      end
  end.

(** [sep in s]. *)
Definition contains (sep s : string) : bool :=
  match cut sep s with Some _ => true | None => false end.

(** [s.split(sep)[1]] for a non-empty [sep]: the text between the
    first and the second occurrence of [sep] (or the end).  [None] is
    Python's [IndexError]. *)
Definition split_second (sep s : string) : option string :=
  match cut sep s with
  | None => None
  | Some (_, rest) =>
      match cut sep rest with
      | Some (b, _) => Some b
      | None => Some rest
      end
  end.

Fixpoint lstrip (s : string) : string :=
  match s with
  | String c s' => if isspace c then lstrip s' else s
  | EmptyString => EmptyString
  end.

Fixpoint take_word (s : string) : string :=
  match s with
  | String c s' => if isspace c then EmptyString else String c (take_word s')
  | EmptyString => EmptyString
  end.

(** [s.split()[0]]: the first run of non-blank characters; [None] is
    Python's [IndexError] on a blank string. *)
Definition first_word (s : string) : option string :=
  match lstrip s with
  | EmptyString => None
  | w => Some (take_word w)
  end.

(** [s.split(c)] for a one-character separator. *)
Fixpoint split_char (c : ascii) (s : string) : list string :=
  match s with
  | EmptyString => [EmptyString]
  | String a s' =>
      match split_char c s' with
      | w :: ws => if Ascii.eqb a c then EmptyString :: w :: ws
                   else String a w :: ws
      | [] => []
      end
  end.

(** What is left of a string after the blanks [int()] skips. *)
Fixpoint lstrip_int (s : string) : string :=
  match s with
  | String c s' => if isspace_int c then lstrip_int s' else s
  | EmptyString => EmptyString
  end.

(** The digits of a decimal literal: digits with single underscores
    between them, then optional trailing blanks. *)
Fixpoint digits (need_digit : bool) (acc : Z) (s : string) : option Z :=
  match s with
  | EmptyString => if need_digit then None else Some acc
  | String c s' =>
      match digit_of c with
      | Some d => digits false (10 * acc + d) s'
      | None =>
          if need_digit then None
          else if Ascii.eqb c "_"%char then digits true acc s'
          else if isspace_int c then
            match lstrip_int s' with EmptyString => Some acc | _ => None end
          else None
      end
  end.

(** [int(s)] for a string: blanks are stripped, one optional sign,
    base 10.  [None] is Python's [ValueError]. *)
Definition int_of_str (s : string) : option Z :=
  match lstrip_int s with
  | String "-"%char s' => Z.opp <$> digits true 0 s'
  | String "+"%char s' => digits true 0 s'
  | s' => digits true 0 s'
  end.

(** [str(n)] for an integer. *)
Definition str_of_int (n : Z) : string := pretty n.

End PyStr.

(** ** Detection scan: [run_cropdetect] *)

(** One output line: the [crop=w:h:x:y] token after the first [crop=],
    when the line has one that parses. Every failure inside the [try]
    is swallowed by [except Exception]. *)
Definition parse_crop_line (ln : string) : option crop :=
  if PyStr.contains "crop=" ln then
    frag ← PyStr.split_second "crop=" ln ≫= PyStr.first_word;
    match PyStr.split_char ":"%char frag with
    | [w; h; x; y] =>
        w ← PyStr.int_of_str w; h ← PyStr.int_of_str h;
        x ← PyStr.int_of_str x; y ← PyStr.int_of_str y;
        Some (w, h, x, y)
    | _ => None
    end
  else None.

(** The list [crops] after the loop over the lines. *)
Definition parse_crops (lines : list string) : list crop :=
  omap parse_crop_line lines.

Instance crop_eq_dec : EqDecision crop.
Proof. solve_decision. Defined.

(** [Counter]: a dictionary from tuples to counts, kept in insertion
    order as Python dictionaries are. *)
Definition Counter : Type := list (crop * nat).

(** [self[elem] = self.get(elem, 0) + 1]. *)
Fixpoint counter_add (t : crop) (cnt : Counter) : Counter :=
  match cnt with
  | [] => [(t, 1%nat)]
  | (k, n) :: rest =>
      if decide (k = t) then (k, S n) :: rest
      else (k, n) :: counter_add t rest
  end.

(** [Counter(crops)]. *)
Definition counter_of (crops : list crop) : Counter :=
  fold_left (fun cnt t => counter_add t cnt) crops [].

(** [max(items, key=itemgetter(1))]: the running maximum is replaced
    only by a strictly greater count, so the first maximal item wins. *)
Fixpoint max_by_count (best : crop * nat) (items : Counter) : crop * nat :=
  match items with
  | [] => best
  | it :: rest =>
      if (snd best <? snd it)%nat then max_by_count it rest
      else max_by_count best rest
  end.

(** [cnt.most_common(1)]: [heapq.nlargest(1, ...)], which is the [max]
    above; the empty counter gives the empty list. *)
Definition most_common_1 (cnt : Counter) : list (crop * nat) :=
  match cnt with
  | [] => []
  | it :: rest => [max_by_count it rest]
  end.

Definition even4 (c : crop) : crop :=
  let '(w, h, x, y) := c in (even w, even h, even x, even y).

(** The part of [run_cropdetect] after the parsing loop. *)
Definition consensus (crops : list crop) : option crop :=
  match crops with
  | [] => None
  | _ =>
      match most_common_1 (counter_of crops) with
      | (mode, _) :: _ => Some (even4 mode)
      | [] => None
      end
  end.

(** [run_cropdetect], from the lines of the scan's two output channels. *)
Definition run_cropdetect (lines : list string) : option crop :=
  consensus (parse_crops lines).

(** ** Encoder resolver *)

(** [CODEC_MAP]: ffprobe codec names to encoders. *)
Definition CODEC_MAP : gmap string string :=
  list_to_map
    [("h264", "libx264");
     ("hevc", "libx265");
     ("mpeg4", "mpeg4");
     ("mpeg2video", "mpeg2video");
     ("vp9", "libvpx-vp9");
     ("av1", "libaom-av1");
     ("theora", "libtheora");
     ("prores", "prores_ks");
     ("h263", "h263")].

(** [choose_encoder(codec_name)]. *)
Definition choose_encoder (codec_name : string) : string :=
  match CODEC_MAP !! codec_name with
  | None => codec_name
  | Some enc => enc
  end.

(** ** Plan builder *)

(** [v_encoder in ("libx264", "libx265")] and
    [v_encoder in ("libvpx-vp9", "libaom-av1")]. *)
Definition is_x26x (v_encoder : string) : bool :=
  bool_decide (v_encoder = "libx264") || bool_decide (v_encoder = "libx265").
Definition needs_zero_bitrate (v_encoder : string) : bool :=
  bool_decide (v_encoder = "libvpx-vp9") || bool_decide (v_encoder = "libaom-av1").

(** The arguments of [build_ffmpeg_cmd] before the quality mode. *)
Definition encode_base (src : string) (c : crop) (v_encoder preset : string)
  : list string :=
  let '(crop_w, crop_h, x, y) := c in
  let vf := "crop=" +:+ PyStr.str_of_int crop_w +:+ ":" +:+ PyStr.str_of_int crop_h
            +:+ ":" +:+ PyStr.str_of_int x +:+ ":" +:+ PyStr.str_of_int y in
  ["ffmpeg"; "-stats"; "-loglevel"; "level+info";
   "-y"; "-i"; src;
   "-map"; "0";
   "-map_metadata"; "0";
   "-map_chapters"; "0";
   "-c:a"; "copy";
   "-c:s"; "copy";
   "-c:d"; "copy";
   "-c:t"; "copy";
   "-c:v"; v_encoder;
   "-vf"; vf;
   "-preset"; preset].

(** The [if crf is not None: ... elif ...: ... else: ...] of
    [build_ffmpeg_cmd]: the quality arguments. *)
Definition quality_args (v_encoder : string) (v_bitrate crf : option Z)
  : list string :=
  let zero_bitrate :=
    if needs_zero_bitrate v_encoder then ["-b:v"; "0"] else [] in
  let fallback :=
    let fallback_crf := if is_x26x v_encoder then "18" else "28" in
    ["-crf"; fallback_crf] ++ zero_bitrate in
  match crf, v_bitrate with
  | Some q, _ => ["-crf"; PyStr.str_of_int q] ++ zero_bitrate
  | None, Some b =>
      if 0 <? b then
        ["-b:v"; PyStr.str_of_int b; "-maxrate"; PyStr.str_of_int b;
         "-bufsize"; PyStr.str_of_int (b * 2)]
      else fallback
  | None, None => fallback
  end.

(** [build_ffmpeg_cmd(src, dst, crop, v_encoder, v_bitrate, crf, preset)]. *)
Definition build_ffmpeg_cmd (src dst : string) (c : crop) (v_encoder : string)
    (v_bitrate crf : option Z) (preset : string) : list string :=
  encode_base src c v_encoder preset
  ++ quality_args v_encoder v_bitrate crf
  ++ ["-movflags"; "use_metadata_tags+faststart"; dst].

(** The stream-copy command [main] writes out when no crop is needed. *)
Definition copy_cmd (src dst : string) : list string :=
  ["ffmpeg"; "-stats"; "-loglevel"; "level+info"; "-y"; "-i"; src;
   "-map"; "0"; "-map_metadata"; "0"; "-map_chapters"; "0";
   "-c"; "copy"; "-movflags"; "use_metadata_tags+faststart";
   dst].

(** ** Probe documents *)

(** A JSON scalar as ffprobe prints these fields: an integer or a
    string.  An absent key is [None], as [dict.get] returns. *)
Inductive jvalue : Type :=
| JInt (n : Z)
| JStr (s : string).

Record stream : Type := {
  codec_type : option string;
  codec_name : option string;
  width : option jvalue;
  height : option jvalue;
  bit_rate : option jvalue;
  pix_fmt : option string
}.

Record probe_info : Type := {
  streams : list stream;
  format_bit_rate : option jvalue
}.

(** [parse_int(x)]: [int(x)], or [None] on [TypeError] and [ValueError]. *)
Definition parse_int (x : option jvalue) : option Z :=
  match x with
  | Some (JInt n) => Some n
  | Some (JStr s) => PyStr.int_of_str s
  | None => None
  end.

(** [get_video_stream(info)]: the first stream of type "video". *)
Definition get_video_stream (info : probe_info) : option stream :=
  List.find (fun s => bool_decide (codec_type s = Some "video")) (streams info).

(** Exceptions the program raises and never catches. *)
Inductive exn : Type :=
| RuntimeError
| JSONDecodeError
| ZeroDivisionError.

Inductive result (A : Type) : Type :=
| Ok (a : A)
| Raise (e : exn).
Arguments Ok {A} a.
Arguments Raise {A} e.

(** [ffprobe_json(path)], from what the probe run returned: its exit
    status and its standard output, [None] when that is not JSON. *)
Definition ffprobe_json (rc : Z) (out : option probe_info) : result probe_info :=
  if negb (rc =? 0) then Raise RuntimeError
  else match out with
       | Some info => Ok info
       | None => Raise JSONDecodeError
       end.

(** ** Batch orchestrator: [main] *)

(** The command-line options the decisions depend on.  The input list
    is the batch itself; the output directory and the scan duration
    only reach the external tools. *)
Record args : Type := {
  use_cropdetect : bool;
  crf : option Z;
  preset : string;
  dry_run : bool
}.

(** What the external collaborators answer for one input path. *)
Record file_env : Type := {
  f_src : string;                  (* [str(srcp)]; in messages, [src] as typed *)
  f_dst : string;                  (* [str(output_path_for(srcp, outdir))] *)
  f_exists : bool;                 (* [srcp.exists()] *)
  f_probe_rc : Z;                  (* exit status of ffprobe *)
  f_probe_out : option probe_info; (* its output, when it is JSON *)
  f_scan : list string;            (* lines the cropdetect scan printed *)
  f_run_rc : Z                     (* exit status of the ffmpeg run *)
}.

(** [v_bitrate] as [main] computes it: the stream's bit rate, the
    container's when that is [None], and [None] below 100000. *)
Definition source_bitrate (v : stream) (info : probe_info) : option Z :=
  let v_bitrate := parse_int (bit_rate v) in
  let v_bitrate :=
    match v_bitrate with
    | None => parse_int (format_bit_rate info)
    | Some _ => v_bitrate
    end in
  match v_bitrate with
  | Some b => if b <? 100000 then None else v_bitrate
  | None => None
  end.

(** [src_aspect = iw / ih if ih else 0.0]. *)
Definition src_aspect (iw ih : Z) : float :=
  if ih =? 0 then 0%float else Py.truediv iw ih.

(** [src_aspect > (4/3) + 0.005]. *)
Definition wider_than_4x3 (iw ih : Z) : bool :=
  PrimFloat.ltb (PrimFloat.add (Py.truediv 4 3) Py.lit_0_005) (src_aspect iw ih).

(** [abs((cw / ch) - (4/3)) < 0.01], for [ch <> 0]. *)
Definition near_4x3 (cw ch : Z) : bool :=
  PrimFloat.ltb
    (PrimFloat.abs (PrimFloat.sub (Py.truediv cw ch) (Py.truediv 4 3)))
    Py.lit_0_01.

(** The body of [if c:] in [main]: the nudge of a detected crop to an
    exact 4:3 width.  The division raises when [ch] is 0. *)
Definition snap_4x3 (iw : Z) (c : crop) : result crop :=
  let '(cw, ch, cx, cy) := c in
  if ch =? 0 then Raise ZeroDivisionError
  else if near_4x3 cw ch then
    let cw := even (round_4x3 ch) in
    let cx := even (Py.floordiv (iw - cw) 2) in
    Ok (cw, ch, cx, cy)
  else Ok (cw, ch, cx, cy).

(** The "Decide crop" block of [main]: [Ok None] is "no crop needed". *)
Definition decide_crop (a : args) (iw ih : Z) (scan : list string)
  : result (option crop) :=
  match (if use_cropdetect a then run_cropdetect scan else None) with
  | Some c =>
      match snap_4x3 iw c with
      | Ok c' => Ok (Some c')
      | Raise e => Raise e
      end
  | None =>
      if wider_than_4x3 iw ih then Ok (Some (centered_4x3_crop iw ih))
      else Ok None
  end.

(** [s.endswith(suffix)]. *)
Definition endswith (s suffix : string) : bool :=
  match PyStr.strip_prefix (String.rev suffix) (String.rev s) with
  | Some _ => true
  | None => false
  end.

(** What [main] writes and runs, in order.  The standard error of a
    failed command, which [main] prints before it exits, is not among
    the events. *)
Inductive event : Type :=
| MissingTools                              (* stderr: ffmpeg/ffprobe not found *)
| SkipMissing (src : string)                (* stderr: skipping missing file *)
| SkipNoVideo (src : string)                (* stderr: no video stream *)
| SkipNoDimensions (src : string)           (* stderr: could not read dimensions *)
| Note10bit (v_encoder : string)            (* stderr: input appears 10-bit *)
| NoteAlready4x3 (src : string)             (* stdout: already ~4:3, copying *)
| PrintCommand (cmd : list string)          (* stdout: "$" and the command *)
| RunCommand (cmd : list string) (rc : Z).  (* [run_live_capture(cmd)] *)

(** How the processing of one file, or the whole run, ends. *)
Inductive ending : Type :=
| Completed
| SysExit (rc : Z)
| Uncaught (e : exn).

(** The command a file gets: a stream copy or a video re-encode. *)
Inductive plan : Type :=
| StreamCopy (cmd : list string)
| Reencode (cmd : list string).


(** Printing a command and, unless [--dry-run], running it:
    a non-zero status ends the run with [sys.exit(rc)]. *)
Definition emit (a : args) (f : file_env) (cmd : list string)
  : list event * ending :=
  if dry_run a then ([PrintCommand cmd], Completed)
  else if negb (f_run_rc f =? 0)
       then ([PrintCommand cmd; RunCommand cmd (f_run_rc f)], SysExit (f_run_rc f))
       else ([PrintCommand cmd; RunCommand cmd (f_run_rc f)], Completed).

(** The plan for a file whose video stream [v] has dimensions [iw], [ih]:
    from "Decide crop" to the command. *)
Definition plan_file (a : args) (f : file_env) (info : probe_info) (v : stream)
    (iw ih : Z) : result plan :=
  match decide_crop a iw ih (f_scan f) with
  | Raise e => Raise e
  | Ok None => Ok (StreamCopy (copy_cmd (f_src f) (f_dst f)))
  | Ok (Some c) =>
      let v_encoder := choose_encoder (default "" (codec_name v)) in
      Ok (Reencode
            (build_ffmpeg_cmd (f_src f) (f_dst f) c v_encoder
               (match crf a with None => source_bitrate v info | Some _ => None end)
               (crf a) (preset a)))
  end.

(** One iteration of the [for src in args.inputs] loop. *)
Definition process_file (a : args) (f : file_env) : list event * ending :=
  if negb (f_exists f) then ([SkipMissing (f_src f)], Completed)
  else
    match ffprobe_json (f_probe_rc f) (f_probe_out f) with
    | Raise e => ([], Uncaught e)
    | Ok info =>
        match get_video_stream info with
        | None => ([SkipNoVideo (f_src f)], Completed)
        | Some v =>
            match parse_int (width v), parse_int (height v) with
            | Some iw, Some ih =>
                match plan_file a f info v iw ih with
                | Raise e => ([], Uncaught e)
                | Ok (StreamCopy cmd) =>
                    let '(evs, e) := emit a f cmd in
                    (NoteAlready4x3 (f_src f) :: evs, e)
                | Ok (Reencode cmd) =>
                    let v_encoder := choose_encoder (default "" (codec_name v)) in
                    let note :=
                      if is_x26x v_encoder && endswith (default "" (pix_fmt v)) "10le"
                      then [Note10bit v_encoder] else [] in
                    let '(evs, e) := emit a f cmd in
                    (note ++ evs, e)
                end
            | _, _ => ([SkipNoDimensions (f_src f)], Completed)
            end
        end
    end.

(** The loop: a file that does not end with [Completed] ends the run. *)
Fixpoint run_batch (a : args) (files : list file_env) : list event * ending :=
  match files with
  | [] => ([], Completed)
  | f :: rest =>
      match process_file a f with
      | (evs, Completed) =>
          let '(evs', e) := run_batch a rest in (evs ++ evs', e)
      | (evs, e) => (evs, e)
      end
  end.

(** [main()], after argument parsing: [tools] is whether both ffmpeg and
    ffprobe were found in PATH. *)
Definition main (tools : bool) (a : args) (files : list file_env)
  : list event * ending :=
  if negb tools then ([MissingTools], SysExit 1)
  else run_batch a files.

(** ** The specification's vocabulary

    Definitions that follow the words of the specification, for
    comparison with the program's. *)

(** "Rounded down to the nearest even integer". *)
Definition round_down_even (n : Z) : Z := 2 * (n / 2).

(** The largest even integer that is at most the ratio [a / b], [b > 0]. *)
Definition round_down_even_ratio (a b : Z) : Z := 2 * (a / (2 * b)).

(** The integer nearest to the ratio [a / b], [b > 0] (a half goes up;
    [ih * 4 / 3] is never a half). *)
Definition nearest_ratio (a b : Z) : Z := (2 * a + b) / (2 * b).

(** Section 4.2, mode 1: the analytic centered crop. *)
Definition analytic_crop_spec (iw ih : Z) : crop :=
  let w := round_down_even (Z.min iw (nearest_ratio (ih * 4) 3)) in
  let h := round_down_even ih in
  (w, h, round_down_even_ratio (iw - w) 2, round_down_even_ratio (ih - h) 2).

(** Section 3: the invariant of a CropSpec for a source of [iw] by [ih]. *)
Definition crop_even (c : crop) : Prop :=
  let '(w, h, x, y) := c in Z.Even w /\ Z.Even h /\ Z.Even x /\ Z.Even y.

Definition crop_in_frame (iw ih : Z) (c : crop) : Prop :=
  let '(w, h, x, y) := c in
  0 <= w /\ 0 <= h /\ 0 <= x /\ 0 <= y /\ x + w <= iw /\ y + h <= ih.

Definition crop_ok (iw ih : Z) (c : crop) : Prop :=
  crop_even c /\ crop_in_frame iw ih c.

(** Section 4.4: the quality decision table, evaluated in order. *)
Inductive quality : Type :=
| BitrateParity (target maxrate bufsize : Z)
| ConstantQuality (crf : string) (zero_bitrate : bool).

Definition quality_table (requested bitrate : option Z) (v_encoder : string)
  : quality :=
  let zero :=
    bool_decide (v_encoder = "libvpx-vp9" \/ v_encoder = "libaom-av1") in
  let fallback :=
    if bool_decide (v_encoder = "libx264" \/ v_encoder = "libx265")
    then "18" else "28" in
  match requested with
  | Some v => ConstantQuality (PyStr.str_of_int v) zero
  | None =>
      match bitrate with
      | Some b =>
          if 100000 <=? b then BitrateParity b b (2 * b)
          else ConstantQuality fallback zero
      | None => ConstantQuality fallback zero
      end
  end.

(** The arguments a quality decision stands for. *)
Definition quality_flags (q : quality) : list string :=
  match q with
  | BitrateParity target maxrate bufsize =>
      ["-b:v"; PyStr.str_of_int target; "-maxrate"; PyStr.str_of_int maxrate;
       "-bufsize"; PyStr.str_of_int bufsize]
  | ConstantQuality v zero =>
      ["-crf"; v] ++ (if zero then ["-b:v"; "0"] else [])
  end.

(** The source bit rate before the 100000 floor: the stream's when it is
    numeric, the container's otherwise. *)
Definition probed_bitrate (v : stream) (info : probe_info) : option Z :=
  match parse_int (bit_rate v) with
  | Some b => Some b
  | None => parse_int (format_bit_rate info)
  end.

(** How often [t] occurs among the parsed suggestions. *)
Definition occurrences (crops : list crop) (t : crop) : nat :=
  count_occ crop_eq_dec crops t.

(** [cnt.get(k, 0)]. *)
Fixpoint counter_get (cnt : Counter) (k : crop) : nat :=
  match cnt with
  | [] => 0%nat
  | (k', n) :: rest => if decide (k' = k) then n else counter_get rest k
  end.

(** [m] is the first suggestion, in scan order, among the most
    frequent ones. *)
Definition first_most_frequent (crops : list crop) (m : crop) : Prop :=
  exists pre post,
    crops = pre ++ m :: post /\
    (forall x, In x pre -> (occurrences crops x < occurrences crops m)%nat) /\
    (forall x, (occurrences crops x <= occurrences crops m)%nat).

(** The mantissa of binary64's 3.0, [3 * 2^51]. *)
Definition three_m : positive := 6755399441055744.

(** The options between the input and the output of a command. *)
Definition copy_options : list string :=
  ["-map"; "0"; "-map_metadata"; "0"; "-map_chapters"; "0";
   "-c"; "copy"; "-movflags"; "use_metadata_tags+faststart"].

(** The options that select a video encoder, a filter or a quality. *)
Definition reencode_options : list string :=
  ["-c:v"; "-vf"; "-preset"; "-crf"; "-b:v"; "-maxrate"; "-bufsize"].

(** ** Example inputs *)

Definition args_default : args :=
  {| use_cropdetect := false; crf := None; preset := "medium"; dry_run := false |}.

Definition args_cropdetect : args :=
  {| use_cropdetect := true; crf := None; preset := "medium"; dry_run := false |}.

(** What cropdetect prints over black frames of a 1920x1080 video. *)
Definition scan_black_frames : list string :=
  ["[Parsed_cropdetect_0 @ 0x55d0] x1:1919 x2:0 y1:1079 y2:0 w:-1904 h:-1072 x:1914 y:1078 pts:0 t:0.000000 crop=-1904:-1072:1914:1078"].

(** The scan of end-to-end scenario 3. *)
Definition scan_scenario_3_lines : list string :=
  ["[Parsed_cropdetect_0 @ 0x55d0] x1:241 x2:1678 y1:0 y2:1079 w:1438 h:1080 x:241 y:0 pts:1 t:0.04 crop=1438:1080:241:0";
   "[Parsed_cropdetect_0 @ 0x55d0] x1:240 x2:1679 y1:0 y2:1079 w:1440 h:1080 x:240 y:0 pts:2 t:0.08 crop=1440:1080:240:0";
   "frame=    3 fps=0.0 q=-0.0 size=N/A time=00:00:00.12 bitrate=N/A speed=   1x";
   "[Parsed_cropdetect_0 @ 0x55d0] x1:241 x2:1678 y1:0 y2:1079 w:1438 h:1080 x:241 y:0 pts:3 t:0.12 crop=1438:1080:241:0";
   "[Parsed_cropdetect_0 @ 0x55d0] x1:241 x2:1678 y1:0 y2:1079 w:1438 h:1080 x:241 y:0 pts:4 t:0.16 crop=1438:1080:241:0"].

(** A probed h264 video stream of the given size and stream bit rate. *)
Definition h264_stream (w h : Z) (rate : option jvalue) : stream :=
  {| codec_type := Some "video"; codec_name := Some "h264";
     width := Some (JInt w); height := Some (JInt h);
     bit_rate := rate; pix_fmt := Some "yuv420p" |}.

Definition audio_stream : stream :=
  {| codec_type := Some "audio"; codec_name := Some "aac";
     width := None; height := None;
     bit_rate := Some (JStr "128000"); pix_fmt := None |}.

(** An input file that exists and probes to one video and one audio
    stream; the encoder run succeeds. *)
Definition good_file (src dst : string) (v : stream) (container_rate : option jvalue)
    (scan : list string) : file_env :=
  {| f_src := src; f_dst := dst; f_exists := true;
     f_probe_rc := 0;
     f_probe_out := Some {| streams := [audio_stream; v];
                            format_bit_rate := container_rate |};
     f_scan := scan; f_run_rc := 0 |}.



(** End-to-end scenario 1: a 1920x1080 h264 source at 4,000,000 bits
    per second. *)
Definition scenario_1_file : file_env :=
  good_file "in.mp4" "in.4x3.mp4"
    (h264_stream 1920 1080 (Some (JStr "4000000"))) (Some (JStr "4128000")) [].

Definition scenario_1_info : probe_info :=
  {| streams := [audio_stream; h264_stream 1920 1080 (Some (JStr "4000000"))];
     format_bit_rate := Some (JStr "4128000") |}.

Definition scenario_1_cmd : list string :=
  ["ffmpeg"; "-stats"; "-loglevel"; "level+info"; "-y"; "-i"; "in.mp4";
   "-map"; "0"; "-map_metadata"; "0"; "-map_chapters"; "0";
   "-c:a"; "copy"; "-c:s"; "copy"; "-c:d"; "copy"; "-c:t"; "copy";
   "-c:v"; "libx264"; "-vf"; "crop=1440:1080:240:0"; "-preset"; "medium";
   "-b:v"; "4000000"; "-maxrate"; "4000000"; "-bufsize"; "8000000";
   "-movflags"; "use_metadata_tags+faststart"; "in.4x3.mp4"].

(** End-to-end scenario 2: a 1280x960 source, exactly 4:3. *)
Definition scenario_2_file : file_env :=
  good_file "tape.mkv" "tape.4x3.mkv"
    (h264_stream 1280 960 (Some (JStr "2500000"))) None [].


Definition scenario_2_info : probe_info :=
  {| streams := [audio_stream; h264_stream 1280 960 (Some (JStr "2500000"))];
     format_bit_rate := None |}.

(** What cropdetect prints for a 1920x1080 video that is black but for
    a bright band ten rows high: with its rounding to multiples of 16
    the suggested height is 0. *)
Definition scan_thin_band : list string :=
  ["[Parsed_cropdetect_0 @ 0x55d0] x1:0 x2:1919 y1:536 y2:545 w:1920 h:0 x:0 y:542 pts:1 t:0.04 crop=1920:0:0:542"].

Definition thin_band_file : file_env :=
  good_file "band.mp4" "band.4x3.mp4"
    (h264_stream 1920 1080 (Some (JStr "4000000"))) None scan_thin_band.


(** End-to-end scenario 3 as an input file. *)
Definition scenario_3_file : file_env :=
  good_file "wide.mp4" "wide.4x3.mp4"
    (h264_stream 1920 1080 (Some (JStr "4000000"))) None scan_scenario_3_lines.


(** ** Vocabulary for traces *)

(** The commands a trace prints, and the commands it runs. *)
Definition printed (evs : list event) : list (list string) :=
  omap (fun ev => match ev with PrintCommand cmd => Some cmd | _ => None end) evs.

Definition executed (evs : list event) : list (list string) :=
  omap (fun ev => match ev with RunCommand cmd _ => Some cmd | _ => None end) evs.

(** A trace in which each run directly follows the print of the same
    command. *)
Inductive announced : list event -> Prop :=
| announced_nil : announced []
| announced_note ev evs :
    printed [ev] = [] -> executed [ev] = [] ->
    announced evs -> announced (ev :: evs)
| announced_print cmd evs :
    announced evs -> announced (PrintCommand cmd :: evs)
| announced_run cmd rc evs :
    announced evs -> announced (PrintCommand cmd :: RunCommand cmd rc :: evs).


(** A run that only prints its commands. *)
Definition args_dry_run : args :=
  {| use_cropdetect := false; crf := None; preset := "medium"; dry_run := true |}.

(** The filter text of [build_ffmpeg_cmd]: [f"crop={crop_w}:{crop_h}:{x}:{y}"]. *)
Definition crop_filter (c : crop) : string :=
  let '(crop_w, crop_h, x, y) := c in
  "crop=" +:+ PyStr.str_of_int crop_w +:+ ":" +:+ PyStr.str_of_int crop_h
  +:+ ":" +:+ PyStr.str_of_int x +:+ ":" +:+ PyStr.str_of_int y.

(** Every character of [s] satisfies [p]. *)
Fixpoint string_forall (p : ascii -> bool) (s : string) : bool :=
  match s with
  | EmptyString => true
  | String c s' => p c && string_forall p s'
  end.

(** The characters of a decimal numeral: the digits and the minus sign. *)
Definition numeral_char (c : ascii) : bool :=
  match PyStr.digit_of c with
  | Some _ => true
  | None => Ascii.eqb c "-"%char
  end.


(** ** Output naming: [output_path_for] *)

Module PyPath.

(** [name.rfind(c)]: the index of the last [c] in [name]. *)
Fixpoint rfind (c : ascii) (name : string) : option nat :=
  match name with
  | EmptyString => None
  | String a rest =>
      match rfind c rest with
      | Some i => Some (S i)
      | None => if Ascii.eqb a c then Some 0%nat else None
      end
  end.

(** [name[:i]] and [name[i:]]. *)
Fixpoint take (i : nat) (name : string) : string :=
  match i, name with
  | S j, String a rest => String a (take j rest)
  | _, _ => EmptyString
  end.

Fixpoint drop (i : nat) (name : string) : string :=
  match i, name with
  | S j, String _ rest => drop j rest
  | _, _ => name
  end.

(** Where pathlib splits a file name into stem and suffix: at the last
    dot, when that is neither the first nor the last character (the
    definition of CPython 3.4 to 3.13). *)
Definition split_at (name : string) : option nat :=
  match rfind "." name with
  | Some i =>
      if (0 <? i)%nat && (i <? String.length name - 1)%nat then Some i else None
  | None => None
  end.

(** [PurePath.suffix] and [PurePath.stem], from the path's [name]. *)
Definition suffix (name : string) : string :=
  match split_at name with
  | Some i => drop i name
  | None => EmptyString
  end.

Definition stem (name : string) : string :=
  match split_at name with
  | Some i => take i name
  | None => name
  end.

End PyPath.

(** The file name [f"{stem}.4x3{p.suffix}"] of the output, from the
    name of the input path. *)
Definition output_name (name : string) : string :=
  PyPath.stem name +:+ ".4x3" +:+ PyPath.suffix name.

(** [output_path_for(input_path, outdir)], as the two arguments it
    gives to [Path]: the directory [outdir or p.parent] and the file
    name.  [parent] and [name] are [p.parent] and [p.name] of the input
    path; an [outdir] that is [None] or empty is false for [or]. *)
Definition output_path_for (parent name : string) (outdir : option string)
  : string * string :=
  let dir :=
    match outdir with
    | Some d => if bool_decide (d = EmptyString) then parent else d
    | None => parent
    end in
  (dir, output_name name).


(** ** Inputs the loop passes over *)

(** The inputs [main] leaves with a message and [continue]: a path that
    does not exist, a probed document without a video stream, or a
    video stream whose width or height [parse_int] cannot read. *)
Definition skipped (f : file_env) : Prop :=
  f_exists f = false \/
  exists info,
    ffprobe_json (f_probe_rc f) (f_probe_out f) = Ok info /\
    match get_video_stream info with
    | None => True
    | Some v => parse_int (width v) = None \/ parse_int (height v) = None
    end.

(** A path that does not exist. *)
Definition missing_file : file_env :=
  {| f_src := "gone.mp4"; f_dst := "gone.4x3.mp4"; f_exists := false;
     f_probe_rc := 1; f_probe_out := None; f_scan := []; f_run_rc := 0 |}.

(** A 10-bit HEVC source of 1920x1080. *)
Definition hevc_10bit_stream : stream :=
  {| codec_type := Some "video"; codec_name := Some "hevc";
     width := Some (JInt 1920); height := Some (JInt 1080);
     bit_rate := Some (JStr "6000000"); pix_fmt := Some "yuv420p10le" |}.

Definition hevc_10bit_file : file_env :=
  {| f_src := "hdr.mkv"; f_dst := "hdr.4x3.mkv"; f_exists := true;
     f_probe_rc := 0;
     f_probe_out := Some {| streams := [hevc_10bit_stream]; format_bit_rate := None |};
     f_scan := []; f_run_rc := 0 |}.


(** * The GIF converter: [gif/videotogif.py] *)

Module OsPath.

(** The two flavours of [os.path]: [posixpath] and [ntpath]. *)
Inductive platform : Type := Posix | Nt.

(** [p.rfind(c)] as Python returns it: -1 when [c] does not occur. *)
Definition rfind (c : ascii) (p : string) : Z :=
  match PyPath.rfind c p with
  | Some i => Z.of_nat i
  | None => -1
  end.

(** [sepIndex]: the last [/], and on Windows the last of the backslash
    (character 92) and [/]. *)
Definition sep_index (pl : platform) (p : string) : Z :=
  match pl with
  | Posix => rfind "/" p
  | Nt => Z.max (rfind "092" p) (rfind "/" p)
  end.

(** The loop of [genericpath._splitext] over the characters from
    [filenameIndex], [n] of them up to [dotIndex]: whether it returns
    from inside, at a character that is no dot. *)
Fixpoint leaves_at_name (p : string) (filenameIndex n : nat) : bool :=
  match n with
  | O => false
  | S n' =>
      match String.get filenameIndex p with
      | Some c =>
          if Ascii.eqb c "." then leaves_at_name p (S filenameIndex) n' else true
      | None => true
      end
  end.

(** [os.path.splitext(p)]. *)
Definition splitext (pl : platform) (p : string) : string * string :=
  let sepIndex := sep_index pl p in
  let dotIndex := rfind "." p in
  if (sepIndex <? dotIndex)
     && leaves_at_name p (Z.to_nat (sepIndex + 1)) (Z.to_nat (dotIndex - (sepIndex + 1)))
  then (PyPath.take (Z.to_nat dotIndex) p, PyPath.drop (Z.to_nat dotIndex) p)
  else (p, EmptyString).

End OsPath.

Module VideoToGif.

(** What the handler does that is seen from outside: the shell command
    it runs and the dialogs it opens. *)
Inductive gui_event : Type :=
| RunShell (command : string)          (* [subprocess.run(command, shell=True)] *)
| ShowInfo (title message : string)    (* [messagebox.showinfo] *)
| ShowError (title message : string).  (* [messagebox.showerror] *)

(** The double quote character, as a string. *)
Definition dquote : string := String "034" EmptyString.

(** [filepath.endswith(('.mp4', '.mkv', '.avi'))]. *)
Definition accepted (filepath : string) : bool :=
  endswith filepath ".mp4" || endswith filepath ".mkv" || endswith filepath ".avi".

(** The f-string of the command. *)
Definition gif_command (filepath output_path : string) : string :=
  "ffmpeg -i " +:+ dquote +:+ filepath +:+ dquote
  +:+ " -vf " +:+ dquote +:+ "fps=10,scale=320:-1:flags=lanczos" +:+ dquote
  +:+ " " +:+ dquote +:+ output_path +:+ dquote.

(** [drop(event)], from [event.data]; the exit status of the command
    is not looked at. *)
Definition drop (pl : OsPath.platform) (filepath : string) : list gui_event :=
  if accepted filepath then
    let output_path := fst (OsPath.splitext pl filepath) +:+ ".gif" in
    [RunShell (gif_command filepath output_path);
     ShowInfo "Success" ("File converted and saved as " +:+ output_path)]
  else
    [ShowError "Error"
       "File type not supported. Please drop a .mp4, .mkv, or .avi file."].

(** The separators of a platform, and the dot. *)
Definition is_sep (pl : OsPath.platform) (c : ascii) : bool :=
  match pl with
  | OsPath.Posix => Ascii.eqb c "/"
  | OsPath.Nt => Ascii.eqb c "092" || Ascii.eqb c "/"
  end.

Definition is_dot (c : ascii) : bool := Ascii.eqb c ".".

(** A directory prefix: empty, or ending with a separator. *)
Definition dir_prefix (pl : OsPath.platform) (dir : string) : Prop :=
  dir = EmptyString \/
  exists d c, dir = d +:+ String c EmptyString /\ is_sep pl c = true.

End VideoToGif.


(** ** The scan and aspect tests in exact arithmetic *)






(** A scan of a 1920x1080 video that is letterboxed and pillarboxed,
    its picture a little right of the centre. *)
Definition scan_windowboxed : list string :=
  ["[Parsed_cropdetect_0 @ 0x55d0] x1:322 x2:1601 y1:60 y2:1019 w:1280 h:960 x:322 y:60 pts:1 t:0.04 crop=1280:960:322:60"].

(** A 1606x1200 source: its ratio is 4/3 + 0.005 exactly. *)
Definition tie_file : file_env :=
  good_file "tie.mp4" "tie.4x3.mp4"
    (h264_stream 1606 1200 (Some (JStr "4000000"))) None [].


(** * Properties *)

(** ** Rounding to even *)

Lemma even_spec (n : Z) : even n = 2 * (n / 2).
Proof. unfold even, Py.mod_. pose proof (Z.div_mod n 2). lia. Qed.

Lemma even_is_even (n : Z) : Z.Even (even n).
Proof. exists (n / 2). apply even_spec. Qed.

Lemma even_le (n : Z) : even n <= n.
Proof. unfold even, Py.mod_. pose proof (Z.mod_pos_bound n 2). lia. Qed.

Lemma even_gt (n : Z) : n - 2 < even n.
Proof. unfold even, Py.mod_. pose proof (Z.mod_pos_bound n 2). lia. Qed.

Lemma even_nonneg (n : Z) : 0 <= n -> 0 <= even n.
Proof. intros Hn. rewrite even_spec. pose proof (Z.div_pos n 2). lia. Qed.

Lemma even_of_even (n : Z) : Z.Even n -> even n = n.
Proof. intros [k ->]. rewrite even_spec. rewrite (Z.mul_comm 2 k), Z.div_mul; lia. Qed.

(** [even n] is the largest even integer that is at most [n]. *)
Lemma even_greatest (n m : Z) : Z.Even m -> m <= n -> m <= even n.
Proof. intros [k ->] Hle. pose proof (even_gt n). destruct (even_is_even n) as [j Hj]. lia. Qed.

(** ** [round(h * 4 / 3)] in binary64 is the nearest integer

    The quotient of a positive integer below 2^52 by 3 is followed
    through the specification of binary64 division ([SFdiv]): the
    dividend is normalised to 53 digits, the 55-bit quotient by
    [3 * 2^51] is rounded to 53 digits, and the result is within a
    third of a unit in the last place of the exact quotient, which is
    at most 1/12.  The nearest integer of the float is then the nearest
    integer of the exact quotient. *)

Lemma digits2_pos_size (p : positive) : digits2_pos p = Pos.size p.
Proof. induction p; simpl; congruence. Qed.

Lemma digits2_log2 (p : positive) : Zpos (digits2_pos p) = Z.log2 (Zpos p) + 1.
Proof.
  rewrite digits2_pos_size. destruct p; simpl; lia.
Qed.

Lemma digits2_bounds (p : positive) :
  2 ^ (Zpos (digits2_pos p) - 1) <= Zpos p < 2 ^ Zpos (digits2_pos p).
Proof.
  rewrite digits2_log2. replace (Z.log2 (Z.pos p) + 1 - 1) with (Z.log2 (Zpos p)) by lia.
  pose proof (Z.log2_spec (Zpos p)). replace (Z.log2 (Z.pos p) + 1) with (Z.succ (Z.log2 (Zpos p))) by lia.
  apply H. lia.
Qed.

Lemma digits2_unique (p : positive) (n : Z) :
  2 ^ (n - 1) <= Zpos p < 2 ^ n -> Zpos (digits2_pos p) = n.
Proof.
  intros H. rewrite digits2_log2.
  assert (0 < n).
  { destruct (Z_lt_le_dec 0 n); [done|]. 
    assert (2 ^ n <= 1). { destruct (decide (n = 0)) as [->|]; [simpl; lia|]. rewrite Z.pow_neg_r; lia. }
    lia. }
  rewrite (Z.log2_unique (Zpos p) (n - 1)); [lia|lia|].
  replace (Z.succ (n - 1)) with n by lia. exact H.
Qed.

Lemma iter_xO_pow (p k : positive) : Zpos (Pos.iter xO p k) = Zpos p * 2 ^ Zpos k.
Proof.
  induction k using Pos.peano_ind.
  - simpl. lia.
  - rewrite Pos.iter_succ. rewrite Pos2Z.inj_xO, IHk.
    rewrite Pos2Z.inj_succ, Z.pow_succ_r; lia.
Qed.

Lemma shr_fexp_0 (p : positive) (e : Z) (l : location) :
  Zpos (digits2_pos p) = 53 -> -1074 <= e ->
  shr_fexp prec emax (Zpos p) e l = (shr_record_of_loc (Zpos p) l, e).
Proof.
  intros Hd He. unfold shr_fexp, fexp, emin, prec, emax. cbn [Zdigits2]. rewrite Hd.
  replace (Z.max (53 + e - 53) (3 - 1024 - 53) - e) with 0 by lia.
  reflexivity.
Qed.

Lemma shr_fexp_1 (p : positive) (e : Z) (l : location) :
  Zpos (digits2_pos p) = 54 -> -1075 <= e ->
  shr_fexp prec emax (Zpos p) e l = (shr_1 (shr_record_of_loc (Zpos p) l), e + 1).
Proof.
  intros Hd He. unfold shr_fexp, fexp, emin, prec, emax. cbn [Zdigits2]. rewrite Hd.
  replace (Z.max (54 + e - 53) (3 - 1024 - 53) - e) with 1 by lia.
  reflexivity.
Qed.

(** Rounding a 53-digit mantissa that needs no shift. *)
Lemma binary_round_aux_53 (s : bool) (p : positive) (e : Z) (l : location) (r : positive) :
  Zpos (digits2_pos p) = 53 -> -1074 <= e <= 971 ->
  round_nearest_even (Zpos p) l = Zpos r ->
  Zpos (digits2_pos r) = 53 ->
  binary_round_aux prec emax s (Zpos p) e l = S754_finite s r e.
Proof.
  intros Hd He Hr Hdr. unfold binary_round_aux.
  rewrite shr_fexp_0 by (done || lia).
  assert (shr_m (shr_record_of_loc (Zpos p) l) = Zpos p) as Hm
    by (destruct l as [|[]]; reflexivity).
  assert (loc_of_shr_record (shr_record_of_loc (Zpos p) l) = l) as Hl
    by (destruct l as [|[]]; reflexivity).
  rewrite Hm, Hl, Hr. rewrite shr_fexp_0 by (done || lia).
  cbn [shr_record_of_loc shr_m]. 
  replace (e <=? emax - prec) with true; [reflexivity|].
  symmetry. apply Z.leb_le. unfold emax, prec. lia.
Qed.

(** Rounding a 54-digit mantissa: one bit is shifted out. *)
Lemma binary_round_aux_54 (s : bool) (p : positive) (e : Z) (l : location) (r : positive) :
  Zpos (digits2_pos p) = 54 -> -1075 <= e <= 970 ->
  (let mrs := shr_1 (shr_record_of_loc (Zpos p) l) in
   round_nearest_even (shr_m mrs) (loc_of_shr_record mrs)) = Zpos r ->
  Zpos (digits2_pos r) = 53 ->
  binary_round_aux prec emax s (Zpos p) e l = S754_finite s r (e + 1).
Proof.
  intros Hd He Hr Hdr. unfold binary_round_aux.
  rewrite shr_fexp_1 by (done || lia).
  cbv zeta in Hr. rewrite Hr. rewrite shr_fexp_0 by (done || lia).
  cbn [shr_record_of_loc shr_m]. 
  replace (e + 1 <=? emax - prec) with true; [reflexivity|].
  symmetry. apply Z.leb_le. unfold emax, prec. lia.
Qed.

(** [float(n)] for a positive integer below 2^53 is exact. *)
Lemma binary_normalize_exact (p : positive) :
  Zpos p < 2 ^ 53 ->
  exists (m : positive) (k : Z),
    binary_normalize prec emax (Zpos p) 0 false = S754_finite false m (- k) /\
    0 <= k <= 52 /\ Zpos m = Zpos p * 2 ^ k /\ Zpos (digits2_pos m) = 53.
Proof.
  intros Hp. pose proof (digits2_bounds p) as Hb.
  set (d := Zpos (digits2_pos p)) in *.
  assert (1 <= d <= 53) as Hd.
  { split; [unfold d; lia|]. destruct (Z_lt_le_dec 53 d); [|done].
    assert (2 ^ 53 <= 2 ^ (d - 1)) by (apply Z.pow_le_mono_r; lia). lia. }
  unfold binary_normalize, binary_round.
  replace (fexp prec emax (Zpos (digits2_pos p) + 0)) with (d - 53)
    by (unfold fexp, emin, prec, emax; fold d; lia).
  destruct (decide (d = 53)) as [Hd53|Hd53].
  - exists p, 0. unfold shl_align.
    replace (d - 53 - 0) with 0 by lia. cbv beta iota.
    rewrite (binary_round_aux_53 false p 0 loc_Exact p); [|done|lia|done|done].
    repeat split; (lia || done).
  - unfold shl_align.
    assert (exists k, d - 53 - 0 = Zneg k) as [k Hk].
    { destruct (d - 53 - 0) eqn:E; try lia. eauto. }
    rewrite Hk. pose proof (Pos2Z.opp_pos k) as Hopp.
    exists (Pos.iter xO p k), (Zpos k).
    assert (Zpos (Pos.iter xO p k) = Zpos p * 2 ^ Zpos k) as Hm by apply iter_xO_pow.
    assert (Zpos (digits2_pos (Pos.iter xO p k)) = 53) as Hdm.
    { apply digits2_unique. rewrite Hm.
      assert (Zpos k = 53 - d) as Hkd by (clear - Hk Hopp; lia). rewrite Hkd.
      assert (2 ^ (53 - 1) = 2 ^ (d - 1) * 2 ^ (53 - d)) as ->
        by (rewrite <- Z.pow_add_r by lia; f_equal; lia).
      assert (2 ^ 53 = 2 ^ d * 2 ^ (53 - d)) as ->
        by (rewrite <- Z.pow_add_r by lia; f_equal; lia).
      assert (0 < 2 ^ (53 - d)) by (apply Z.pow_pos_nonneg; lia). nia. }
    rewrite (binary_round_aux_53 false _ (d - 53) loc_Exact (Pos.iter xO p k));
      [|done|lia|done|done].
    replace (d - 53) with (- Zpos k) by lia.
    repeat split; (lia || done).
Qed.

Lemma div_core_by_3 (m1 : positive) (k : Z) :
  Zpos (digits2_pos m1) = 53 -> 0 <= k <= 52 ->
  SFdiv_core_binary prec emax (Zpos m1) (- k) (Zpos three_m) (-51) =
    (4 * Zpos m1 / 3, - k - 2,
     match (4 * Zpos m1) mod 3 with
     | 0 => loc_Exact
     | 1 => loc_Inexact Lt
     | _ => loc_Inexact Gt
     end).
Proof.
  intros Hd Hk. unfold SFdiv_core_binary. cbn [Zdigits2]. rewrite Hd.
  replace (Zpos (digits2_pos three_m)) with 53 by (vm_compute; reflexivity).
  replace (Z.min (fexp prec emax (53 + - k - (53 + -51))) (- k - -51)) with (- k - 2)
    by (unfold fexp, emin, prec, emax; lia).
  replace (- k - -51 - (- k - 2)) with 53 by lia.
  rewrite Z.shiftl_mul_pow2 by lia.
  assert (Zpos m1 * 2 ^ 53 = (4 * Zpos m1) * 2 ^ 51) as -> by lia.
  assert (Zpos three_m = 3 * 2 ^ 51) as H3 by (vm_compute; reflexivity).
  rewrite H3.
  pose proof (Z.div_eucl_eq (4 * Zpos m1 * 2 ^ 51) (3 * 2 ^ 51)) as Heq.
  unfold Z.div, Z.modulo in *.
  assert (Z.div_eucl (4 * Zpos m1 * 2 ^ 51) (3 * 2 ^ 51) =
          ((4 * Zpos m1) / 3, ((4 * Zpos m1) mod 3) * 2 ^ 51)) as ->.
  { rewrite <- (Z.div_mul_cancel_r (4 * Zpos m1) 3 (2 ^ 51)) by lia.
    rewrite <- Z.mul_mod_distr_r by lia.
    unfold Z.div, Z.modulo. destruct (Z.div_eucl _ _). reflexivity. }
  f_equal.
  pose proof (Z.mod_pos_bound (4 * Zpos m1) 3 ltac:(lia)) as Hr.
  unfold new_location. replace (Z.even (3 * 2 ^ 51)) with true by (vm_compute; reflexivity).
  unfold new_location_even. fold (Z.modulo (4 * Zpos m1) 3) in *.
  assert ((4 * Zpos m1) mod 3 = 0 \/ (4 * Zpos m1) mod 3 = 1 \/ (4 * Zpos m1) mod 3 = 2)
    as [-> | [-> | ->]] by lia; vm_compute; reflexivity.
Qed.

Lemma sfdiv_by_3 (m1 : positive) (k : Z) :
  Zpos (digits2_pos m1) = 53 -> 0 <= k <= 52 ->
  exists (r : positive) (E : Z),
    SFdiv prec emax (S754_finite false m1 (- k)) (S754_finite false three_m (-51))
    = S754_finite false r (- E) /\
    ((E = k + 2 /\ -1 <= 3 * Zpos r - 4 * Zpos m1 <= 1) \/
     (E = k + 1 /\ -1 <= 3 * Zpos r - 2 * Zpos m1 <= 1)).
Proof.
  intros Hd Hk. unfold SFdiv. rewrite div_core_by_3 by done. cbn [xorb].
  pose proof (digits2_bounds m1) as Hb. rewrite Hd in Hb.
  change (2 ^ (53 - 1)) with 4503599627370496 in Hb.
  change (2 ^ 53) with 9007199254740992 in Hb.
  pose proof (Z.div_mod (4 * Zpos m1) 3 ltac:(lia)) as Hqr.
  pose proof (Z.mod_pos_bound (4 * Zpos m1) 3 ltac:(lia)) as Hr0.
  set (q := 4 * Zpos m1 / 3) in *. set (r0 := (4 * Zpos m1) mod 3) in *.
  assert (4503599627370496 <= q < 18014398509481984) as Hq by lia.
  destruct q as [|qp|qp] eqn:Eq; [lia| |lia].
  destruct (Z_lt_le_dec (Zpos qp) 9007199254740992) as [Hlt|Hge].
  - (* 53 digits: no shift *)
    assert (Zpos (digits2_pos qp) = 53) as Hdq
      by (apply digits2_unique;
          change (2 ^ (53 - 1)) with 4503599627370496;
          change (2 ^ 53) with 9007199254740992; lia).
    assert (r0 = 0 \/ r0 = 1 \/ r0 = 2) as [H0 | [H0 | H0]] by lia; rewrite H0 in *.
    + exists qp, (k + 2). split; [|left; lia].
      rewrite (binary_round_aux_53 false qp (- k - 2) loc_Exact qp) by (done || lia).
      f_equal; lia.
    + exists qp, (k + 2). split; [|left; lia].
      rewrite (binary_round_aux_53 false qp (- k - 2) (loc_Inexact Lt) qp) by (done || lia).
      f_equal; lia.
    + exists (qp + 1)%positive, (k + 2). split; [|left; lia].
      rewrite (binary_round_aux_53 false qp (- k - 2) (loc_Inexact Gt) (qp + 1)%positive).
      * f_equal; lia.
      * done.
      * lia.
      * reflexivity.
      * apply digits2_unique.
        change (2 ^ (53 - 1)) with 4503599627370496;
          change (2 ^ 53) with 9007199254740992. lia.
  - (* 54 digits: the last bit is shifted out *)
    assert (Zpos (digits2_pos qp) = 54) as Hdq
      by (apply digits2_unique;
          change (2 ^ (54 - 1)) with 9007199254740992;
          change (2 ^ 54) with 18014398509481984; lia).
    assert (forall j : positive, 4503599627370496 <= Zpos j < 9007199254740992 ->
            Zpos (digits2_pos j) = 53) as Hd53.
    { intros j Hj. apply digits2_unique.
      change (2 ^ (53 - 1)) with 4503599627370496;
        change (2 ^ 53) with 9007199254740992. lia. }
    assert (r0 = 0 \/ r0 = 1 \/ r0 = 2) as [H0 | [H0 | H0]] by lia; rewrite H0 in *;
      destruct qp as [j|j|]; try lia.
    + exists j, (k + 1). split; [|right; lia].
      rewrite (binary_round_aux_54 false (j~0) (- k - 2) loc_Exact j);
        [f_equal; lia | done | lia | reflexivity | apply Hd53; lia].
    + exists (j + 1)%positive, (k + 1). split; [|right; lia].
      rewrite (binary_round_aux_54 false (j~1) (- k - 2) (loc_Inexact Lt) (j + 1)%positive);
        [f_equal; lia | done | lia | reflexivity | apply Hd53; lia].
    + exists j, (k + 1). split; [|right; lia].
      rewrite (binary_round_aux_54 false (j~0) (- k - 2) (loc_Inexact Gt) j);
        [f_equal; lia | done | lia | reflexivity | apply Hd53; lia].
Qed.

Lemma Prim2SF_float_of_int (n : Z) :
  0 <= n < 2 ^ 63 ->
  Prim2SF (Py.float_of_int n) = binary_normalize prec emax n 0 false.
Proof.
  intros Hn. unfold Py.float_of_int.
  replace (n <? 0) with false by (symmetry; apply Z.ltb_ge; lia).
  rewrite of_uint63_spec, Uint63.of_Z_spec.
  rewrite Z.mod_small; [reflexivity|]. exact Hn.
Qed.

Lemma truediv_3_spec (p : Z) :
  0 < p < 2 ^ 52 ->
  exists (r : positive) (E : Z),
    Prim2SF (Py.truediv p 3) = S754_finite false r (- E) /\
    2 <= E /\ -1 <= 3 * Zpos r - p * 2 ^ E <= 1.
Proof.
  intros Hp. unfold Py.truediv. rewrite div_spec.
  rewrite !Prim2SF_float_of_int by lia.
  replace (binary_normalize prec emax 3 0 false)
    with (S754_finite false three_m (-51)) by (vm_compute; reflexivity).
  destruct p as [|pp|pp]; [lia| |lia].
  destruct (binary_normalize_exact pp) as (m & k & -> & Hk & Hm & Hd); [lia|].
  pose proof (digits2_bounds m) as Hb. rewrite Hd in Hb.
  assert (1 <= k).
  { destruct (decide (k = 0)) as [->|]; [|lia]. rewrite Z.mul_1_r in Hm.
    assert (2 ^ 52 <= Zpos pp) by (rewrite <- Hm; apply Hb). lia. }
  destruct (sfdiv_by_3 m k Hd Hk) as (r & E & Hdiv & HE).
  exists r, E. split; [exact Hdiv|].
  destruct HE as [[-> Hacc] | [-> Hacc]].
  - split; [lia|]. rewrite Z.pow_add_r by lia. change (2 ^ 2) with 4. lia.
  - split; [lia|]. rewrite Z.pow_add_r by lia. change (2 ^ 1) with 2. lia.
Qed.

Lemma round_half_even_near (m E n : Z) :
  1 <= E -> 2 * Z.abs (m - n * 2 ^ E) < 2 ^ E ->
  Py.round_half_even m (- E) = n.
Proof.
  intros HE Hnear. unfold Py.round_half_even.
  replace (0 <=? - E) with false by (symmetry; apply Z.leb_gt; lia).
  replace (- - E) with E by lia. cbv zeta.
  assert (0 < 2 ^ E) as HD by (apply Z.pow_pos_nonneg; lia).
  set (D := 2 ^ E) in *.
  pose proof (Z.div_mod m D ltac:(lia)) as Hdm.
  pose proof (Z.mod_pos_bound m D HD) as Hmod.
  set (q := m / D) in *. set (r := m mod D) in *.
  assert (q = n \/ q = n - 1) as [Hq | Hq] by nia.
  - assert (2 * r < D) by nia.
    replace (2 * r <? D) with true by (symmetry; apply Z.ltb_lt; lia). exact Hq.
  - assert (D < 2 * r) by nia.
    replace (2 * r <? D) with false by (symmetry; apply Z.ltb_ge; lia).
    replace (D <? 2 * r) with true by (symmetry; apply Z.ltb_lt; lia). lia.
Qed.

Lemma round_truediv_3 (p : Z) :
  0 < p < 2 ^ 52 -> Py.round (Py.truediv p 3) = (p + 1) / 3.
Proof.
  intros Hp. destruct (truediv_3_spec p Hp) as (r & E & Hsf & HE & Hacc).
  unfold Py.round. rewrite Hsf. cbn [cond_Zopp].
  apply round_half_even_near; [lia|].
  assert (4 <= 2 ^ E).
  { change 4 with (2 ^ 2). apply Z.pow_le_mono_r; lia. }
  pose proof (Z.div_mod (p + 1) 3 ltac:(lia)) as Hdm.
  pose proof (Z.mod_pos_bound (p + 1) 3 ltac:(lia)) as Hmod.
  set (n := (p + 1) / 3) in *. set (D := 2 ^ E) in *.
  nia.
Qed.

Lemma round_4x3_exact (h : Z) :
  0 < h < 2 ^ 50 -> round_4x3 h = (4 * h + 1) / 3.
Proof.
  intros Hh. unfold round_4x3. rewrite round_truediv_3 by lia.
  f_equal. lia.
Qed.

(** ** Division of two integers in binary64 *)

Lemma new_location_spec (d r : Z) :
  0 < d -> 0 <= r < d ->
  new_location d r = if r =? 0 then loc_Exact else loc_Inexact (2 * r ?= d).
Proof.
  intros Hd Hr. unfold new_location, new_location_even, new_location_odd.
  destruct (Z.even d) eqn:Ev; [reflexivity|].
  destruct (r =? 0); [reflexivity|]. f_equal.
  assert (Z.odd d = true) as Ho by (rewrite <- Z.negb_even, Ev; reflexivity).
  apply Z.odd_spec in Ho as [j Hj].
  destruct (Z.compare_spec (2 * r + 1) d), (Z.compare_spec (2 * r) d);
    try reflexivity; lia.
Qed.

Lemma digits2_53 (p : positive) :
  Zpos (digits2_pos p) = 53 <-> 2 ^ 52 <= Zpos p < 2 ^ 53.
Proof.
  split.
  - intros H. pose proof (digits2_bounds p) as Hb. rewrite H in Hb. exact Hb.
  - intros H. apply digits2_unique. exact H.
Qed.

Lemma div_core_normal (m1 m2 : positive) (k1 k2 : Z) :
  Zpos (digits2_pos m1) = 53 -> Zpos (digits2_pos m2) = 53 ->
  0 <= k1 <= 52 -> 0 <= k2 <= 52 ->
  SFdiv_core_binary prec emax (Zpos m1) (- k1) (Zpos m2) (- k2)
  = (Zpos m1 * 2 ^ 53 / Zpos m2, k2 - k1 - 53,
     new_location (Zpos m2) ((Zpos m1 * 2 ^ 53) mod Zpos m2)).
Proof.
  intros Hd1 Hd2 Hk1 Hk2. unfold SFdiv_core_binary. cbn [Zdigits2]. rewrite Hd1, Hd2.
  replace (Z.min (fexp prec emax (53 + - k1 - (53 + - k2))) (- k1 - - k2))
    with (k2 - k1 - 53) by (unfold fexp, emin, prec, emax; lia).
  replace (- k1 - - k2 - (k2 - k1 - 53)) with 53 by lia.
  rewrite Z.shiftl_mul_pow2 by lia.
  unfold Z.div, Z.modulo. destruct (Z.div_eucl _ _). reflexivity.
Qed.

(** The quotient of two normal mantissas: a normal mantissa, nearest to
    the exact quotient. *)
Lemma sfdiv_normal (s1 s2 : bool) (m1 m2 : positive) (k1 k2 : Z) :
  Zpos (digits2_pos m1) = 53 -> Zpos (digits2_pos m2) = 53 ->
  0 <= k1 <= 52 -> 0 <= k2 <= 52 ->
  exists (M : positive),
    2 ^ 52 <= Zpos M < 2 ^ 53 /\
    ((Zpos m2 <= Zpos m1 /\
      SFdiv prec emax (S754_finite s1 m1 (- k1)) (S754_finite s2 m2 (- k2))
      = S754_finite (xorb s1 s2) M (k2 - k1 - 52) /\
      Z.abs (2 * Zpos M * Zpos m2 - Zpos m1 * 2 ^ 53) <= Zpos m2) \/
     (Zpos m1 < Zpos m2 /\
      SFdiv prec emax (S754_finite s1 m1 (- k1)) (S754_finite s2 m2 (- k2))
      = S754_finite (xorb s1 s2) M (k2 - k1 - 53) /\
      Z.abs (2 * (Zpos M * Zpos m2 - Zpos m1 * 2 ^ 53)) <= Zpos m2)).
Proof.
  intros Hd1 Hd2 Hk1 Hk2. unfold SFdiv. rewrite div_core_normal by assumption.
  generalize (xorb s1 s2). intros s.
  apply digits2_53 in Hd1 as Hb1. apply digits2_53 in Hd2 as Hb2.
  change (2 ^ 52) with 4503599627370496 in *.
  change (2 ^ 53) with 9007199254740992 in *.
  pose proof (Z.div_mod (Zpos m1 * 9007199254740992) (Zpos m2) ltac:(lia)) as Hqr.
  pose proof (Z.mod_pos_bound (Zpos m1 * 9007199254740992) (Zpos m2) ltac:(lia)) as Hr.
  rewrite new_location_spec by lia.
  set (q := Zpos m1 * 9007199254740992 / Zpos m2) in *.
  set (r := (Zpos m1 * 9007199254740992) mod Zpos m2) in *.
  assert (forall j : positive, 4503599627370496 <= Zpos j < 9007199254740992 ->
          Zpos (digits2_pos j) = 53) as Hd53.
  { intros j Hj. apply digits2_unique.
    change (2 ^ (53 - 1)) with 4503599627370496;
      change (2 ^ 53) with 9007199254740992. lia. }
  assert (forall j : positive, 9007199254740992 <= Zpos j < 18014398509481984 ->
          Zpos (digits2_pos j) = 54) as Hd54.
  { intros j Hj. apply digits2_unique.
    change (2 ^ (54 - 1)) with 9007199254740992;
      change (2 ^ 54) with 18014398509481984. lia. }
  destruct (Z_lt_le_dec (Zpos m1) (Zpos m2)) as [Hlt|Hge].
  - (* the quotient has 53 digits *)
    assert (4503599627370496 <= q <= 9007199254740990) as Hq by nia.
    destruct q as [|qp|qp] eqn:Eq; [lia| |lia].
    destruct (Z.eqb_spec r 0) as [Hr0|Hr0].
    + exists qp. split; [lia|]. right. split; [exact Hlt|]. split; [|lia].
      apply binary_round_aux_53; [apply Hd53; lia|lia|reflexivity|apply Hd53; lia].
    + destruct (Z.compare_spec (2 * r) (Zpos m2)) as [Hc|Hc|Hc].
      * destruct (Z.even (Zpos qp)) eqn:Ev.
        -- exists qp. split; [lia|]. right. split; [exact Hlt|]. split; [|lia].
           apply binary_round_aux_53; [apply Hd53; lia|lia| |apply Hd53; lia].
           cbn [round_nearest_even]. rewrite Ev. reflexivity.
        -- exists (qp + 1)%positive. split; [lia|]. right. split; [exact Hlt|]. split; [|lia].
           apply binary_round_aux_53; [apply Hd53; lia|lia| |apply Hd53; lia].
           cbn [round_nearest_even]. rewrite Ev. lia.
      * exists qp. split; [lia|]. right. split; [exact Hlt|]. split; [|lia].
        apply binary_round_aux_53; [apply Hd53; lia|lia|reflexivity|apply Hd53; lia].
      * exists (qp + 1)%positive. split; [lia|]. right. split; [exact Hlt|]. split; [|lia].
        apply binary_round_aux_53; [apply Hd53; lia|lia| |apply Hd53; lia].
        cbn [round_nearest_even]. lia.
  - (* the quotient has 54 digits: its last bit is shifted out *)
    assert (9007199254740992 <= q <= 18014398509481982) as Hq by nia.
    destruct q as [|qp|qp] eqn:Eq; [lia| |lia].
    replace (k2 - k1 - 52) with (k2 - k1 - 53 + 1) by lia.
    destruct qp as [j|j|]; [| |lia].
    + (* odd quotient *)
      destruct (Z.eqb_spec r 0) as [Hr0|Hr0].
      * destruct (Z.even (Zpos j)) eqn:Ev.
        -- exists j. split; [lia|]. left. split; [exact Hge|]. split; [|lia].
           apply binary_round_aux_54; [apply Hd54; lia|lia| |apply Hd53; lia].
           change ((if Z.even (Zpos j) then Zpos j else Zpos j + 1) = Zpos j).
           rewrite Ev. reflexivity.
        -- exists (j + 1)%positive. split; [lia|]. left. split; [exact Hge|]. split; [|lia].
           apply binary_round_aux_54; [apply Hd54; lia|lia| |apply Hd53; lia].
           change ((if Z.even (Zpos j) then Zpos j else Zpos j + 1) = Zpos (j + 1)).
           rewrite Ev. lia.
      * exists (j + 1)%positive. split; [lia|]. left. split; [exact Hge|]. split; [|lia].
        apply binary_round_aux_54; [apply Hd54; lia|lia| |apply Hd53; lia].
        destruct (2 * r ?= Zpos m2);
          change (Zpos j + 1 = Zpos (j + 1)); lia.
    + (* even quotient *)
      exists j. split; [lia|]. left. split; [exact Hge|]. split; [|lia].
      apply binary_round_aux_54; [apply Hd54; lia|lia| |apply Hd53; lia].
      destruct (r =? 0); [reflexivity|]. destruct (2 * r ?= Zpos m2); reflexivity.
Qed.

(** [float(n)] for a non-zero integer below 2^53 in size: a normal
    mantissa, exactly. *)
Lemma float_of_int_normal (n : Z) :
  n <> 0 -> Z.abs n < 2 ^ 53 ->
  exists (m : positive) (k : Z),
    Prim2SF (Py.float_of_int n) = S754_finite (n <? 0) m (- k) /\
    0 <= k <= 52 /\ Zpos m = Z.abs n * 2 ^ k /\ Zpos (digits2_pos m) = 53.
Proof.
  intros Hn Hb. destruct n as [|p|p]; [congruence| |].
  - rewrite Prim2SF_float_of_int by (cbn [Z.abs] in Hb; lia).
    destruct (binary_normalize_exact p Hb) as (m & k & H1 & H2 & H3 & H4).
    exists m, k. auto.
  - unfold Py.float_of_int. change (Zneg p <? 0) with true. cbv iota.
    rewrite opp_spec, of_uint63_spec, Uint63.of_Z_spec.
    change (- Zneg p) with (Zpos p). cbn [Z.abs] in *.
    rewrite Z.mod_small by (change wB with (2 ^ 63); lia).
    destruct (binary_normalize_exact p Hb) as (m & k & H1 & H2 & H3 & H4).
    rewrite H1. exists m, k. auto.
Qed.

(** [a / b] in binary64, for two non-zero integers below 2^53 in size:
    the binade of the quotient, and in the binade of 1 its mantissa,
    nearest to the exact quotient. *)
Lemma truediv_spec (a b : Z) :
  a <> 0 -> b <> 0 -> Z.abs a < 2 ^ 53 -> Z.abs b < 2 ^ 53 ->
  exists (M : positive) (E : Z),
    Prim2SF (Py.truediv a b) = S754_finite (xorb (a <? 0) (b <? 0)) M E /\
    2 ^ 52 <= Zpos M < 2 ^ 53 /\
    ((Z.abs a < Z.abs b /\ -105 <= E <= -53) \/
     (2 * Z.abs b <= Z.abs a /\ -51 <= E <= 0) \/
     (Z.abs b <= Z.abs a < 2 * Z.abs b /\ E = -52 /\
      Z.abs (2 * Zpos M * Z.abs b - Z.abs a * 2 ^ 53) <= Z.abs b)).
Proof.
  intros Ha Hb Hba Hbb. unfold Py.truediv. rewrite div_spec. unfold SF64div.
  destruct (float_of_int_normal a Ha Hba) as (m1 & k1 & -> & Hk1 & Hm1 & Hd1).
  destruct (float_of_int_normal b Hb Hbb) as (m2 & k2 & -> & Hk2 & Hm2 & Hd2).
  apply digits2_53 in Hd1 as Hb1. apply digits2_53 in Hd2 as Hb2.
  destruct (sfdiv_normal (a <? 0) (b <? 0) m1 m2 k1 k2 Hd1 Hd2 Hk1 Hk2)
    as (M & HM & Hcases).
  set (A := Z.abs a) in *. set (B := Z.abs b) in *.
  assert (0 < A) by (unfold A; lia). assert (0 < B) by (unfold B; lia).
  assert (0 < 2 ^ k1) as HP1 by (apply Z.pow_pos_nonneg; lia).
  assert (0 < 2 ^ k2) as HP2 by (apply Z.pow_pos_nonneg; lia).
  change (2 ^ 52) with 4503599627370496 in *.
  change (2 ^ 53) with 9007199254740992 in *.
  assert (forall x y : Z, 0 <= x -> 0 <= y - x -> exists G, 2 ^ y = 2 ^ x * G /\ 2 ^ (y - x) = G /\ 1 <= G)
    as Hsplit.
  { intros x y Hx Hy. exists (2 ^ (y - x)). split; [|split; [reflexivity|]].
    - rewrite <- Z.pow_add_r by lia. f_equal. lia.
    - assert (0 < 2 ^ (y - x)) by (apply Z.pow_pos_nonneg; lia). lia. }
  assert (forall x y : Z, 0 <= x -> 1 <= y - x -> exists G, 2 ^ y = 2 ^ x * G /\ 2 <= G)
    as Hsplit1.
  { intros x y Hx Hy. exists (2 ^ (y - x)). split.
    - rewrite <- Z.pow_add_r by lia. f_equal. lia.
    - change 2 with (2 ^ 1) at 1. apply Z.pow_le_mono_r; lia. }
  assert (forall x y : Z, 0 <= x -> 2 <= y - x -> exists G, 2 ^ y = 2 ^ x * G /\ 4 <= G)
    as Hsplit2.
  { intros x y Hx Hy. exists (2 ^ (y - x)). split.
    - rewrite <- Z.pow_add_r by lia. f_equal. lia.
    - change 4 with (2 ^ 2). apply Z.pow_le_mono_r; lia. }
  assert (forall X G c : Z, 0 <= X -> c <= G -> c * X <= X * G) as Hscale.
  { intros X G c HX HG. rewrite (Z.mul_comm X G). apply Z.mul_le_mono_nonneg_r; lia. }
  destruct Hcases as [(Hge & -> & Hnear)|(Hlt & -> & Hnear)].
  - exists M, (k2 - k1 - 52). split; [reflexivity|]. split; [exact HM|].
    destruct (Z_lt_le_dec k2 k1) as [Hk|Hk]; [|destruct (Z.eq_dec k2 k1) as [Heq|Hne]].
    + left. split; [|lia].
      destruct (Hsplit1 k2 k1 ltac:(lia) ltac:(lia)) as (G & HG & HG2).
      rewrite HG in Hm1. set (P := 2 ^ k2) in *.
      replace (A * (P * G)) with (A * P * G) in Hm1 by ring.
      pose proof (Hscale (A * P) G 2 ltac:(lia) HG2).
      apply (Z.mul_lt_mono_pos_r P); lia.
    + right. right. subst k2. set (P := 2 ^ k1) in *.
      split; [split|].
      * apply (Z.mul_le_mono_pos_r _ _ P); lia.
      * apply (Z.mul_lt_mono_pos_r P); lia.
      * split; [lia|].
        rewrite Hm1, Hm2 in Hnear.
        replace (2 * Z.pos M * (B * P) - A * P * 9007199254740992)
          with (P * (2 * Z.pos M * B - A * 9007199254740992)) in Hnear by ring.
        rewrite Z.abs_mul, (Z.abs_eq P) in Hnear by lia.
        apply (Z.mul_le_mono_pos_l _ _ P); lia.
    + right. left. split; [|lia].
      destruct (Hsplit1 k1 k2 ltac:(lia) ltac:(lia)) as (G & HG & HG2).
      rewrite HG in Hm2. set (P := 2 ^ k1) in *.
      replace (B * (P * G)) with (B * P * G) in Hm2 by ring.
      pose proof (Hscale (B * P) G 2 ltac:(lia) HG2).
      apply (Z.mul_le_mono_pos_r _ _ P); lia.
  - exists M, (k2 - k1 - 53). split; [reflexivity|]. split; [exact HM|].
    destruct (Z_le_gt_dec k2 k1) as [Hk|Hk]; [|destruct (Z.eq_dec k2 (k1 + 1)) as [Heq|Hne]].
    + left. split; [|lia].
      destruct (Hsplit k2 k1 ltac:(lia) ltac:(lia)) as (G & HG & _ & HG2).
      rewrite HG in Hm1. set (P := 2 ^ k2) in *.
      replace (A * (P * G)) with (A * P * G) in Hm1 by ring.
      pose proof (Hscale (A * P) G 1 ltac:(lia) HG2).
      apply (Z.mul_lt_mono_pos_r P); lia.
    + right. right. subst k2.
      rewrite Z.pow_add_r in Hm2 by lia. change (2 ^ 1) with 2 in Hm2.
      set (P := 2 ^ k1) in *.
      split; [split|].
      * apply (Z.mul_le_mono_pos_r _ _ P); lia.
      * apply (Z.mul_lt_mono_pos_r P); lia.
      * split; [lia|].
        rewrite Hm1, Hm2 in Hnear.
        replace (2 * (Z.pos M * (B * (P * 2)) - A * P * 9007199254740992))
          with ((2 * P) * (2 * Z.pos M * B - A * 9007199254740992)) in Hnear by ring.
        rewrite Z.abs_mul, (Z.abs_eq (2 * P)) in Hnear by lia.
        apply (Z.mul_le_mono_pos_l _ _ (2 * P)); lia.
    + right. left. split; [|lia].
      destruct (Hsplit2 k1 k2 ltac:(lia) ltac:(lia)) as (G & HG & HG2).
      rewrite HG in Hm2. set (P := 2 ^ k1) in *.
      replace (B * (P * G)) with (B * P * G) in Hm2 by ring.
      pose proof (Hscale (B * P) G 4 ltac:(lia) HG2).
      apply (Z.mul_le_mono_pos_r _ _ P); lia.
Qed.

(** Comparison of two positive finite floats. *)
Lemma SFltb_finite (m1 m2 : positive) (e1 e2 : Z) :
  SFltb (S754_finite false m1 e1) (S754_finite false m2 e2)
  = (e1 <? e2) || ((e1 =? e2) && (Zpos m1 <? Zpos m2)).
Proof.
  unfold SFltb, SFcompare.
  change (PosDef.Pos.compare_cont Eq m1 m2) with (Zpos m1 ?= Zpos m2).
  destruct (Z.compare_spec e1 e2) as [->|Hlt|Hgt].
  - rewrite Z.ltb_irrefl, Z.eqb_refl. cbn [orb andb]. unfold Z.ltb.
    destruct (Zpos m1 ?= Zpos m2); reflexivity.
  - replace (e1 <? e2) with true by (symmetry; apply Z.ltb_lt; lia). reflexivity.
  - replace (e1 <? e2) with false by (symmetry; apply Z.ltb_ge; lia).
    replace (e1 =? e2) with false by (symmetry; apply Z.eqb_neq; lia). reflexivity.
Qed.

(** The program's test [src_aspect > (4/3) + 0.005] in exact
    arithmetic: the float sum on the left is a little below
    803/600, and the test holds from the ratio 803/600 on. *)
Lemma wider_than_4x3_exact (iw ih : Z) :
  0 < iw < 2 ^ 40 -> 0 < ih < 2 ^ 40 ->
  wider_than_4x3 iw ih = (803 * ih <=? 600 * iw).
Proof.
  intros Hw Hh. unfold wider_than_4x3, src_aspect.
  replace (ih =? 0) with false by (symmetry; apply Z.eqb_neq; lia).
  rewrite ltb_spec.
  replace (Prim2SF (PrimFloat.add (Py.truediv 4 3) Py.lit_0_005))
    with (S754_finite false 6027317501297513 (-52)) by (vm_compute; reflexivity).
  assert (2 ^ 40 < 2 ^ 53) as Hpow by (vm_compute; reflexivity).
  destruct (truediv_spec iw ih) as (M & E & -> & HM & Hcases); try lia.
  replace (iw <? 0) with false by (symmetry; apply Z.ltb_ge; lia).
  replace (ih <? 0) with false by (symmetry; apply Z.ltb_ge; lia).
  cbn [xorb]. rewrite SFltb_finite.
  rewrite (Z.abs_eq iw), (Z.abs_eq ih) in Hcases by lia.
  change (2 ^ 40) with 1099511627776 in *.
  change (2 ^ 52) with 4503599627370496 in *.
  change (2 ^ 53) with 9007199254740992 in *.
  destruct Hcases as [(Hlt & HE)|[(Hge & HE)|(Hmid & -> & Hnear)]].
  - replace (-52 <? E) with false by (symmetry; apply Z.ltb_ge; lia).
    replace (-52 =? E) with false by (symmetry; apply Z.eqb_neq; lia).
    symmetry. apply Z.leb_gt. lia.
  - replace (-52 <? E) with true by (symmetry; apply Z.ltb_lt; lia).
    symmetry. apply Z.leb_le. lia.
  - change (-52 <? -52) with false. change (-52 =? -52) with true. cbn [orb andb].
    destruct (Z.leb_spec (803 * ih) (600 * iw)) as [Hc|Hc].
    + apply Z.ltb_lt. destruct (Z_lt_le_dec 6027317501297513 (Zpos M)) as [|Hle]; [assumption|].
      exfalso.
      assert (Zpos M * ih <= 6027317501297513 * ih)
        by (apply Z.mul_le_mono_nonneg_r; lia).
      lia.
    + apply Z.ltb_ge. destruct (Z_lt_le_dec 6027317501297513 (Zpos M)) as [Hgt|]; [|assumption].
      exfalso.
      assert (6027317501297514 * ih <= Zpos M * ih)
        by (apply Z.mul_le_mono_nonneg_r; lia).
      lia.
Qed.

(** ** Subtraction and the test of the nudge *)











(** ** The rounded 4:3 width of a negative height *)





(** ** The counter of crop suggestions *)

Lemma counter_add_keys (t : crop) (cnt : Counter) :
  map fst (counter_add t cnt) =
  if in_dec crop_eq_dec t (map fst cnt) then map fst cnt else map fst cnt ++ [t].
Proof.
  induction cnt as [|[k n] rest IH]; cbn [counter_add map fst].
  - destruct (in_dec crop_eq_dec t []) as [[]|]; reflexivity.
  - destruct (decide (k = t)) as [->|Hne].
    + destruct (in_dec crop_eq_dec t (t :: map fst rest)) as [_|H]; [reflexivity|].
      exfalso; apply H; left; reflexivity.
    + cbn [map fst]. rewrite IH.
      destruct (in_dec crop_eq_dec t (map fst rest)) as [Hin|Hnin];
        destruct (in_dec crop_eq_dec t (k :: map fst rest)) as [Hin'|Hnin'];
        try reflexivity.
      * exfalso; apply Hnin'; right; exact Hin.
      * exfalso. destruct Hin' as [->|Hin']; [apply Hne; reflexivity | apply Hnin, Hin'].
Qed.

Lemma counter_add_get (t k : crop) (cnt : Counter) :
  counter_get (counter_add t cnt) k =
  if decide (t = k) then S (counter_get cnt k) else counter_get cnt k.
Proof.
  induction cnt as [|[k' n] rest IH]; cbn [counter_add counter_get].
  - destruct (decide (t = k)); reflexivity.
  - destruct (decide (k' = t)) as [->|Hne]; cbn [counter_get].
    + destruct (decide (t = k)); reflexivity.
    + destruct (decide (k' = k)) as [->|Hne'].
      * destruct (decide (t = k)) as [->|]; [congruence|reflexivity].
      * exact IH.
Qed.

Lemma counter_of_snoc (l : list crop) (t : crop) :
  counter_of (l ++ [t]) = counter_add t (counter_of l).
Proof. unfold counter_of. rewrite fold_left_app. reflexivity. Qed.

Lemma counter_of_get (l : list crop) (k : crop) :
  counter_get (counter_of l) k = occurrences l k.
Proof.
  unfold occurrences.
  induction l as [|t l IH] using rev_ind; [reflexivity|].
  rewrite counter_of_snoc, counter_add_get, IH, count_occ_app. cbn [count_occ].
  destruct (decide (t = k)) as [->|Hne].
  - destruct (crop_eq_dec k k); [lia|congruence].
  - destruct (crop_eq_dec t k); [congruence|lia].
Qed.

Lemma counter_of_keys_NoDup (l : list crop) : NoDup (map fst (counter_of l)).
Proof.
  induction l as [|t l IH] using rev_ind; [constructor|].
  rewrite counter_of_snoc, counter_add_keys.
  destruct (in_dec crop_eq_dec t (map fst (counter_of l))) as [Hin|Hnin]; [exact IH|].
  apply NoDup_app; split; [exact IH|]. split; [|apply NoDup_singleton].
  intros x Hx [->|[]]%list_elem_of_In. apply Hnin, list_elem_of_In, Hx.
Qed.

Lemma counter_of_keys_In (l : list crop) (k : crop) :
  In k l <-> In k (map fst (counter_of l)).
Proof.
  induction l as [|t l IH] using rev_ind; [reflexivity|].
  rewrite counter_of_snoc, counter_add_keys, in_app_iff, IH. cbn [In].
  destruct (in_dec crop_eq_dec t (map fst (counter_of l))) as [Hin|Hnin].
  - split; [intros [H|[<-|[]]]; assumption | intros H; left; exact H].
  - rewrite in_app_iff. cbn [In]. reflexivity.
Qed.

Lemma counter_get_In (cnt : Counter) (k : crop) (n : nat) :
  NoDup (map fst cnt) -> In (k, n) cnt -> counter_get cnt k = n.
Proof.
  induction cnt as [|[k' n'] rest IH]; [intros _ []|].
  cbn [map fst counter_get]. intros [Hnin Hnd]%NoDup_cons [Heq|Hin].
  - injection Heq as -> ->. destruct (decide (k = k)); congruence.
  - destruct (decide (k' = k)) as [->|Hne]; [|apply IH; assumption].
    exfalso. apply Hnin, list_elem_of_In. apply in_map_iff. exists (k, n). split; [reflexivity|exact Hin].
Qed.

(** Every entry of the counter holds the number of occurrences of its key. *)
Lemma counter_of_entry (l : list crop) (k : crop) (n : nat) :
  In (k, n) (counter_of l) -> n = occurrences l k.
Proof.
  intros Hin. rewrite <- counter_of_get. symmetry.
  apply counter_get_In; [apply counter_of_keys_NoDup | exact Hin].
Qed.

(** The keys of the counter are in first-seen order: what precedes the
    first occurrence of a key in the scan precedes it in the counter. *)
Lemma counter_of_order (l : list crop) (k1 k2 : list crop) (m : crop) :
  map fst (counter_of l) = k1 ++ m :: k2 ->
  exists pre post, l = pre ++ m :: post /\ forall x, In x pre -> In x k1.
Proof.
  revert k1 k2. induction l as [|t l IH] using rev_ind; intros k1 k2.
  - destruct k1; discriminate.
  - rewrite counter_of_snoc, counter_add_keys.
    destruct (in_dec crop_eq_dec t (map fst (counter_of l))) as [Hin|Hnin].
    + intros Hk. destruct (IH _ _ Hk) as (pre & post & -> & Hpre).
      exists pre, (post ++ [t]). split; [|exact Hpre].
      rewrite <- app_assoc. reflexivity.
    + intros Hk. destruct k2 as [|x k2 _] using rev_ind.
      * apply app_inj_tail in Hk as [Hk <-].
        exists l, []. split; [reflexivity|].
        intros x Hx. rewrite <- Hk. apply (proj1 (counter_of_keys_In l x)), Hx.
      * rewrite app_comm_cons, app_assoc in Hk.
        apply app_inj_tail in Hk as [Hk <-].
        destruct (IH _ _ Hk) as (pre & post & -> & Hpre).
        exists pre, (post ++ [t]). split; [|exact Hpre].
        rewrite <- app_assoc. reflexivity.
Qed.

(** [max] returns the first item with the greatest count. *)
Lemma max_by_count_first (best : crop * nat) (items : Counter) :
  exists l1 l2,
    best :: items = l1 ++ max_by_count best items :: l2 /\
    (forall it, In it l1 -> (snd it < snd (max_by_count best items))%nat) /\
    (forall it, In it l2 -> (snd it <= snd (max_by_count best items))%nat).
Proof.
  revert best. induction items as [|it rest IH]; intros best; cbn [max_by_count].
  - exists [], []. split; [reflexivity|]. split; intros ? [].
  - destruct (snd best <? snd it)%nat eqn:Hlt.
    + apply Nat.ltb_lt in Hlt.
      destruct (IH it) as (l1 & l2 & Heq & H1 & H2).
      exists (best :: l1), l2. rewrite Heq. split; [reflexivity|]. split; [|exact H2].
      intros x [<-|Hx]; [|apply H1, Hx].
      assert (snd it <= snd (max_by_count it rest))%nat; [|lia].
      destruct l1 as [|y l1].
      * injection Heq as <- _. lia.
      * injection Heq as <- _. apply Nat.lt_le_incl, H1. left; reflexivity.
    + apply Nat.ltb_ge in Hlt.
      destruct (IH best) as (l1 & l2 & Heq & H1 & H2).
      destruct l1 as [|y l1].
      * injection Heq as Hb Hrest. subst l2. exists [], (it :: rest).
        rewrite <- Hb in *. split; [reflexivity|].
        split; [intros ? []|]. intros x [<-|Hx]; [exact Hlt | apply H2, Hx].
      * injection Heq as <- Hrest. exists (best :: it :: l1), l2.
        split; [cbn [app]; do 2 f_equal; exact Hrest|]. split; [|exact H2].
        assert (snd best < snd (max_by_count best rest))%nat as Hb
          by (apply H1; left; reflexivity).
        intros x [<-|[<-|Hx]]; [exact Hb | lia | apply H1; right; exact Hx].
Qed.

(** The consensus is the first of the most frequent suggestions, with
    its four values rounded down to even. *)
Lemma consensus_first_most_frequent (crops : list crop) :
  crops <> [] ->
  exists m, consensus crops = Some (even4 m) /\ first_most_frequent crops m.
Proof.
  intros Hne. unfold consensus.
  destruct crops as [|t0 crops0] eqn:Ecrops; [congruence|]. rewrite <- Ecrops in *.
  assert (In t0 crops) as Ht0 by (rewrite Ecrops; left; reflexivity).
  destruct (counter_of crops) as [|it rest] eqn:Ecnt.
  { apply counter_of_keys_In in Ht0. rewrite Ecnt in Ht0. destruct Ht0. }
  cbn [most_common_1].
  destruct (max_by_count_first it rest) as (l1 & l2 & Heq & H1 & H2).
  destruct (max_by_count it rest) as [m n]. cbn [snd] in *.
  exists m. split; [reflexivity|].
  assert (forall x nx, In (x, nx) (counter_of crops) -> nx = occurrences crops x) as Hentry
    by (intros x nx; apply counter_of_entry).
  rewrite Ecnt, Heq in Hentry.
  assert (n = occurrences crops m) as Hn
    by (apply Hentry, in_app_iff; right; left; reflexivity).
  destruct (counter_of_order crops (map fst l1) (map fst l2) m) as (pre & post & Hsplit & Hpre).
  { rewrite Ecnt, Heq, map_app. reflexivity. }
  exists pre, post. split; [exact Hsplit|]. split.
  - intros x Hx. apply Hpre, in_map_iff in Hx as ([x' nx] & Hfst & Hin).
    cbn [fst] in Hfst. subst x'.
    rewrite <- Hn, <- (Hentry x nx) by (apply in_app_iff; left; exact Hin).
    apply (H1 (x, nx)), Hin.
  - intros x. destruct (in_dec crop_eq_dec x crops) as [Hin|Hnin].
    + apply counter_of_keys_In in Hin. rewrite Ecnt, Heq in Hin.
      apply in_map_iff in Hin as ([x' nx] & Hfst & Hin). cbn [fst] in Hfst. subst x'.
      rewrite <- Hn, <- (Hentry x nx Hin).
      apply in_app_iff in Hin as [Hin|[Hin|Hin]].
      * apply Nat.lt_le_incl, (H1 (x, nx)), Hin.
      * injection Hin as _ ->. lia.
      * apply (H2 (x, nx)), Hin.
    + unfold occurrences at 1. rewrite (proj1 (count_occ_not_In crop_eq_dec crops x) Hnin). lia.
Qed.

(** There is only one first-most-frequent suggestion. *)
Lemma first_most_frequent_unique (crops : list crop) (m m' : crop) :
  first_most_frequent crops m -> first_most_frequent crops m' -> m = m'.
Proof.
  intros (pre & post & Heq & Hpre & Hmax) (pre' & post' & Heq' & Hpre' & Hmax').
  assert (occurrences crops m = occurrences crops m') as Hsame
    by (apply Nat.le_antisymm; [apply Hmax' | apply Hmax]).
  assert (~ In m' pre) as Hn by (intros H%Hpre; lia).
  assert (~ In m pre') as Hn' by (intros H%Hpre'; lia).
  rewrite Heq in Heq'. apply app_eq_app in Heq' as [l [[H1 H2] | [H1 H2]]].
  - destruct l as [|x l]; [injection H2 as ->; reflexivity|].
    injection H2 as -> _. exfalso. apply Hn. rewrite H1.
    apply in_app_iff. right; left; reflexivity.
  - destruct l as [|x l]; [injection H2 as ->; reflexivity|].
    injection H2 as -> _. exfalso. apply Hn'. rewrite H1.
    apply in_app_iff. right; left; reflexivity.
Qed.

(** ** The analytic centered crop *)

Example centered_1920x1080 : centered_4x3_crop 1920 1080 = (1440, 1080, 240, 0).
Proof. vm_compute. reflexivity. Qed.

Lemma round_down_even_spec (n : Z) : even n = round_down_even n.
Proof. apply even_spec. Qed.

Lemma even_half_ratio (n : Z) : even (Py.floordiv n 2) = round_down_even_ratio n 2.
Proof.
  rewrite even_spec. unfold Py.floordiv, round_down_even_ratio.
  rewrite Z.div_div by lia. reflexivity.
Qed.

Lemma nearest_ratio_4x3 (h : Z) : nearest_ratio (h * 4) 3 = (4 * h + 1) / 3.
Proof.
  unfold nearest_ratio.
  pose proof (Z.div_mod (2 * (h * 4) + 3) (2 * 3) ltac:(lia)).
  pose proof (Z.mod_pos_bound (2 * (h * 4) + 3) (2 * 3) ltac:(lia)).
  pose proof (Z.div_mod (4 * h + 1) 3 ltac:(lia)).
  pose proof (Z.mod_pos_bound (4 * h + 1) 3 ltac:(lia)).
  lia.
Qed.

(** The nearest integer is within a third of the exact ratio. *)
Lemma nearest_ratio_4x3_close (h : Z) :
  -1 <= 3 * nearest_ratio (h * 4) 3 - 4 * h <= 1.
Proof.
  rewrite nearest_ratio_4x3.
  pose proof (Z.div_mod (4 * h + 1) 3 ltac:(lia)).
  pose proof (Z.mod_pos_bound (4 * h + 1) 3 ltac:(lia)). lia.
Qed.

(** C4.  For positive source dimensions (the height below 2^50, where
    binary64 holds [ih * 4 / 3] to within a twelfth), the analytic
    centered crop has width [min(iw, round(ih * 4 / 3))] rounded down to
    even, height [ih] rounded down to even, x-offset [(iw - width) / 2]
    rounded down to even and y-offset [(ih - height) / 2] rounded down
    to even; so the height is [ih] rounded down to even and the width
    is at most [iw]. *)
Theorem C4_centered_crop_spec (iw ih : Z) :
  0 < iw -> 0 < ih < 2 ^ 50 ->
  centered_4x3_crop iw ih = analytic_crop_spec iw ih /\
  (let '(w, h, _, _) := centered_4x3_crop iw ih in
   h = round_down_even ih /\ w <= iw).
Proof.
  intros Hiw Hih. unfold centered_4x3_crop, analytic_crop_spec.
  rewrite round_4x3_exact by exact Hih.
  rewrite nearest_ratio_4x3, !even_half_ratio, !round_down_even_spec.
  split; [reflexivity|]. split; [reflexivity|].
  rewrite <- round_down_even_spec. pose proof (even_le (Z.min iw ((4 * ih + 1) / 3))). lia.
Qed.

Lemma C4_centered_crop_1921x1081 :
  centered_4x3_crop 1921 1081 = analytic_crop_spec 1921 1081 /\
  (let '(w, h, _, _) := centered_4x3_crop 1921 1081 in
   h = round_down_even 1081 /\ w <= 1921).
Proof. apply (C4_centered_crop_spec 1921 1081); lia. Defined.

Example centered_1921x1081 : centered_4x3_crop 1921 1081 = (1440, 1080, 240, 0).
Proof. vm_compute. reflexivity. Qed.

(** ** Crop invariants *)

Lemma consensus_selects_first (crops : list crop) (m : crop) :
  first_most_frequent crops m -> consensus crops = Some (even4 m).
Proof.
  intros Hm.
  assert (crops <> []) as Hne.
  { destruct Hm as (pre & post & -> & _). destruct pre; discriminate. }
  destruct (consensus_first_most_frequent crops Hne) as (m' & -> & Hm').
  rewrite (first_most_frequent_unique crops m m' Hm Hm'). reflexivity.
Qed.

Lemma consensus_even (crops : list crop) (c : crop) :
  consensus crops = Some c -> crop_even c.
Proof.
  intros Hc. destruct crops as [|t crops]; [discriminate|].
  destruct (consensus_first_most_frequent (t :: crops)) as (m & Hm & _); [discriminate|].
  rewrite Hm in Hc. injection Hc as <-. destruct m as [[[w h] x] y].
  repeat split; apply even_is_even.
Qed.

Lemma even4_in_frame (iw ih : Z) (t : crop) :
  crop_in_frame iw ih t -> crop_ok iw ih (even4 t).
Proof.
  destruct t as [[[w h] x] y]. intros (Hw & Hh & Hx & Hy & Hxw & Hyh).
  split; [repeat split; apply even_is_even|]. cbn [even4 crop_in_frame].
  pose proof (even_le w). pose proof (even_le h).
  pose proof (even_le x). pose proof (even_le y).
  repeat split; try (apply even_nonneg; assumption); lia.
Qed.

Lemma centered_4x3_crop_ok (iw ih : Z) :
  0 < iw -> 0 < ih < 2 ^ 50 -> crop_ok iw ih (centered_4x3_crop iw ih).
Proof.
  intros Hiw Hih. unfold centered_4x3_crop. rewrite round_4x3_exact by exact Hih.
  assert (0 <= (4 * ih + 1) / 3) by (apply Z.div_pos; lia).
  set (w := even (Z.min iw ((4 * ih + 1) / 3))).
  assert (0 <= w <= iw) as Hw.
  { unfold w. split; [apply even_nonneg; lia|].
    pose proof (even_le (Z.min iw ((4 * ih + 1) / 3))). lia. }
  assert (0 <= even ih <= ih) as Hh
    by (split; [apply even_nonneg; lia | apply even_le]).
  unfold Py.floordiv.
  assert (0 <= (iw - w) / 2 <= iw - w) as Hx.
  { split; [apply Z.div_pos; lia|]. apply Z.div_le_upper_bound; lia. }
  assert (0 <= (ih - even ih) / 2 <= ih - even ih) as Hy.
  { split; [apply Z.div_pos; lia|]. apply Z.div_le_upper_bound; lia. }
  pose proof (even_le ((iw - w) / 2)). pose proof (even_le ((ih - even ih) / 2)).
  split; [repeat split; apply even_is_even|].
  repeat split; try (apply even_nonneg; lia); lia.
Qed.

Lemma snap_4x3_even (iw : Z) (c c' : crop) :
  crop_even c -> snap_4x3 iw c = Ok c' -> crop_even c'.
Proof.
  destruct c as [[[w h] x] y]. intros (Hw & Hh & Hx & Hy). unfold snap_4x3.
  destruct (h =? 0); [discriminate|].
  destruct (near_4x3 w h); intros [= <-]; repeat split;
    assumption || apply even_is_even.
Qed.

(** C1, as far as the program keeps it.  Every crop the "Decide crop"
    block produces has four even values.  The analytic centered crop of
    a source with positive dimensions (height below 2^50) is
    non-negative and inside the frame.  A detection-scan crop that is
    not nudged to 4:3 is the first most frequent tuple of the scan
    rounded down to even; it is non-negative and inside the frame when
    that tuple is. *)
Theorem C1_crop_invariants :
  (forall a iw ih scan c,
      decide_crop a iw ih scan = Ok (Some c) -> crop_even c) /\
  (forall a iw ih scan,
      0 < iw -> 0 < ih < 2 ^ 50 ->
      use_cropdetect a = false \/ parse_crops scan = [] ->
      wider_than_4x3 iw ih = true ->
      decide_crop a iw ih scan = Ok (Some (centered_4x3_crop iw ih)) /\
      crop_ok iw ih (centered_4x3_crop iw ih)) /\
  (forall a iw ih scan t,
      use_cropdetect a = true ->
      first_most_frequent (parse_crops scan) t ->
      crop_in_frame iw ih t ->
      (let '(w, h, _, _) := even4 t in h <> 0 /\ near_4x3 w h = false) ->
      decide_crop a iw ih scan = Ok (Some (even4 t)) /\
      crop_ok iw ih (even4 t)).
Proof.
  split; [|split].
  - intros a iw ih scan c. unfold decide_crop.
    destruct (if use_cropdetect a then run_cropdetect scan else None) as [c0|] eqn:E.
    + assert (crop_even c0) as Hc0.
      { destruct (use_cropdetect a); [|discriminate].
        apply (consensus_even (parse_crops scan)), E. }
      destruct (snap_4x3 iw c0) as [c'|e] eqn:Es; [|discriminate].
      intros [= <-]. apply (snap_4x3_even iw c0 c' Hc0 Es).
    + destruct (wider_than_4x3 iw ih); [|discriminate].
      intros [= <-]. destruct (centered_4x3_crop iw ih) as [[[w h] x] y] eqn:Ec.
      unfold centered_4x3_crop in Ec. injection Ec as <- <- <- <-.
      repeat split; apply even_is_even.
  - intros a iw ih scan Hiw Hih Hscan Hwide. split; [|apply centered_4x3_crop_ok; assumption].
    unfold decide_crop, run_cropdetect.
    assert ((if use_cropdetect a then consensus (parse_crops scan) else None) = None) as ->.
    { destruct Hscan as [-> | ->]; [reflexivity|]. destruct (use_cropdetect a); reflexivity. }
    rewrite Hwide. reflexivity.
  - intros a iw ih scan t Hdet Hfirst Hframe Hnosnap.
    split; [|apply even4_in_frame, Hframe].
    unfold decide_crop, run_cropdetect. rewrite Hdet.
    rewrite (consensus_selects_first _ _ Hfirst).
    destruct (even4 t) as [[[w h] x] y]. destruct Hnosnap as [Hh Hnear].
    unfold snap_4x3. rewrite Hnear.
    replace (h =? 0) with false by (symmetry; apply Z.eqb_neq, Hh). reflexivity.
Qed.

(** C1 fails as stated: the values of the scan's consensus are taken as
    they are printed, here with a negative width and height. *)
Lemma C1_counterexample_black_frames :
  decide_crop args_cropdetect 1920 1080 scan_black_frames
    = Ok (Some (-1904, -1072, 1914, 1078)) /\
  ~ crop_ok 1920 1080 (-1904, -1072, 1914, 1078).
Proof.
  split; [vm_compute; reflexivity|].
  intros [_ (Hw & _)]. lia.
Qed.

(** The nudge to 4:3 does not clamp the width to the source as the
    analytic crop does: a 1440x1088 source whose scan reports the whole
    frame gets a crop wider than the frame at a negative offset. *)
Lemma snap_can_exceed_frame :
  decide_crop args_cropdetect 1440 1088 ["crop=1440:1088:0:0"]
    = Ok (Some (1450, 1088, -6, 0)).
Proof. vm_compute. reflexivity. Qed.

(** ** The detection-scan consensus *)






(** The snap of a scan is not the analytic crop: a windowboxed picture
    keeps its height and its y-offset, and is centred. *)
Example snap_windowboxed :
  decide_crop args_cropdetect 1920 1080 scan_windowboxed
  = Ok (Some (1280, 960, 320, 60)) /\
  centered_4x3_crop 1920 1080 = (1440, 1080, 240, 0).
Proof. split; vm_compute; reflexivity. Qed.

(** C8.  The tie-break is first-seen: when [m] is a most frequent tuple
    and every tuple scanned before its first occurrence is strictly less
    frequent, so that each tuple tied with [m] first appears after it,
    the consensus is [m] (with its values forced even). *)
Theorem C8_first_seen_tie_break (pre post : list crop) (m : crop) :
  (forall x, (occurrences (pre ++ m :: post) x <= occurrences (pre ++ m :: post) m)%nat) ->
  (forall x, In x pre ->
             (occurrences (pre ++ m :: post) x < occurrences (pre ++ m :: post) m)%nat) ->
  consensus (pre ++ m :: post) = Some (even4 m).
Proof.
  intros Hmax Hpre. apply consensus_selects_first.
  exists pre, post. split; [reflexivity|]. split; assumption.
Qed.

Lemma C8_tie_example :
  consensus [(1920, 1080, 0, 0); (1438, 1080, 241, 0); (1440, 1080, 240, 0);
             (1440, 1080, 240, 0); (1438, 1080, 241, 0)]
  = Some (1438, 1080, 240, 0).
Proof.
  apply (C8_first_seen_tie_break
           [(1920, 1080, 0, 0)]
           [(1440, 1080, 240, 0); (1440, 1080, 240, 0); (1438, 1080, 241, 0)]
           (1438, 1080, 241, 0)).
  - intros x. unfold occurrences. cbn [app count_occ].
    destruct (crop_eq_dec (1438, 1080, 241, 0) (1438, 1080, 241, 0)); [|congruence].
    destruct (crop_eq_dec (1920, 1080, 0, 0) (1438, 1080, 241, 0)); [discriminate|].
    destruct (crop_eq_dec (1440, 1080, 240, 0) (1438, 1080, 241, 0)); [discriminate|].
    destruct (crop_eq_dec (1438, 1080, 241, 0) x),
      (crop_eq_dec (1440, 1080, 240, 0) x),
      (crop_eq_dec (1920, 1080, 0, 0) x); try congruence; lia.
  - intros x [<-|[]]. vm_compute. lia.
Defined.

(** ** The quality decision table *)

Lemma needs_zero_bitrate_spec (v_encoder : string) :
  needs_zero_bitrate v_encoder
  = bool_decide (v_encoder = "libvpx-vp9" \/ v_encoder = "libaom-av1").
Proof.
  unfold needs_zero_bitrate.
  repeat case_bool_decide; try reflexivity; exfalso; tauto.
Qed.

Lemma is_x26x_spec (v_encoder : string) :
  is_x26x v_encoder
  = bool_decide (v_encoder = "libx264" \/ v_encoder = "libx265").
Proof.
  unfold is_x26x.
  repeat case_bool_decide; try reflexivity; exfalso; tauto.
Qed.

(** What [main] passes as [v_bitrate] and [crf] makes [build_ffmpeg_cmd]
    follow the decision table on the probed bit rate. *)
Lemma quality_args_table (a : args) (v : stream) (info : probe_info)
    (v_encoder : string) :
  quality_args v_encoder
    (match crf a with None => source_bitrate v info | Some _ => None end) (crf a)
  = quality_flags (quality_table (crf a) (probed_bitrate v info) v_encoder).
Proof.
  unfold quality_args, quality_table, quality_flags, source_bitrate, probed_bitrate.
  rewrite <- needs_zero_bitrate_spec, <- is_x26x_spec.
  destruct (crf a) as [q|]; [reflexivity|].
  destruct (parse_int (bit_rate v)) as [b|]; [|destruct (parse_int (format_bit_rate info)) as [b|]];
    try reflexivity.
  all: destruct (Z.ltb_spec b 100000) as [Hlt|Hge];
    [ replace (100000 <=? b) with false by (symmetry; apply Z.leb_gt; lia); reflexivity
    | replace (100000 <=? b) with true by (symmetry; apply Z.leb_le; lia);
      replace (0 <? b) with true by (symmetry; apply Z.ltb_lt; lia);
      rewrite (Z.mul_comm b 2); reflexivity ].
Qed.

(** C5.  Every re-encode plan carries the quality arguments of the
    decision table, read in order: a requested CRF is used as given;
    otherwise a probed bit rate of at least 100000 gives bitrate parity
    with the target and max-rate equal to it and the buffer twice it;
    otherwise the fallback CRF is 18 for libx264 and libx265 and 28 for
    the rest; and a CRF for libvpx-vp9 or libaom-av1 comes with a zero
    bit rate target. *)
Theorem C5_quality_selection (a : args) (f : file_env) (info : probe_info)
    (v : stream) (iw ih : Z) (cmd : list string) :
  plan_file a f info v iw ih = Ok (Reencode cmd) ->
  exists c,
    decide_crop a iw ih (f_scan f) = Ok (Some c) /\
    let v_encoder := choose_encoder (default "" (codec_name v)) in
    cmd = encode_base (f_src f) c v_encoder (preset a)
          ++ quality_flags (quality_table (crf a) (probed_bitrate v info) v_encoder)
          ++ ["-movflags"; "use_metadata_tags+faststart"; f_dst f].
Proof.
  unfold plan_file.
  destruct (decide_crop a iw ih (f_scan f)) as [[c|]|e]; try discriminate.
  intros [= <-]. exists c. split; [reflexivity|].
  unfold build_ffmpeg_cmd. rewrite quality_args_table. reflexivity.
Qed.

Lemma C5_scenario_1 :
  exists c,
    decide_crop args_default 1920 1080 (f_scan scenario_1_file) = Ok (Some c) /\
    let v_encoder :=
      choose_encoder (default "" (codec_name (h264_stream 1920 1080 (Some (JStr "4000000"))))) in
    scenario_1_cmd
    = encode_base (f_src scenario_1_file) c v_encoder (preset args_default)
      ++ quality_flags
           (quality_table (crf args_default)
              (probed_bitrate (h264_stream 1920 1080 (Some (JStr "4000000")))
                 scenario_1_info) v_encoder)
      ++ ["-movflags"; "use_metadata_tags+faststart"; f_dst scenario_1_file].
Proof.
  apply (C5_quality_selection args_default scenario_1_file scenario_1_info
           (h264_stream 1920 1080 (Some (JStr "4000000"))) 1920 1080 scenario_1_cmd).
  vm_compute. reflexivity.
Defined.

Example scenario_1_quality :
  quality_table None (probed_bitrate (h264_stream 1920 1080 (Some (JStr "4000000")))
                        scenario_1_info) "libx264"
  = BitrateParity 4000000 4000000 8000000.
Proof. vm_compute. reflexivity. Qed.

(** ** No crop needed *)

Lemma copy_cmd_shape (src dst : string) :
  copy_cmd src dst
  = ["ffmpeg"; "-stats"; "-loglevel"; "level+info"; "-y"; "-i"; src]
    ++ copy_options ++ [dst].
Proof. reflexivity. Qed.

(** C6, as the program has it.  When the source aspect ratio is
    strictly below 4/3 + 0.005 and the detection scan is disabled or
    parses no suggestion, no crop is needed and the plan is the stream
    copy: every stream mapped and copied with [-c copy], metadata and
    chapters mapped, and none of the options that select a video
    encoder, a crop filter or a quality.  From the ratio 4/3 + 0.005 on
    the source is cropped analytically and re-encoded. *)
Theorem C6_no_crop_is_stream_copy (a : args) (f : file_env) (info : probe_info)
    (v : stream) (iw ih : Z) :
  0 < iw < 2 ^ 40 -> 0 < ih < 2 ^ 40 ->
  use_cropdetect a = false \/ parse_crops (f_scan f) = [] ->
  (600 * iw < 803 * ih ->
   decide_crop a iw ih (f_scan f) = Ok None /\
   plan_file a f info v iw ih
   = Ok (StreamCopy
           (["ffmpeg"; "-stats"; "-loglevel"; "level+info"; "-y"; "-i"; f_src f]
            ++ copy_options ++ [f_dst f]))) /\
  (803 * ih <= 600 * iw ->
   decide_crop a iw ih (f_scan f) = Ok (Some (centered_4x3_crop iw ih)) /\
   exists cmd, plan_file a f info v iw ih = Ok (Reencode cmd)) /\
  (forall o, In o reencode_options ->
             ~ In o (["ffmpeg"; "-stats"; "-loglevel"; "level+info"; "-y"; "-i"]
                     ++ copy_options)).
Proof.
  intros Hw Hh Hscan.
  assert (decide_crop a iw ih (f_scan f)
          = if 803 * ih <=? 600 * iw then Ok (Some (centered_4x3_crop iw ih))
            else Ok None) as Hdecide.
  { unfold decide_crop, run_cropdetect.
    assert ((if use_cropdetect a then consensus (parse_crops (f_scan f)) else None) = None) as ->.
    { destruct Hscan as [-> | ->]; [reflexivity|]. destruct (use_cropdetect a); reflexivity. }
    rewrite wider_than_4x3_exact by assumption. reflexivity. }
  split; [|split].
  - intros Hlt. rewrite Hdecide. unfold plan_file. rewrite Hdecide.
    replace (803 * ih <=? 600 * iw) with false by (symmetry; apply Z.leb_gt; lia).
    split; [reflexivity|]. rewrite copy_cmd_shape. reflexivity.
  - intros Hge. rewrite Hdecide. unfold plan_file. rewrite Hdecide.
    replace (803 * ih <=? 600 * iw) with true by (symmetry; apply Z.leb_le; lia).
    split; [reflexivity|]. eexists. reflexivity.
  - intros o Ho Hin. cbn in Ho, Hin.
    repeat (destruct Ho as [<-|Ho]; [intuition discriminate|]). exact Ho.
Qed.

Lemma C6_scenario_2 :
  decide_crop args_default 1280 960 (f_scan scenario_2_file) = Ok None /\
  plan_file args_default scenario_2_file scenario_2_info
      (h264_stream 1280 960 (Some (JStr "2500000"))) 1280 960
    = Ok (StreamCopy
            (["ffmpeg"; "-stats"; "-loglevel"; "level+info"; "-y"; "-i";
              f_src scenario_2_file]
             ++ copy_options ++ [f_dst scenario_2_file])).
Proof.
  destruct (C6_no_crop_is_stream_copy args_default scenario_2_file scenario_2_info
              (h264_stream 1280 960 (Some (JStr "2500000"))) 1280 960)
    as (Hcopy & _ & _).
  - vm_compute. split; reflexivity.
  - vm_compute. split; reflexivity.
  - left. reflexivity.
  - apply Hcopy. reflexivity.
Defined.

(** C6 fails as stated: the ratio of a 1606x1200 source is 4/3 + 0.005
    exactly, so at most that, yet it counts as wider (the float sum
    4/3 + 0.005 is rounded down and the quotient up): the source is
    cropped to 1600x1200 and re-encoded. *)
Lemma C6_counterexample_tie_1606x1200 :
  600 * 1606 = 803 * 1200 /\
  wider_than_4x3 1606 1200 = true /\
  decide_crop args_default 1606 1200 (f_scan tie_file) = Ok (Some (1600, 1200, 2, 0)) /\
  process_file args_default tie_file
  = ([PrintCommand
        (build_ffmpeg_cmd "tie.mp4" "tie.4x3.mp4" (1600, 1200, 2, 0) "libx264"
           (Some 4000000) None "medium");
      RunCommand
        (build_ffmpeg_cmd "tie.mp4" "tie.4x3.mp4" (1600, 1200, 2, 0) "libx264"
           (Some 4000000) None "medium") 0],
     Completed).
Proof. repeat split; vm_compute; reflexivity. Qed.

(** ** The encoder resolver *)

Lemma CODEC_MAP_unmapped (codec_name : string) :
  CODEC_MAP !! codec_name = None <->
  ~ In codec_name ["h264"; "hevc"; "mpeg4"; "mpeg2video"; "vp9"; "av1";
                   "theora"; "prores"; "h263"].
Proof.
  unfold CODEC_MAP. rewrite <- not_elem_of_list_to_map, list_elem_of_In.
  reflexivity.
Qed.

(** C7.  The resolver returns the table's encoder for each of the nine
    mapped codecs and the codec name itself for any name the table does
    not map; it is a total function, so no name is an error, and
    "dnxhd" resolves to "dnxhd". *)
Theorem C7_choose_encoder :
  (choose_encoder "h264" = "libx264" /\
   choose_encoder "hevc" = "libx265" /\
   choose_encoder "vp9" = "libvpx-vp9" /\
   choose_encoder "av1" = "libaom-av1" /\
   choose_encoder "mpeg2video" = "mpeg2video" /\
   choose_encoder "mpeg4" = "mpeg4" /\
   choose_encoder "theora" = "libtheora" /\
   choose_encoder "prores" = "prores_ks" /\
   choose_encoder "h263" = "h263") /\
  (forall codec_name enc,
      CODEC_MAP !! codec_name = Some enc -> choose_encoder codec_name = enc) /\
  (forall codec_name,
      ~ In codec_name ["h264"; "hevc"; "mpeg4"; "mpeg2video"; "vp9"; "av1";
                       "theora"; "prores"; "h263"] ->
      choose_encoder codec_name = codec_name) /\
  choose_encoder "dnxhd" = "dnxhd".
Proof.
  split; [repeat split; vm_compute; reflexivity|].
  split; [intros s e H; unfold choose_encoder; rewrite H; reflexivity|].
  split; [|vm_compute; reflexivity].
  intros s H%CODEC_MAP_unmapped. unfold choose_encoder. rewrite H. reflexivity.
Qed.

(** ** The source bit rate *)

(** The container's bit rate is what counts when the stream has none. *)
Lemma source_bitrate_container (v : stream) (info : probe_info) :
  parse_int (bit_rate v) = None ->
  source_bitrate v info
  = match parse_int (format_bit_rate info) with
    | Some b => if b <? 100000 then None else Some b
    | None => None
    end.
Proof.
  intros H. unfold source_bitrate. rewrite H.
  destruct (parse_int (format_bit_rate info)); reflexivity.
Qed.

(** C9.  A numeric stream-level bit rate decides alone: the container's
    is read only when the stream's field is absent or not numeric.  A
    numeric stream-level bit rate below 100000 therefore becomes
    unknown whatever the container says, and with no requested CRF the
    plan carries the fallback CRF. *)
Theorem C9_low_stream_bitrate_no_container_fallback (v : stream) (b : Z) :
  parse_int (bit_rate v) = Some b ->
  (forall info,
      source_bitrate v info = if b <? 100000 then None else Some b) /\
  (b < 100000 ->
   forall (a : args) (info : probe_info) (v_encoder : string),
     crf a = None ->
     quality_args v_encoder
       (match crf a with None => source_bitrate v info | Some _ => None end) (crf a)
     = ["-crf"; if is_x26x v_encoder then "18" else "28"]
       ++ (if needs_zero_bitrate v_encoder then ["-b:v"; "0"] else [])).
Proof.
  intros Hb.
  assert (forall info, source_bitrate v info = if b <? 100000 then None else Some b)
    as Hsrc by (intros info; unfold source_bitrate; rewrite Hb; reflexivity).
  split; [exact Hsrc|].
  intros Hlow a info v_encoder Hcrf. rewrite Hcrf, Hsrc.
  replace (b <? 100000) with true by (symmetry; apply Z.ltb_lt, Hlow). reflexivity.
Qed.

Lemma C9_low_stream_rate_example :
  source_bitrate (h264_stream 1920 1080 (Some (JStr "64000")))
    {| streams := []; format_bit_rate := Some (JStr "5000000") |} = None /\
  quality_args "libx264"
    (source_bitrate (h264_stream 1920 1080 (Some (JStr "64000")))
       {| streams := []; format_bit_rate := Some (JStr "5000000") |}) None
  = ["-crf"; "18"].
Proof.
  destruct (C9_low_stream_bitrate_no_container_fallback
              (h264_stream 1920 1080 (Some (JStr "64000"))) 64000) as [H1 H2];
    [vm_compute; reflexivity|].
  split; [apply H1|].
  apply (H2 ltac:(lia) args_default
            {| streams := []; format_bit_rate := Some (JStr "5000000") |} "libx264").
  reflexivity.
Defined.

(** ** The batch loop *)







(** ** Detection scans and the stream copy *)

(** C10 at a scan whose consensus has height 0: the ratio test of
    [main] divides by it, and the file gets no plan. *)
Lemma C10_zero_height_consensus_raises :
  parse_crops scan_thin_band = [(1920, 0, 0, 542)] /\
  decide_crop args_cropdetect 1920 1080 scan_thin_band = Raise ZeroDivisionError /\
  process_file args_cropdetect thin_band_file = ([], Uncaught ZeroDivisionError).
Proof. repeat split; vm_compute; reflexivity. Qed.

(** X1 (main). A scan with a suggestion never leads to the stream copy:
    the plan re-encodes with the consensus crop (nudged to 4:3 when
    close), unless the consensus height is 0 and the ratio test raises. *)
Lemma detection_crop_is_reencoded (a : args) (f : file_env) (info : probe_info)
    (v : stream) (iw ih : Z) :
  use_cropdetect a = true ->
  parse_crops (f_scan f) <> [] ->
  exists cw ch cx cy,
    run_cropdetect (f_scan f) = Some (cw, ch, cx, cy) /\
    (ch = 0 -> plan_file a f info v iw ih = Raise ZeroDivisionError) /\
    (ch <> 0 ->
     exists c,
       snap_4x3 iw (cw, ch, cx, cy) = Ok c /\
       plan_file a f info v iw ih
       = Ok (Reencode
               (build_ffmpeg_cmd (f_src f) (f_dst f) c
                  (choose_encoder (default "" (codec_name v)))
                  (match crf a with None => source_bitrate v info | Some _ => None end)
                  (crf a) (preset a)))).
Proof.
  intros Hdet Hne.
  destruct (consensus_first_most_frequent _ Hne) as (m & Hm & _).
  destruct (even4 m) as [[[cw ch] cx] cy] eqn:Em.
  exists cw, ch, cx, cy. split; [exact Hm|].
  unfold plan_file, decide_crop. rewrite Hdet. unfold run_cropdetect. rewrite Hm.
  unfold snap_4x3. split.
  - intros ->. reflexivity.
  - intros Hch. replace (ch =? 0) with false by (symmetry; apply Z.eqb_neq, Hch).
    destruct (near_4x3 cw ch); eexists; (split; [reflexivity|reflexivity]).
Qed.

(** X2 (main). The stream copy is planned only when the scan is disabled
    or parses nothing, and the source is not wider than 4/3 + 0.005. *)
Lemma stream_copy_only_without_crop (a : args) (f : file_env) (info : probe_info)
    (v : stream) (iw ih : Z) (cmd : list string) :
  plan_file a f info v iw ih = Ok (StreamCopy cmd) ->
  (use_cropdetect a = false \/ parse_crops (f_scan f) = []) /\
  wider_than_4x3 iw ih = false /\
  cmd = copy_cmd (f_src f) (f_dst f).
Proof.
  unfold plan_file, decide_crop, run_cropdetect.
  destruct (use_cropdetect a) eqn:Hdet.
  - destruct (parse_crops (f_scan f)) as [|t crops] eqn:Ecrops.
    + cbn [consensus]. destruct (wider_than_4x3 iw ih); [discriminate|].
      intros [= <-]. auto.
    + destruct (consensus_first_most_frequent (t :: crops)) as (m & -> & _);
        [discriminate|].
      destruct (snap_4x3 iw (even4 m)); discriminate.
  - destruct (wider_than_4x3 iw ih); [discriminate|]. intros [= <-]. auto.
Qed.

(** * Further properties of the program *)

(** ** [even] *)

(** X3 (even). [even] rounds towards minus infinity, also below zero:
    its value is the greatest even integer that is at most [n], at most
    one below [n], and [even] leaves it unchanged. *)
Theorem even_rounds_down (n : Z) :
  Z.Even (even n) /\
  even n <= n < even n + 2 /\
  (forall m, Z.Even m -> m <= n -> m <= even n) /\
  even (even n) = even n.
Proof.
  split; [apply even_is_even|]. split; [pose proof (even_le n); pose proof (even_gt n); lia|].
  split; [intros m; apply even_greatest|].
  apply even_of_even, even_is_even.
Qed.

(** ** The rounded 4:3 width *)

(** X4 (centered_4x3_crop, main). [int(round(h * 4 / 3))], computed in
    binary64, is within a third of the exact [4 h / 3] for every height
    below 2^50: the floats lose nothing. *)
Theorem round_4x3_nearest (h : Z) :
  0 < h < 2 ^ 50 -> -1 <= 3 * round_4x3 h - 4 * h <= 1.
Proof.
  intros Hh. rewrite round_4x3_exact by exact Hh.
  pose proof (Z.div_mod (4 * h + 1) 3 ltac:(lia)).
  pose proof (Z.mod_pos_bound (4 * h + 1) 3 ltac:(lia)). lia.
Qed.

Lemma round_4x3_nearest_1081 : -1 <= 3 * round_4x3 1081 - 4 * 1081 <= 1.
Proof. apply (round_4x3_nearest 1081). lia. Defined.

(** X5 (centered_4x3_crop). The analytic crop of a source at least as
    wide as its 4:3 width is 4:3 to within two pixels of width ([|3 w -
    4 h| <= 5]), loses at most one row, sits at the top, and is centred
    to within three pixels; a narrower source keeps its (even) width at
    offset 0. *)
Theorem centered_4x3_crop_geometry (iw ih : Z) :
  0 < ih < 2 ^ 50 ->
  let '(w, h, x, y) := centered_4x3_crop iw ih in
  0 <= ih - h <= 1 /\ y = 0 /\
  ((4 * ih + 1) / 3 <= iw ->
   -4 <= 3 * w - 4 * h <= 5 /\ 0 <= iw - w - 2 * x <= 3) /\
  (iw <= (4 * ih + 1) / 3 -> w = even iw /\ x = 0).
Proof.
  intros Hih. unfold centered_4x3_crop. rewrite round_4x3_exact by exact Hih.
  pose proof (Z.div_mod (4 * ih + 1) 3 ltac:(lia)) as Hr.
  pose proof (Z.mod_pos_bound (4 * ih + 1) 3 ltac:(lia)) as Hr'.
  set (r := (4 * ih + 1) / 3) in *.
  pose proof (even_le ih) as Hh1. pose proof (even_gt ih) as Hh2.
  assert (even (Py.floordiv (ih - even ih) 2) = 0) as Hy.
  { unfold Py.floordiv. replace ((ih - even ih) / 2) with 0; [reflexivity|].
    symmetry. apply Z.div_small. lia. }
  split; [lia|]. split; [exact Hy|]. split.
  - intros Hwide. rewrite Z.min_r by lia.
    pose proof (even_le r). pose proof (even_gt r).
    split; [lia|]. unfold Py.floordiv.
    pose proof (Z.div_mod (iw - even r) 2 ltac:(lia)).
    pose proof (Z.mod_pos_bound (iw - even r) 2 ltac:(lia)).
    pose proof (even_le ((iw - even r) / 2)). pose proof (even_gt ((iw - even r) / 2)).
    lia.
  - intros Hnarrow. rewrite Z.min_l by lia. split; [reflexivity|].
    unfold Py.floordiv. pose proof (even_le iw). pose proof (even_gt iw).
    replace ((iw - even iw) / 2) with 0; [reflexivity|].
    symmetry. apply Z.div_small. lia.
Qed.

Lemma centered_4x3_crop_geometry_1921x1081 :
  let '(w, h, x, y) := centered_4x3_crop 1921 1081 in
  0 <= 1081 - h <= 1 /\ y = 0 /\
  ((4 * 1081 + 1) / 3 <= 1921 ->
   -4 <= 3 * w - 4 * h <= 5 /\ 0 <= 1921 - w - 2 * x <= 3) /\
  (1921 <= (4 * 1081 + 1) / 3 -> w = even 1921 /\ x = 0).
Proof. apply (centered_4x3_crop_geometry 1921 1081). lia. Defined.

(** ** The nudge of a detected crop *)

(** X6 (main). The nudge raises exactly when the height is 0. Otherwise
    it keeps the height and the y-offset, and either keeps the width and
    the x-offset or sets the width to the even 4:3 width of the height
    and centres it in the source to within three pixels, without looking
    at the source width: the x-offset is negative when the source is
    narrower than the new width. *)
Theorem snap_4x3_geometry (iw cw ch cx cy : Z) :
  (snap_4x3 iw (cw, ch, cx, cy) = Raise ZeroDivisionError <-> ch = 0) /\
  (forall w h x y,
      snap_4x3 iw (cw, ch, cx, cy) = Ok (w, h, x, y) ->
      ch <> 0 /\ h = ch /\ y = cy /\
      ((w = cw /\ x = cx) \/
       (w = even (round_4x3 ch) /\ 0 <= iw - w - 2 * x <= 3 /\ (iw < w -> x < 0)))).
Proof.
  unfold snap_4x3. destruct (Z.eqb_spec ch 0) as [Hz|Hnz].
  - split; [tauto|]. intros w h x y H. discriminate.
  - split; [destruct (near_4x3 cw ch); split; (discriminate || contradiction)|].
    intros w h x y. destruct (near_4x3 cw ch); intros [= <- <- <- <-].
    + split; [exact Hnz|]. split; [reflexivity|]. split; [reflexivity|]. right.
      split; [reflexivity|]. unfold Py.floordiv.
      set (w := even (round_4x3 ch)).
      pose proof (Z.div_mod (iw - w) 2 ltac:(lia)).
      pose proof (Z.mod_pos_bound (iw - w) 2 ltac:(lia)).
      pose proof (even_le ((iw - w) / 2)). pose proof (even_gt ((iw - w) / 2)).
      lia.
    + split; [exact Hnz|]. split; [reflexivity|]. split; [reflexivity|]. left. auto.
Qed.

(** ** Zero height *)

(** X7 (main). A probed height of 0 never divides: the aspect is taken
    as 0.0, the source does not count as wider than 4:3, and without a
    scan suggestion the decision is "no crop needed" for every width. *)
Theorem zero_height_needs_no_crop (a : args) (iw : Z) (scan : list string) :
  use_cropdetect a = false \/ parse_crops scan = [] ->
  src_aspect iw 0 = 0%float /\
  wider_than_4x3 iw 0 = false /\
  decide_crop a iw 0 scan = Ok None.
Proof.
  intros Hscan.
  assert (wider_than_4x3 iw 0 = false) as Hw by (vm_compute; reflexivity).
  split; [reflexivity|]. split; [exact Hw|].
  unfold decide_crop, run_cropdetect.
  assert ((if use_cropdetect a then consensus (parse_crops scan) else None) = None) as ->.
  { destruct Hscan as [-> | ->]; [reflexivity|]. destruct (use_cropdetect a); reflexivity. }
  rewrite Hw. reflexivity.
Qed.

Lemma zero_height_needs_no_crop_1920 :
  src_aspect 1920 0 = 0%float /\
  wider_than_4x3 1920 0 = false /\
  decide_crop args_default 1920 0 [] = Ok None.
Proof. apply (zero_height_needs_no_crop args_default 1920 []). left. reflexivity. Defined.

(** ** What the scan can return *)

(** X8 (run_cropdetect). [run_cropdetect] returns [None] exactly when no
    line of the scan yields a suggestion; lines that do not parse are
    ignored. What it returns otherwise is one of the parsed suggestions,
    the first of the most frequent ones, with its values forced even:
    never a tuple the scan did not print. *)
Theorem run_cropdetect_from_scan (lines : list string) :
  (run_cropdetect lines = None <->
   forall ln, In ln lines -> parse_crop_line ln = None) /\
  (forall c,
      run_cropdetect lines = Some c ->
      exists ln t,
        In ln lines /\ parse_crop_line ln = Some t /\
        first_most_frequent (parse_crops lines) t /\ c = even4 t).
Proof.
  unfold run_cropdetect. split.
  - split.
    + intros Hnone ln Hin.
      destruct (parse_crop_line ln) as [t|] eqn:Et; [exfalso|reflexivity].
      assert (t ∈ parse_crops lines) as Ht
        by (apply list_elem_of_omap; exists ln; split; [apply list_elem_of_In, Hin|exact Et]).
      destruct (consensus_first_most_frequent (parse_crops lines)) as (m & Hm & _).
      { intros E. rewrite E in Ht. inversion Ht. }
      congruence.
    + intros Hall.
      assert (parse_crops lines = []) as ->; [|reflexivity].
      destruct (parse_crops lines) as [|t crops] eqn:E; [reflexivity|exfalso].
      assert (t ∈ parse_crops lines) as Ht by (rewrite E; left).
      apply list_elem_of_omap in Ht as (ln & Hin & Et).
      rewrite (Hall ln) in Et by (apply list_elem_of_In, Hin). discriminate.
  - intros c Hc.
    destruct (parse_crops lines) as [|t0 crops] eqn:E; [discriminate|]. rewrite <- E in *.
    destruct (consensus_first_most_frequent (parse_crops lines)) as (m & Hm & Hfirst).
    { rewrite E. discriminate. }
    assert (m ∈ parse_crops lines) as Hin.
    { destruct Hfirst as (pre & post & -> & _).
      apply list_elem_of_In, in_app_iff. right; left; reflexivity. }
    apply list_elem_of_omap in Hin as (ln & Hin & Et).
    exists ln, m. split; [apply list_elem_of_In, Hin|].
    split; [exact Et|]. split; [exact Hfirst|]. congruence.
Qed.

(** ** The probed document *)

(** X9 (get_video_stream). [get_video_stream] returns the first stream
    of type "video", in the order of the document, and [None] exactly
    when no stream has that type. *)
Theorem get_video_stream_first (info : probe_info) :
  (get_video_stream info = None <->
   forall s, In s (streams info) -> codec_type s <> Some "video") /\
  (forall v,
      get_video_stream info = Some v ->
      codec_type v = Some "video" /\
      exists pre post,
        streams info = pre ++ v :: post /\
        forall s, In s pre -> codec_type s <> Some "video").
Proof.
  unfold get_video_stream. induction (streams info) as [|s l [IHn IHs]]; cbn [List.find].
  - split; [split; [intros _ ? []|reflexivity]|discriminate].
  - case_bool_decide as Hs.
    + split; [split; [discriminate|]|].
      * intros H. exfalso. apply (H s); [left; reflexivity|exact Hs].
      * intros v [= <-]. split; [exact Hs|]. exists [], l. split; [reflexivity|intros ? []].
    + split; [split|].
      * intros Hn s' [<-|Hin]; [exact Hs|]. apply (proj1 IHn Hn), Hin.
      * intros H. apply IHn. intros s' Hin. apply H. right; exact Hin.
      * intros v Hv. destruct (IHs v Hv) as (Hty & pre & post & -> & Hpre).
        split; [exact Hty|]. exists (s :: pre), post. split; [reflexivity|].
        intros s' [<-|Hin]; [exact Hs|apply Hpre, Hin].
Qed.

(** X10 (main). A source bit rate that [main] keeps is at least 100000,
    and it is the stream's own when that is numeric, the container's
    only when the stream's is absent or not numeric. *)
Theorem source_bitrate_sound (v : stream) (info : probe_info) (b : Z) :
  source_bitrate v info = Some b ->
  100000 <= b /\
  (parse_int (bit_rate v) = Some b \/
   (parse_int (bit_rate v) = None /\ parse_int (format_bit_rate info) = Some b)).
Proof.
  unfold source_bitrate.
  destruct (parse_int (bit_rate v)) as [b1|].
  - destruct (Z.ltb_spec b1 100000); [discriminate|]. intros [= <-]. auto.
  - destruct (parse_int (format_bit_rate info)) as [b2|]; [|discriminate].
    destruct (Z.ltb_spec b2 100000); [discriminate|]. intros [= <-]. auto.
Qed.

Lemma source_bitrate_sound_container :
  100000 <= 4128000 /\
  (parse_int (bit_rate (h264_stream 1920 1080 None)) = Some 4128000 \/
   (parse_int (bit_rate (h264_stream 1920 1080 None)) = None /\
    parse_int (format_bit_rate scenario_1_info) = Some 4128000)).
Proof.
  apply (source_bitrate_sound (h264_stream 1920 1080 None) scenario_1_info 4128000).
  vm_compute. reflexivity.
Defined.

(** ** The encoder resolver, again *)

(** X11 (choose_encoder). Resolving twice is resolving once: every
    encoder the table names is either not a codec name of the table or
    is mapped to itself. *)
Theorem choose_encoder_idempotent (codec_name : string) :
  choose_encoder (choose_encoder codec_name) = choose_encoder codec_name.
Proof.
  unfold choose_encoder at 2 3.
  destruct (CODEC_MAP !! codec_name) as [enc|] eqn:E.
  - unfold CODEC_MAP in E. apply elem_of_list_to_map_2 in E.
    repeat (apply elem_of_cons in E as [[= _ ->]|E]; [vm_compute; reflexivity|]).
    inversion E.
  - unfold choose_encoder. rewrite E. reflexivity.
Qed.

(** ** The trace of a batch *)

Lemma announced_app (l1 l2 : list event) :
  announced l1 -> announced l2 -> announced (l1 ++ l2).
Proof.
  intros H1 H2. induction H1; cbn [app]; [exact H2| | |].
  - apply announced_note; assumption.
  - apply announced_print; assumption.
  - apply announced_run; assumption.
Qed.

Lemma announced_run_after_print (evs pre post : list event) (cmd : list string) (rc : Z) :
  announced evs -> evs = pre ++ RunCommand cmd rc :: post ->
  exists pre', pre = pre' ++ [PrintCommand cmd].
Proof.
  intros H. revert pre. induction H as [|ev evs Hp He H IH|c evs H IH|c rc' evs H IH];
    intros pre Heq.
  - destruct pre; discriminate.
  - destruct pre as [|ev' pre]; injection Heq as -> Heq.
    + discriminate.
    + destruct (IH pre Heq) as [pre' ->]. exists (ev' :: pre'). reflexivity.
  - destruct pre as [|ev' pre]; [discriminate|]. injection Heq as <- Heq.
    destruct (IH pre Heq) as [pre' ->]. exists (PrintCommand c :: pre'). reflexivity.
  - destruct pre as [|ev' pre]; [discriminate|]. injection Heq as <- Heq.
    destruct pre as [|ev'' pre].
    + injection Heq as -> _ _. exists []. reflexivity.
    + injection Heq as <- Heq. destruct (IH pre Heq) as [pre' ->].
      exists (PrintCommand c :: RunCommand c rc' :: pre'). reflexivity.
Qed.

(** What one file adds to the trace: notes that are no commands, then
    nothing, or the print of one command, or its print and its run. *)
Lemma process_file_trace (a : args) (f : file_env) :
  exists notes tail,
    fst (process_file a f) = notes ++ tail /\
    printed notes = [] /\ executed notes = [] /\
    ((tail = [] /\ forall rc, snd (process_file a f) <> SysExit rc) \/
     (exists cmd, dry_run a = true /\ tail = [PrintCommand cmd] /\
                  snd (process_file a f) = Completed) \/
     (exists cmd, dry_run a = false /\
                  tail = [PrintCommand cmd; RunCommand cmd (f_run_rc f)] /\
                  snd (process_file a f)
                  = if f_run_rc f =? 0 then Completed else SysExit (f_run_rc f))).
Proof.
  assert (forall cmd notes,
             printed notes = [] -> executed notes = [] ->
             exists notes' tail,
               fst (let '(evs, e) := emit a f cmd in (notes ++ evs, e)) = notes' ++ tail /\
               printed notes' = [] /\ executed notes' = [] /\
               ((dry_run a = true /\ tail = [PrintCommand cmd] /\
                 snd (let '(evs, e) := emit a f cmd in (notes ++ evs, e)) = Completed) \/
                (dry_run a = false /\
                 tail = [PrintCommand cmd; RunCommand cmd (f_run_rc f)] /\
                 snd (let '(evs, e) := emit a f cmd in (notes ++ evs, e))
                 = if f_run_rc f =? 0 then Completed else SysExit (f_run_rc f)))) as Hemit.
  { intros cmd notes Hp He. unfold emit. destruct (dry_run a).
    - exists notes, [PrintCommand cmd]. repeat split; try assumption. left. auto.
    - destruct (f_run_rc f =? 0); cbn [negb];
        exists notes, [PrintCommand cmd; RunCommand cmd (f_run_rc f)];
        (repeat split; try assumption); right; auto. }
  assert (forall ev e, printed [ev] = [] -> executed [ev] = [] ->
                       (forall rc, e <> SysExit rc) ->
                       exists notes tail,
                         fst ([ev], e) = notes ++ tail /\
                         printed notes = [] /\ executed notes = [] /\
                         ((tail = [] /\ forall rc, snd ([ev], e) <> SysExit rc) \/
                          (exists cmd, dry_run a = true /\ tail = [PrintCommand cmd] /\
                                       snd ([ev], e) = Completed) \/
                          (exists cmd, dry_run a = false /\
                                       tail = [PrintCommand cmd; RunCommand cmd (f_run_rc f)] /\
                                       snd ([ev], e)
                                       = if f_run_rc f =? 0 then Completed
                                         else SysExit (f_run_rc f)))) as Hskip.
  { intros ev e Hp He Hne. exists [ev], []. rewrite app_nil_r. repeat split; auto. }
  unfold process_file.
  destruct (f_exists f); cbn [negb]; [|apply Hskip; [reflexivity..|discriminate]].
  destruct (ffprobe_json _ _) as [info|e].
  2:{ exists [], []. repeat split; auto. }
  destruct (get_video_stream info) as [v|]; [|apply Hskip; [reflexivity..|discriminate]].
  destruct (parse_int (width v)) as [iw|]; [|apply Hskip; [reflexivity..|discriminate]].
  destruct (parse_int (height v)) as [ih|]; [|apply Hskip; [reflexivity..|discriminate]].
  destruct (plan_file a f info v iw ih) as [[cmd|cmd]|e].
  - destruct (Hemit cmd [NoteAlready4x3 (f_src f)] eq_refl eq_refl)
      as (notes & tail & H1 & H2 & H3 & H4).
    exists notes, tail. cbn [app] in H1, H4. repeat split; auto.
    right. destruct H4 as [H4|H4]; [left|right]; exists cmd; exact H4.
  - set (note := if is_x26x _ && endswith _ _ then _ else _).
    assert (printed note = [] /\ executed note = []) as [Hp He]
      by (unfold note; destruct (is_x26x _ && endswith _ _); split; reflexivity).
    destruct (Hemit cmd note Hp He) as (notes & tail & H1 & H2 & H3 & H4).
    exists notes, tail. repeat split; auto.
    right. destruct H4 as [H4|H4]; [left|right]; exists cmd; exact H4.
  - exists [], []. repeat split; auto.
Qed.

Lemma announced_notes (notes : list event) :
  printed notes = [] -> executed notes = [] -> announced notes.
Proof.
  induction notes as [|ev notes IH]; [constructor|].
  destruct ev; cbn; intros Hp He; try discriminate;
    (apply announced_note; [reflexivity|reflexivity|apply IH; assumption]).
Qed.

Lemma printed_app (l1 l2 : list event) : printed (l1 ++ l2) = printed l1 ++ printed l2.
Proof. apply omap_app. Qed.

Lemma executed_app (l1 l2 : list event) : executed (l1 ++ l2) = executed l1 ++ executed l2.
Proof. apply omap_app. Qed.

Lemma run_batch_invariant (a : args) (files : list file_env) :
  announced (fst (run_batch a files)) /\
  (length (printed (fst (run_batch a files))) <= length files)%nat /\
  (dry_run a = true -> executed (fst (run_batch a files)) = []) /\
  (dry_run a = false ->
   executed (fst (run_batch a files)) = printed (fst (run_batch a files))) /\
  (forall rc, snd (run_batch a files) = SysExit rc ->
              dry_run a = false /\ rc <> 0 /\
              exists evs cmd,
                fst (run_batch a files) = evs ++ [PrintCommand cmd; RunCommand cmd rc]).
Proof.
  induction files as [|f rest (IHa & IHl & IHd & IHn & IHx)].
  - cbn. split; [constructor|]. split; [lia|]. split; [reflexivity|].
    split; [reflexivity|]. intros rc H. discriminate.
  - cbn [run_batch].
    destruct (process_file_trace a f) as (notes & tail & Hev & Hp & He & Hshape).
    destruct (process_file a f) as [pevs pe]. cbn [fst snd] in Hev, Hshape. subst pevs.
    pose proof (announced_notes notes Hp He) as Hnotes.
    destruct (run_batch a rest) as [revs re]. cbn [fst snd] in *.
    destruct Hshape as [[-> Hne] | [(cmd & Hdry & -> & ->) | (cmd & Hdry & -> & Hend)]].
    + rewrite app_nil_r.
      assert (announced (notes ++ revs) /\
              (length (printed (notes ++ revs)) <= S (length rest))%nat /\
              (dry_run a = true -> executed (notes ++ revs) = []) /\
              (dry_run a = false -> executed (notes ++ revs) = printed (notes ++ revs)) /\
              (forall rc, re = SysExit rc ->
                          dry_run a = false /\ rc <> 0 /\
                          exists evs cmd,
                            notes ++ revs = evs ++ [PrintCommand cmd; RunCommand cmd rc]))
        as Hgo.
      { rewrite printed_app, executed_app, Hp, He. cbn [app].
        split; [apply announced_app; assumption|]. split; [lia|].
        split; [exact IHd|]. split; [exact IHn|].
        intros rc Hrc. destruct (IHx rc Hrc) as (Hd & Hrc0 & evs & cmd & ->).
        split; [exact Hd|]. split; [exact Hrc0|].
        exists (notes ++ evs), cmd. rewrite app_assoc. reflexivity. }
      destruct pe; cbn [fst snd]; [exact Hgo| exfalso; eapply Hne; reflexivity |].
      rewrite Hp, He. split; [exact Hnotes|]. split; [cbn [length]; lia|].
      split; [reflexivity|]. split; [reflexivity|]. intros rc H. discriminate.
    + cbn [fst snd]. rewrite <- app_assoc. cbn [app].
      rewrite printed_app, executed_app, Hp, He. cbn [app].
      change (printed (PrintCommand cmd :: revs)) with (cmd :: printed revs).
      change (executed (PrintCommand cmd :: revs)) with (executed revs).
      split.
      { apply announced_app; [exact Hnotes|].
        apply announced_print, IHa. }
      split; [cbn [length]; lia|]. split; [exact IHd|].
      split; [intros H; congruence|].
      intros rc Hrc. destruct (IHx rc Hrc) as (Hd & _). congruence.
    + destruct (Z.eqb_spec (f_run_rc f) 0) as [Hz|Hnz]; subst pe; cbn [fst snd].
      * rewrite <- app_assoc. cbn [app].
        rewrite printed_app, executed_app, Hp, He. cbn [app].
        change (printed (PrintCommand cmd :: RunCommand cmd (f_run_rc f) :: revs))
          with (cmd :: printed revs).
        change (executed (PrintCommand cmd :: RunCommand cmd (f_run_rc f) :: revs))
          with (cmd :: executed revs).
        split.
        { apply announced_app; [exact Hnotes|]. cbn [app].
          apply announced_run, IHa. }
        split; [cbn [length]; lia|]. split; [intros H; congruence|].
        split; [intros H; rewrite (IHn H); reflexivity|].
        intros rc Hrc. destruct (IHx rc Hrc) as (Hd & Hrc0 & evs & cmd' & ->).
        split; [exact Hd|]. split; [exact Hrc0|].
        exists (notes ++ PrintCommand cmd :: RunCommand cmd (f_run_rc f) :: evs), cmd'.
        rewrite <- app_assoc. reflexivity.
      * rewrite printed_app, executed_app, Hp, He. cbn.
        split.
        { apply announced_app; [exact Hnotes|]. apply announced_run. constructor. }
        split; [lia|]. split; [intros H; congruence|].
        split; [reflexivity|].
        intros rc [= <-]. split; [exact Hdry|]. split; [exact Hnz|].
        exists notes, cmd. reflexivity.
Qed.

(** X12 (main). The loop is sequential and stops at the first file that
    does not end normally: the trace of a batch is the trace of its
    first part followed by that of the rest, and when the first part
    stops early the rest adds nothing, whatever it holds. *)
Theorem run_batch_sequential (a : args) (files rest : list file_env) :
  run_batch a (files ++ rest)
  = match run_batch a files with
    | (evs, Completed) => (evs ++ fst (run_batch a rest), snd (run_batch a rest))
    | stopped => stopped
    end.
Proof.
  induction files as [|f files IH]; cbn [app run_batch].
  - destruct (run_batch a rest). reflexivity.
  - destruct (process_file a f) as [evs1 [| |]]; try reflexivity.
    rewrite IH. destruct (run_batch a files) as [evs2 [| |]]; try reflexivity.
    cbn [fst snd]. rewrite app_assoc. reflexivity.
Qed.

(** X13 (main). Nothing is run that was not printed: in the trace of any
    batch each executed command directly follows the print of the same
    command; at most one command is printed per input file; and when the
    run ends with an exit status, that status is not 0 and belongs to
    the command run last. *)
Theorem run_batch_trace_shape (a : args) (files : list file_env) :
  (forall pre cmd rc post,
      fst (run_batch a files) = pre ++ RunCommand cmd rc :: post ->
      exists pre', pre = pre' ++ [PrintCommand cmd]) /\
  (length (printed (fst (run_batch a files))) <= length files)%nat /\
  (dry_run a = false ->
   executed (fst (run_batch a files)) = printed (fst (run_batch a files))) /\
  (forall rc, snd (run_batch a files) = SysExit rc ->
              rc <> 0 /\
              exists evs cmd,
                fst (run_batch a files) = evs ++ [PrintCommand cmd; RunCommand cmd rc]).
Proof.
  destruct (run_batch_invariant a files) as (Ha & Hl & _ & Hn & Hx).
  split; [intros pre cmd rc post; apply announced_run_after_print, Ha|].
  split; [exact Hl|]. split; [exact Hn|].
  intros rc Hrc. destruct (Hx rc Hrc) as (_ & H0 & Hlast). auto.
Qed.

(** X14 (main). With [--dry-run] no command is executed and the run
    never ends with an exit status: every file that gets a plan only has
    its command printed. *)
Theorem dry_run_runs_nothing (a : args) (files : list file_env) :
  dry_run a = true ->
  executed (fst (run_batch a files)) = [] /\
  (forall cmd rc, ~ In (RunCommand cmd rc) (fst (run_batch a files))) /\
  (forall rc, snd (run_batch a files) <> SysExit rc).
Proof.
  intros Hdry. destruct (run_batch_invariant a files) as (_ & _ & Hd & _ & Hx).
  split; [exact (Hd Hdry)|]. split.
  - intros cmd rc Hin.
    assert (cmd ∈ executed (fst (run_batch a files))) as H.
    { apply list_elem_of_omap. exists (RunCommand cmd rc).
      split; [apply list_elem_of_In, Hin|reflexivity]. }
    rewrite (Hd Hdry) in H. inversion H.
  - intros rc Hrc. destruct (Hx rc Hrc) as (H & _). congruence.
Qed.

Lemma dry_run_runs_nothing_two_files :
  executed (fst (run_batch args_dry_run [scenario_1_file; scenario_2_file])) = [] /\
  (forall cmd rc,
      ~ In (RunCommand cmd rc)
           (fst (run_batch args_dry_run [scenario_1_file; scenario_2_file]))) /\
  (forall rc, snd (run_batch args_dry_run [scenario_1_file; scenario_2_file]) <> SysExit rc).
Proof.
  apply (dry_run_runs_nothing args_dry_run [scenario_1_file; scenario_2_file]).
  reflexivity.
Defined.

(** ** Numerals: [int] after [str] *)

Lemma digit_of_pretty_N_char (d : N) :
  (d < 10)%N -> PyStr.digit_of (pretty_N_char d) = Some (Z.of_N d).
Proof.
  intros Hd.
  assert (d = 0 \/ d = 1 \/ d = 2 \/ d = 3 \/ d = 4 \/ d = 5 \/ d = 6 \/ d = 7
          \/ d = 8 \/ d = 9)%N as H by lia.
  repeat (destruct H as [->|H]; [reflexivity|]). subst d. reflexivity.
Qed.

(** Reading the digits that [pretty_N_go] writes in front of [s]. *)
Lemma digits_pretty_N_go (x : N) :
  (0 < x)%N ->
  forall (s : string) (acc : Z) (need_digit : bool),
  exists k, 0 <= k /\
    PyStr.digits need_digit acc (pretty_N_go x s)
    = PyStr.digits false (acc * 10 ^ k + Z.of_N x) s.
Proof.
  induction (N.lt_wf_0 x) as [x _ IH]. intros Hx s acc nd.
  rewrite pretty_N_go_step by exact Hx.
  pose proof (N.mod_lt x 10 ltac:(lia)) as Hmod.
  pose proof (N.div_mod x 10 ltac:(lia)) as Hdm.
  destruct (N.eq_dec (x / 10)%N 0%N) as [Hq|Hq].
  - rewrite Hq, pretty_N_go_0. exists 1. split; [lia|].
    cbn [PyStr.digits]. rewrite (digit_of_pretty_N_char _ Hmod).
    f_equal. lia.
  - destruct (IH (x / 10)%N) with
      (s := String (pretty_N_char (x mod 10)) s) (acc := acc) (need_digit := nd)
      as (k & Hk & ->).
    + apply N.div_lt; lia.
    + lia.
    + exists (k + 1). split; [lia|].
      cbn [PyStr.digits]. rewrite (digit_of_pretty_N_char _ Hmod).
      f_equal. rewrite Z.pow_add_r by lia. lia.
Qed.

(** A positive number is written with a digit in front. *)
Lemma pretty_N_go_head (x : N) :
  (0 < x)%N ->
  forall s, exists d rest, (d < 10)%N /\ pretty_N_go x s = String (pretty_N_char d) rest.
Proof.
  induction (N.lt_wf_0 x) as [x _ IH]. intros Hx s.
  rewrite pretty_N_go_step by exact Hx.
  destruct (N.eq_dec (x / 10)%N 0%N) as [Hq|Hq].
  - rewrite Hq, pretty_N_go_0. exists (x mod 10)%N, s.
    split; [apply N.mod_lt; lia|reflexivity].
  - apply IH; [apply N.div_lt; lia | apply N.neq_0_lt_0, Hq].
Qed.

Lemma int_of_str_digit_head (d : N) (rest : string) :
  (d < 10)%N ->
  PyStr.int_of_str (String (pretty_N_char d) rest)
  = PyStr.digits true 0 (String (pretty_N_char d) rest).
Proof.
  intros Hd.
  assert (d = 0 \/ d = 1 \/ d = 2 \/ d = 3 \/ d = 4 \/ d = 5 \/ d = 6 \/ d = 7
          \/ d = 8 \/ d = 9)%N as H by lia.
  repeat (destruct H as [->|H]; [reflexivity|]). subst d. reflexivity.
Qed.

Lemma int_of_str_pretty_pos (p : positive) :
  PyStr.int_of_str (pretty_N_go (Npos p) "") = Some (Zpos p) /\
  PyStr.digits true 0 (pretty_N_go (Npos p) "") = Some (Zpos p).
Proof.
  assert (PyStr.digits true 0 (pretty_N_go (Npos p) "") = Some (Zpos p)) as Hd.
  { destruct (digits_pretty_N_go (Npos p) ltac:(lia) "" 0 true) as (k & _ & ->).
    cbn [PyStr.digits]. f_equal. }
  split; [|exact Hd].
  destruct (pretty_N_go_head (Npos p) ltac:(lia) "") as (d & rest & Hlt & Heq).
  rewrite Heq in *. rewrite int_of_str_digit_head by exact Hlt. exact Hd.
Qed.

Lemma int_of_str_of_int (n : Z) : PyStr.int_of_str (PyStr.str_of_int n) = Some n.
Proof.
  unfold PyStr.str_of_int, pretty, pretty_Z. destruct n as [|p|p].
  - reflexivity.
  - apply int_of_str_pretty_pos.
  - unfold pretty, pretty_positive, pretty, pretty_N.
    destruct (decide (Npos p = 0%N)) as [H|_]; [discriminate|].
    change (PyStr.int_of_str ("-" +:+ pretty_N_go (N.pos p) ""))
      with (Z.opp <$> PyStr.digits true 0 (pretty_N_go (N.pos p) "")).
    rewrite (proj2 (int_of_str_pretty_pos p)). reflexivity.
Qed.

(** X15 (parse_int). [int(str(n))] is [n]: a number the program prints,
    as a JSON string or a JSON number, is read back by [parse_int] as
    itself. *)
Theorem parse_int_of_str (n : Z) :
  parse_int (Some (JStr (PyStr.str_of_int n))) = Some n /\
  parse_int (Some (JInt n)) = Some n.
Proof. split; [apply int_of_str_of_int|reflexivity]. Qed.

(** ** The crop filter is read back by the scan parser *)

Lemma append_cons (c : ascii) (s t : string) :
  String c s +:+ t = String c (s +:+ t).
Proof. reflexivity. Qed.

Lemma append_empty (t : string) : EmptyString +:+ t = t.
Proof. reflexivity. Qed.

Lemma string_forall_app (p : ascii -> bool) (s t : string) :
  string_forall p (s +:+ t) = string_forall p s && string_forall p t.
Proof.
  induction s as [|c s IH]; [reflexivity|].
  rewrite append_cons. cbn [string_forall]. rewrite IH. apply andb_assoc.
Qed.

Lemma numeral_char_pretty_N_char (d : N) :
  (d < 10)%N -> numeral_char (pretty_N_char d) = true.
Proof.
  intros Hd. unfold numeral_char. rewrite digit_of_pretty_N_char by exact Hd. reflexivity.
Qed.

Lemma string_forall_pretty_N_go (x : N) (s : string) :
  string_forall numeral_char s = true ->
  string_forall numeral_char (pretty_N_go x s) = true.
Proof.
  revert s. induction (N.lt_wf_0 x) as [x _ IH]. intros s Hs.
  destruct (N.eq_dec x 0%N) as [->|Hx]; [rewrite pretty_N_go_0; exact Hs|].
  rewrite pretty_N_go_step by (apply N.neq_0_lt_0, Hx).
  apply IH; [apply N.div_lt; lia|].
  cbn [string_forall]. rewrite numeral_char_pretty_N_char by (apply N.mod_lt; lia).
  exact Hs.
Qed.

(** [str(n)] is made of digits and at most a minus sign. *)
Lemma str_of_int_numeral (n : Z) :
  string_forall numeral_char (PyStr.str_of_int n) = true.
Proof.
  unfold PyStr.str_of_int, pretty, pretty_Z. destruct n as [|p|p].
  - reflexivity.
  - unfold pretty, pretty_positive, pretty, pretty_N.
    destruct (decide (Npos p = 0%N)); [reflexivity|].
    apply string_forall_pretty_N_go. reflexivity.
  - unfold pretty, pretty_positive, pretty, pretty_N.
    destruct (decide (Npos p = 0%N)); [reflexivity|].
    change (string_forall numeral_char ("-" +:+ pretty_N_go (N.pos p) ""))
      with (numeral_char "-" && string_forall numeral_char (pretty_N_go (N.pos p) "")).
    rewrite string_forall_pretty_N_go by reflexivity. reflexivity.
Qed.

(** A numeral character is no blank, no colon and no letter c. *)
Lemma numeral_char_plain (c : ascii) :
  numeral_char c = true ->
  PyStr.isspace c = false /\ Ascii.eqb c ":" = false /\ Ascii.eqb "c" c = false.
Proof.
  destruct c as [[] [] [] [] [] [] [] []]; vm_compute; intros H;
    (discriminate H || (repeat split; reflexivity)).
Qed.

Lemma cut_crop_numeral (s t : string) :
  string_forall numeral_char s = true ->
  PyStr.cut "crop=" (s +:+ t) = match PyStr.cut "crop=" t with
                                | Some (b, a) => Some (s +:+ b, a)
                                | None => None
                                end.
Proof.
  induction s as [|c s IH]; rewrite ?append_cons, ?append_empty; cbn [string_forall].
  - intros _. destruct (PyStr.cut "crop=" t) as [[b a]|]; reflexivity.
  - intros [Hc Hs]%andb_true_iff.
    destruct (numeral_char_plain c Hc) as (_ & _ & Hnc).
    cbn [PyStr.cut PyStr.strip_prefix]. rewrite Hnc. fold PyStr.cut.
    rewrite (IH Hs). destruct (PyStr.cut "crop=" t) as [[b a]|]; reflexivity.
Qed.

Lemma split_char_nonempty (c : ascii) (s : string) : PyStr.split_char c s <> [].
Proof.
  induction s as [|a s IH]; cbn [PyStr.split_char]; [discriminate|].
  destruct (PyStr.split_char c s); [congruence|].
  destruct (Ascii.eqb a c); discriminate.
Qed.

Lemma split_char_numeral (s t : string) :
  string_forall numeral_char s = true ->
  PyStr.split_char ":" (s +:+ String ":" t) = s :: PyStr.split_char ":" t /\
  PyStr.split_char ":" s = [s].
Proof.
  induction s as [|c s IH]; rewrite ?append_cons, ?append_empty; cbn [string_forall].
  - intros _. split; [|reflexivity]. cbn [PyStr.split_char].
    destruct (PyStr.split_char ":" t) as [|w ws] eqn:E; [|reflexivity].
    exfalso. apply (split_char_nonempty _ _ E).
  - intros [Hc Hs]%andb_true_iff.
    destruct (numeral_char_plain c Hc) as (_ & Hcolon & _).
    destruct (IH Hs) as [IH1 IH2].
    cbn [PyStr.split_char]. rewrite IH1, IH2, Hcolon. split; reflexivity.
Qed.

Lemma first_word_plain (s : string) :
  s <> EmptyString ->
  string_forall (fun c => negb (PyStr.isspace c)) s = true ->
  PyStr.first_word s = Some s.
Proof.
  intros Hne Hall.
  assert (PyStr.take_word s = s) as Htake.
  { clear Hne. induction s as [|c s IH]; [reflexivity|].
    cbn [string_forall] in Hall. apply andb_true_iff in Hall as [Hc Hs].
    cbn [PyStr.take_word]. apply negb_true_iff in Hc. rewrite Hc, (IH Hs). reflexivity. }
  destruct s as [|c s]; [congruence|].
  cbn [string_forall] in Hall. apply andb_true_iff in Hall as [Hc _].
  apply negb_true_iff in Hc. unfold PyStr.first_word. cbn [PyStr.lstrip]. rewrite Hc.
  rewrite Htake. reflexivity.
Qed.

(** A [crop=] that ends a text without one is the first occurrence. *)
Lemma cut_crop_after (pre rest : string) :
  PyStr.cut "crop=" pre = None ->
  PyStr.cut "crop=" (pre +:+ "crop=" +:+ rest) = Some (pre, rest).
Proof.
  induction pre as [|a pre IH]; [reflexivity|].
  intros Hcut. cbn [PyStr.cut] in Hcut.
  destruct (PyStr.strip_prefix "crop=" (String a pre)) as [r|] eqn:Estrip; [discriminate|].
  destruct (PyStr.cut "crop=" pre) as [[b a']|] eqn:Ecut; [discriminate|].
  rewrite append_cons. cbn [PyStr.cut].
  assert (PyStr.strip_prefix "crop=" (String a (pre +:+ "crop=" +:+ rest)) = None) as ->.
  { clear IH Ecut Hcut. revert Estrip.
    destruct pre as [|b [|c [|d [|e pre]]]];
      rewrite ?append_cons, ?append_empty; cbn [PyStr.strip_prefix];
      repeat (match goal with
              | |- context [Ascii.eqb ?x ?y] =>
                  destruct (Ascii.eqb x y) eqn:?; try reflexivity; try discriminate
              end); intros; try reflexivity; discriminate. }
  fold PyStr.cut. rewrite (IH eq_refl). reflexivity.
Qed.

Lemma numeral_or_colon_plain (c : ascii) :
  numeral_char c || Ascii.eqb c ":" = true ->
  negb (PyStr.isspace c) = true /\ Ascii.eqb "c" c = false.
Proof.
  destruct c as [[] [] [] [] [] [] [] []]; vm_compute; intros H;
    (discriminate H || (split; reflexivity)).
Qed.

Lemma cut_crop_absent (s : string) :
  string_forall (fun c => numeral_char c || Ascii.eqb c ":") s = true ->
  PyStr.cut "crop=" s = None /\
  string_forall (fun c => negb (PyStr.isspace c)) s = true.
Proof.
  induction s as [|c s IH]; [intros _; split; reflexivity|].
  cbn [string_forall]. intros [Hc Hs]%andb_true_iff.
  destruct (numeral_or_colon_plain c Hc) as [Hsp Hnc]. destruct (IH Hs) as [IH1 IH2].
  split; [|rewrite Hsp, IH2; reflexivity].
  cbn [PyStr.cut PyStr.strip_prefix]. rewrite Hnc. fold PyStr.cut. rewrite IH1. reflexivity.
Qed.

Lemma string_forall_weaken (p q : ascii -> bool) (s : string) :
  (forall c, p c = true -> q c = true) ->
  string_forall p s = true -> string_forall q s = true.
Proof.
  intros Hpq. induction s as [|c s IH]; [reflexivity|].
  cbn [string_forall]. intros [Hc Hs]%andb_true_iff.
  rewrite (Hpq c Hc), (IH Hs). reflexivity.
Qed.

Lemma parse_crop_line_filter (pre : string) (c : crop) :
  PyStr.cut "crop=" pre = None ->
  parse_crop_line (pre +:+ crop_filter c) = Some c.
Proof.
  destruct c as [[[w h] x] y]. intros Hpre. unfold crop_filter.
  set (W := PyStr.str_of_int w). set (H := PyStr.str_of_int h).
  set (X := PyStr.str_of_int x). set (Y := PyStr.str_of_int y).
  set (rest := W +:+ ":" +:+ H +:+ ":" +:+ X +:+ ":" +:+ Y).
  assert (string_forall (fun c => numeral_char c || Ascii.eqb c ":") rest = true) as Hrest.
  { assert (forall n, string_forall (fun c => numeral_char c || Ascii.eqb c ":")
                        (PyStr.str_of_int n) = true) as Hnum.
    { intros n. apply (string_forall_weaken numeral_char); [|apply str_of_int_numeral].
      intros c0 ->. reflexivity. }
    unfold rest, W, H, X, Y.
    rewrite !string_forall_app, !Hnum. reflexivity. }
  destruct (cut_crop_absent rest Hrest) as [Hcut Hplain].
  assert (rest <> EmptyString) as Hne.
  { unfold rest. destruct W; discriminate. }
  unfold parse_crop_line, PyStr.contains, PyStr.split_second.
  change (pre +:+ "crop=" +:+ rest) with (pre +:+ "crop=" +:+ rest).
  rewrite (cut_crop_after pre rest Hpre), Hcut.
  cbn [mbind option_bind]. rewrite (first_word_plain rest Hne Hplain).
  cbn [mbind option_bind]. unfold rest.
  change (W +:+ ":" +:+ H +:+ ":" +:+ X +:+ ":" +:+ Y)
    with (W +:+ String ":" (H +:+ String ":" (X +:+ String ":" Y))).
  rewrite (proj1 (split_char_numeral W _ (str_of_int_numeral w))).
  rewrite (proj1 (split_char_numeral H _ (str_of_int_numeral h))).
  rewrite (proj1 (split_char_numeral X _ (str_of_int_numeral x))).
  rewrite (proj2 (split_char_numeral Y EmptyString (str_of_int_numeral y))).
  unfold W, H, X, Y. rewrite !int_of_str_of_int. reflexivity.
Qed.

(** X16 (build_ffmpeg_cmd, run_cropdetect). The filter text a re-encode
    command carries after [-vf] is read by the scan's line parser as the
    crop it was written from, also at the end of a log line that has no
    earlier [crop=]; so two different crops never give the same filter. *)
Theorem crop_filter_round_trip (c : crop) :
  (forall src dst v_encoder v_bitrate crf preset,
      exists before after,
        build_ffmpeg_cmd src dst c v_encoder v_bitrate crf preset
        = before ++ "-vf" :: crop_filter c :: after) /\
  (forall pre, PyStr.cut "crop=" pre = None ->
               parse_crop_line (pre +:+ crop_filter c) = Some c) /\
  (forall c', crop_filter c' = crop_filter c -> c' = c).
Proof.
  split; [|split].
  - intros src dst enc b q preset. destruct c as [[[w h] x] y].
    exists ["ffmpeg"; "-stats"; "-loglevel"; "level+info"; "-y"; "-i"; src;
            "-map"; "0"; "-map_metadata"; "0"; "-map_chapters"; "0";
            "-c:a"; "copy"; "-c:s"; "copy"; "-c:d"; "copy"; "-c:t"; "copy";
            "-c:v"; enc].
    eexists. unfold build_ffmpeg_cmd, encode_base, crop_filter. cbn [app]. reflexivity.
  - intros pre. apply parse_crop_line_filter.
  - intros c' Heq.
    pose proof (parse_crop_line_filter EmptyString c' eq_refl) as H1.
    pose proof (parse_crop_line_filter EmptyString c eq_refl) as H2.
    rewrite !append_empty in H1, H2. congruence.
Qed.

(** ** Output names *)

Lemma append_empty_r (s : string) : s +:+ EmptyString = s.
Proof. induction s as [|c s IH]; [reflexivity|]. rewrite append_cons, IH. reflexivity. Qed.

Lemma length_append (s t : string) :
  String.length (s +:+ t) = (String.length s + String.length t)%nat.
Proof.
  induction s as [|c s IH]; [reflexivity|].
  rewrite append_cons. cbn [String.length]. rewrite IH. reflexivity.
Qed.

Lemma append_inj_length (s1 s2 t1 t2 : string) :
  String.length s1 = String.length s2 ->
  s1 +:+ t1 = s2 +:+ t2 -> s1 = s2 /\ t1 = t2.
Proof.
  revert s2. induction s1 as [|c s1 IH]; intros [|c2 s2] Hlen; try discriminate.
  - rewrite !append_empty. auto.
  - rewrite !append_cons. intros [= -> Heq]. injection Hlen as Hlen.
    destruct (IH s2 Hlen Heq) as [-> ->]. auto.
Qed.

Lemma append_cancel_r (s1 s2 t : string) : s1 +:+ t = s2 +:+ t -> s1 = s2.
Proof.
  intros Heq. apply (append_inj_length s1 s2 t t); [|exact Heq].
  apply (f_equal String.length) in Heq. rewrite !length_append in Heq. lia.
Qed.

Lemma take_drop (i : nat) (s : string) : PyPath.take i s +:+ PyPath.drop i s = s.
Proof.
  revert s. induction i as [|i IH]; intros [|c s]; try reflexivity.
  cbn [PyPath.take PyPath.drop]. rewrite append_cons, IH. reflexivity.
Qed.

Lemma take_length (i : nat) (s : string) :
  (i <= String.length s)%nat -> String.length (PyPath.take i s) = i.
Proof.
  revert s. induction i as [|i IH]; intros [|c s] Hi; cbn in *; try reflexivity; try lia.
  rewrite IH by lia. reflexivity.
Qed.

Lemma drop_append (s t : string) : PyPath.drop (String.length s) (s +:+ t) = t.
Proof.
  induction s as [|c s IH]; [destruct t; reflexivity|].
  rewrite append_cons. cbn [String.length PyPath.drop]. exact IH.
Qed.

Lemma take_append (s t : string) : PyPath.take (String.length s) (s +:+ t) = s.
Proof.
  induction s as [|c s IH]; [destruct t; reflexivity|].
  rewrite append_cons. cbn [String.length PyPath.take]. rewrite IH. reflexivity.
Qed.

Lemma rfind_append (c : ascii) (s t : string) :
  PyPath.rfind c (s +:+ t)
  = match PyPath.rfind c t with
    | Some i => Some (String.length s + i)%nat
    | None => PyPath.rfind c s
    end.
Proof.
  induction s as [|a s IH];
    [rewrite append_empty; destruct (PyPath.rfind c t); reflexivity|].
  rewrite append_cons. cbn [PyPath.rfind String.length]. rewrite IH.
  destruct (PyPath.rfind c t); reflexivity.
Qed.

(** At the index [rfind] returns there is the character, and none after. *)
Lemma rfind_Some (c : ascii) (s : string) (i : nat) :
  PyPath.rfind c s = Some i ->
  (i < String.length s)%nat /\
  exists r, PyPath.drop i s = String c r /\ PyPath.rfind c r = None.
Proof.
  revert i. induction s as [|a s IH]; [discriminate|].
  cbn [PyPath.rfind String.length]. intros i.
  destruct (PyPath.rfind c s) as [j|] eqn:E.
  - intros [= <-]. destruct (IH j eq_refl) as (Hj & r & Hr & Hnone).
    split; [lia|]. exists r. auto.
  - destruct (Ascii.eqb_spec a c) as [->|]; [|discriminate].
    intros [= <-]. split; [lia|]. exists s. auto.
Qed.

(** A name with a suffix: a non-empty stem, a dot, and a non-empty rest
    without dots. *)
Lemma split_at_Some (name : string) (i : nat) :
  PyPath.split_at name = Some i ->
  exists r,
    name = PyPath.take i name +:+ String "." r /\
    String.length (PyPath.take i name) = i /\ (0 < i)%nat /\
    r <> EmptyString /\ PyPath.rfind "." r = None.
Proof.
  unfold PyPath.split_at. destruct (PyPath.rfind "." name) as [j|] eqn:E; [|discriminate].
  destruct ((0 <? j)%nat && (j <? String.length name - 1)%nat) eqn:Hb; [|discriminate].
  intros [= <-]. apply andb_true_iff in Hb as [H0%Nat.ltb_lt H1%Nat.ltb_lt].
  destruct (rfind_Some _ _ _ E) as (Hj & r & Hr & Hnone).
  exists r. pose proof (take_drop j name) as Htd. rewrite Hr in Htd.
  split; [symmetry; exact Htd|]. split; [apply take_length; lia|]. split; [exact H0|].
  split; [|exact Hnone].
  intros ->. apply (f_equal String.length) in Htd.
  rewrite length_append, take_length in Htd by lia. cbn in Htd. lia.
Qed.

Lemma split_at_with_suffix (s r : string) :
  s <> EmptyString -> r <> EmptyString -> PyPath.rfind "." r = None ->
  PyPath.split_at (s +:+ String "." r) = Some (String.length s).
Proof.
  intros Hs Hr Hnone. unfold PyPath.split_at. rewrite rfind_append.
  cbn [PyPath.rfind]. rewrite Hnone.
  replace (Ascii.eqb "." ".") with true by reflexivity.
  rewrite Nat.add_0_r, length_append. cbn [String.length].
  destruct s; [congruence|]. destruct r; [congruence|]. cbn [String.length].
  replace (0 <? S (String.length s))%nat with true by (symmetry; apply Nat.ltb_lt; lia).
  replace (S (String.length s) <? S (String.length s) + S (S (String.length r)) - 1)%nat
    with true by (symmetry; apply Nat.ltb_lt; lia).
  reflexivity.
Qed.

(** The stem and the suffix of an output name, by the shape of the
    input name. *)
Lemma output_name_parts (name : string) :
  match PyPath.split_at name with
  | Some i =>
      output_name name
      = (PyPath.stem name +:+ ".4x3") +:+ PyPath.suffix name /\
      PyPath.split_at (output_name name) = Some (String.length (PyPath.stem name) + 4)%nat /\
      PyPath.suffix name <> EmptyString
  | None =>
      output_name name = name +:+ ".4x3" /\
      (name <> EmptyString ->
       PyPath.split_at (output_name name) = Some (String.length name)) /\
      (name = EmptyString -> PyPath.split_at (output_name name) = None)
  end.
Proof.
  unfold output_name, PyPath.stem, PyPath.suffix.
  destruct (PyPath.split_at name) as [i|] eqn:E; cbv beta iota.
  - destruct (split_at_Some name i E) as (r & Hname & Hlen & Hi & Hr & Hnone).
    assert (PyPath.drop i name = String "." r) as Hdrop.
    { rewrite Hname at 1. rewrite <- Hlen at 1. apply drop_append. }
    rewrite Hdrop. set (s := PyPath.take i name) in *.
    assert (s +:+ ".4x3" +:+ String "." r = (s +:+ ".4x3") +:+ String "." r) as Hassoc.
    { clearbody s. clear. generalize (String "." r). generalize ".4x3".
      intros b c. induction s as [|a s IH]; [reflexivity|].
      rewrite !append_cons, IH. reflexivity. }
    split; [exact Hassoc|]. split; [|discriminate].
    rewrite Hassoc, split_at_with_suffix; [|destruct s; discriminate|exact Hr|exact Hnone].
    rewrite length_append. reflexivity.
  - rewrite append_empty_r. split; [reflexivity|]. split.
    + intros Hne.
      change (name +:+ ".4x3") with (name +:+ String "." "4x3").
      apply split_at_with_suffix; [exact Hne|discriminate|reflexivity].
    + intros ->. reflexivity.
Qed.

Lemma append_assoc (a b c : string) : a +:+ b +:+ c = (a +:+ b) +:+ c.
Proof.
  induction a as [|x a IH]; [reflexivity|]. rewrite !append_cons, IH. reflexivity.
Qed.

Lemma stem_suffix (name : string) : PyPath.stem name +:+ PyPath.suffix name = name.
Proof.
  unfold PyPath.stem, PyPath.suffix. destruct (PyPath.split_at name) as [i|].
  - apply take_drop.
  - apply append_empty_r.
Qed.

Lemma output_name_length (name : string) :
  String.length (output_name name) = (String.length name + 4)%nat.
Proof.
  unfold output_name. rewrite <- (stem_suffix name) at 3.
  rewrite !length_append. cbn [String.length]. lia.
Qed.

(** X17 (output_path_for). The output file never has the name of the
    input file, whatever the output directory; and without an output
    directory ([None], or the empty string, which [or] takes for false)
    it is put in the directory of the input. So the overwriting [-y] of
    the ffmpeg command cannot hit the source file. *)
Theorem output_path_never_input (parent name : string) (outdir : option string) :
  snd (output_path_for parent name outdir) <> name /\
  String.length (snd (output_path_for parent name outdir))
  = (String.length name + 4)%nat /\
  (outdir = None \/ outdir = Some EmptyString ->
   fst (output_path_for parent name outdir) = parent).
Proof.
  cbn [output_path_for snd fst]. split; [|split].
  - intros Heq. apply (f_equal String.length) in Heq.
    rewrite output_name_length in Heq. lia.
  - apply output_name_length.
  - intros [->| ->]; reflexivity.
Qed.

(** X18 (output_path_for). Two input files of different names get output
    files of different names: in one output directory no output of a
    batch replaces another one's, unless two inputs of different
    directories share a name. *)
Theorem output_name_injective (n1 n2 : string) :
  n1 <> n2 -> output_name n1 <> output_name n2.
Proof.
  intros Hne Heq. apply Hne. clear Hne.
  assert (String.length n1 = String.length n2) as Hlen.
  { apply (f_equal String.length) in Heq. rewrite !output_name_length in Heq. lia. }
  assert (forall a b : string,
    PyPath.split_at a <> None -> PyPath.split_at b = None ->
    String.length a = String.length b ->
    output_name a = output_name b -> a = b) as Hcross.
  { intros a b Ha Hb Hl He.
    pose proof (output_name_parts a) as Pa. pose proof (output_name_parts b) as Pb.
    destruct (PyPath.split_at a) as [i|] eqn:Ea; [clear Ha|congruence].
    rewrite Hb in Pb. destruct Pa as (Pa1 & Pa2 & _). destruct Pb as (Pb1 & Pb2 & _).
    assert (b <> EmptyString) as Hbne.
    { intros ->. destruct (split_at_Some a i Ea) as (r & _ & _ & Hi & _).
      pose proof (split_at_Some a i Ea) as (r' & Hn & Hli & _).
      apply (f_equal String.length) in Hn. rewrite length_append, Hli in Hn.
      cbn [String.length] in Hl. lia. }
    specialize (Pb2 Hbne). rewrite He, Pb2 in Pa2. injection Pa2 as Hi.
    rewrite Pa1, Pb1 in He.
    apply append_inj_length in He as [He1 He2].
    - rewrite <- (stem_suffix a), He2. exact He1.
    - rewrite length_append. cbn [String.length]. lia. }
  pose proof (output_name_parts n1) as P1. pose proof (output_name_parts n2) as P2.
  destruct (PyPath.split_at n1) as [i1|] eqn:E1; destruct (PyPath.split_at n2) as [i2|] eqn:E2.
  - destruct P1 as (P1a & P1b & _). destruct P2 as (P2a & P2b & _).
    rewrite Heq, P2b in P1b. injection P1b as Hi.
    rewrite P1a, P2a in Heq.
    apply append_inj_length in Heq as [He1 He2].
    + apply append_cancel_r in He1.
      rewrite <- (stem_suffix n1), <- (stem_suffix n2), He1, He2. reflexivity.
    + rewrite !length_append. cbn [String.length]. lia.
  - apply Hcross; [congruence|exact E2|exact Hlen|exact Heq].
  - symmetry. apply Hcross; [congruence|exact E1|symmetry; exact Hlen|symmetry; exact Heq].
  - destruct P1 as (P1a & _). destruct P2 as (P2a & _).
    rewrite P1a, P2a in Heq. apply append_cancel_r in Heq. exact Heq.
Qed.

Lemma output_name_injective_mkv_mp4 :
  "film.mkv" <> "film.mp4" /\ output_name "film.mkv" <> output_name "film.mp4".
Proof.
  split; [discriminate|].
  apply (output_name_injective "film.mkv" "film.mp4"). discriminate.
Defined.

(** X19 (output_path_for). The output keeps the suffix of the input, by
    which ffmpeg chooses the container, and its stem is the input's
    followed by [.4x3]; an input name without a suffix (no dot, a
    leading dot only, or a trailing dot) gives an output whose suffix is
    [.4x3] itself. *)
Theorem output_name_suffix (name : string) :
  (PyPath.suffix name <> EmptyString ->
   PyPath.suffix (output_name name) = PyPath.suffix name /\
   PyPath.stem (output_name name) = PyPath.stem name +:+ ".4x3") /\
  (PyPath.suffix name = EmptyString -> name <> EmptyString ->
   PyPath.suffix (output_name name) = ".4x3" /\
   PyPath.stem (output_name name) = name).
Proof.
  pose proof (output_name_parts name) as P.
  unfold PyPath.suffix at 1 3 4. unfold PyPath.stem at 1 3.
  destruct (PyPath.split_at name) as [i|] eqn:E.
  - destruct P as (P1 & P2 & P3). split.
    + intros _. unfold PyPath.suffix at 1, PyPath.stem at 1. rewrite P2.
      rewrite P1 at 1 2.
      replace (String.length (PyPath.stem name) + 4)%nat
        with (String.length (PyPath.stem name +:+ ".4x3"))
        by (rewrite length_append; reflexivity).
      rewrite drop_append, take_append.
      unfold PyPath.suffix, PyPath.stem. rewrite E. split; reflexivity.
    + intros Hs. exfalso. apply P3. unfold PyPath.suffix. rewrite E. exact Hs.
  - destruct P as (P1 & P2 & _). split; [congruence|].
    intros _ Hne. unfold PyPath.suffix, PyPath.stem. rewrite (P2 Hne), P1.
    rewrite drop_append, take_append. split; reflexivity.
Qed.

(** ** Inputs the loop passes over *)

Lemma skipped_process_file (a : args) (f : file_env) :
  skipped f ->
  exists note,
    process_file a f = ([note], Completed) /\
    (note = SkipMissing (f_src f) \/ note = SkipNoVideo (f_src f) \/
     note = SkipNoDimensions (f_src f)).
Proof.
  intros [Hex|(info & Hprobe & Hv)]; unfold process_file.
  - rewrite Hex. cbn [negb]. eauto.
  - destruct (f_exists f); cbn [negb]; [|eauto].
    rewrite Hprobe. destruct (get_video_stream info) as [v|]; [|eauto].
    destruct Hv as [-> | Hh].
    + eauto 6.
    + rewrite Hh. destruct (parse_int (width v)); eauto 6.
Qed.

(** X20 (main). An input that does not exist, has no video stream, or
    has no readable width or height adds one message to the trace and
    nothing else: with it or without it in the batch, at any place, the
    same commands are printed and run and the run ends the same way. *)
Theorem skipped_file_is_transparent (a : args) (pre post : list file_env)
    (f : file_env) :
  skipped f ->
  (exists note,
      process_file a f = ([note], Completed) /\
      (note = SkipMissing (f_src f) \/ note = SkipNoVideo (f_src f) \/
       note = SkipNoDimensions (f_src f))) /\
  printed (fst (run_batch a (pre ++ f :: post)))
  = printed (fst (run_batch a (pre ++ post))) /\
  executed (fst (run_batch a (pre ++ f :: post)))
  = executed (fst (run_batch a (pre ++ post))) /\
  snd (run_batch a (pre ++ f :: post)) = snd (run_batch a (pre ++ post)).
Proof.
  intros Hs. destruct (skipped_process_file a f Hs) as (note & Hpf & Hnote).
  split; [eauto|].
  assert (printed [note] = [] /\ executed [note] = []) as [Hp He].
  { destruct Hnote as [-> | [-> | ->]]; split; reflexivity. }
  induction pre as [|g pre (IHp & IHe & IHs)]; cbn [app run_batch].
  - rewrite Hpf. destruct (run_batch a post) as [evs e]. cbn [fst snd].
    rewrite printed_app, executed_app, Hp, He. auto.
  - destruct (process_file a g) as [evs [| |]]; cbn [fst snd]; auto.
    destruct (run_batch a (pre ++ f :: post)) as [evs1 e1].
    destruct (run_batch a (pre ++ post)) as [evs2 e2]. cbn [fst snd] in *.
    rewrite !printed_app, !executed_app, IHp, IHe, IHs. auto.
Qed.

Lemma skipped_file_is_transparent_missing :
  (exists note,
      process_file args_default missing_file = ([note], Completed) /\
      (note = SkipMissing (f_src missing_file) \/
       note = SkipNoVideo (f_src missing_file) \/
       note = SkipNoDimensions (f_src missing_file))) /\
  printed (fst (run_batch args_default ([scenario_1_file] ++ missing_file :: [scenario_2_file])))
  = printed (fst (run_batch args_default ([scenario_1_file] ++ [scenario_2_file]))) /\
  executed (fst (run_batch args_default ([scenario_1_file] ++ missing_file :: [scenario_2_file])))
  = executed (fst (run_batch args_default ([scenario_1_file] ++ [scenario_2_file]))) /\
  snd (run_batch args_default ([scenario_1_file] ++ missing_file :: [scenario_2_file]))
  = snd (run_batch args_default ([scenario_1_file] ++ [scenario_2_file])).
Proof.
  apply (skipped_file_is_transparent args_default [scenario_1_file] [scenario_2_file]
           missing_file).
  left. reflexivity.
Defined.

(** ** The 10-bit note *)

Lemma strip_prefix_Some (p s r : string) :
  PyStr.strip_prefix p s = Some r <-> s = p +:+ r.
Proof.
  revert s. induction p as [|a p IH]; intros s.
  - cbn [PyStr.strip_prefix]. rewrite append_empty. split; congruence.
  - rewrite append_cons. destruct s as [|b s]; cbn [PyStr.strip_prefix].
    + split; discriminate.
    + destruct (Ascii.eqb_spec a b) as [->|Hab].
      * rewrite IH. split; congruence.
      * split; [discriminate|]. intros [= <- _]. congruence.
Qed.

Lemma rev_app_append (s t : string) :
  String.rev_app s t = String.rev s +:+ t.
Proof.
  unfold String.rev. revert t. induction s as [|a s IH]; intros t; [reflexivity|].
  cbn [String.rev_app]. rewrite (IH (String a t)), (IH (String a EmptyString)).
  rewrite <- append_assoc. reflexivity.
Qed.

Lemma rev_append (s t : string) :
  String.rev (s +:+ t) = String.rev t +:+ String.rev s.
Proof.
  unfold String.rev. generalize EmptyString at 1 3 as u.
  induction s as [|a s IH]; intros u.
  - rewrite append_empty. cbn [String.rev_app]. apply rev_app_append.
  - rewrite append_cons. cbn [String.rev_app]. apply IH.
Qed.

Lemma rev_rev (s : string) : String.rev (String.rev s) = s.
Proof.
  induction s as [|a s IH]; [reflexivity|].
  change (String a s) with (String a EmptyString +:+ s) at 1.
  rewrite rev_append, rev_append, IH. reflexivity.
Qed.

(** [s.endswith(suffix)] holds exactly of the strings that end with
    [suffix]. *)
Lemma endswith_spec (s suffix : string) :
  endswith s suffix = true <-> exists p, s = p +:+ suffix.
Proof.
  unfold endswith.
  destruct (PyStr.strip_prefix (String.rev suffix) (String.rev s)) as [r|] eqn:E.
  - split; [intros _|reflexivity]. apply strip_prefix_Some in E.
    exists (String.rev r). rewrite <- (rev_rev s), E, rev_append, rev_rev. reflexivity.
  - split; [discriminate|]. intros [p ->]. rewrite rev_append in E.
    assert (PyStr.strip_prefix (String.rev suffix) (String.rev suffix +:+ String.rev p)
            = Some (String.rev p)) as H by (apply strip_prefix_Some; reflexivity).
    congruence.
Qed.

(** The codec names that resolve to libx264 or libx265: the table's
    h264 and hevc, and the two encoder names themselves, which the
    table does not map. *)
Lemma choose_encoder_x26x (codec_name : string) :
  is_x26x (choose_encoder codec_name) = true <->
  (choose_encoder codec_name = "libx264" /\
   (codec_name = "h264" \/ codec_name = "libx264")) \/
  (choose_encoder codec_name = "libx265" /\
   (codec_name = "hevc" \/ codec_name = "libx265")).
Proof.
  split.
  - unfold choose_encoder. destruct (CODEC_MAP !! codec_name) as [enc|] eqn:E.
    + unfold CODEC_MAP in E. apply elem_of_list_to_map_2 in E.
      repeat (apply elem_of_cons in E as [[= -> ->]|E];
              [first [discriminate | intros _; auto]|]).
      inversion E.
    + unfold is_x26x. intros [H|H]%orb_true_iff; apply bool_decide_eq_true in H; auto.
  - unfold is_x26x. intros [[-> _]|[-> _]]; reflexivity.
Qed.

(** X21 (main). The warning about 10-bit input is written exactly for a
    file that gets a re-encode with libx264 or libx265, that is a source
    codec h264, hevc, libx264 or libx265, and whose pixel format ends in
    [10le]; it comes right before the print of the command, and never
    with a stream copy. *)
Theorem note_10bit_iff (a : args) (f : file_env) (e : string) :
  (In (Note10bit e) (fst (process_file a f)) <->
   exists info v iw ih cmd p,
     f_exists f = true /\
     ffprobe_json (f_probe_rc f) (f_probe_out f) = Ok info /\
     get_video_stream info = Some v /\
     parse_int (width v) = Some iw /\ parse_int (height v) = Some ih /\
     plan_file a f info v iw ih = Ok (Reencode cmd) /\
     pix_fmt v = Some (p +:+ "10le") /\
     ((e = "libx264" /\
       (codec_name v = Some "h264" \/ codec_name v = Some "libx264")) \/
      (e = "libx265" /\
       (codec_name v = Some "hevc" \/ codec_name v = Some "libx265")))) /\
  (In (Note10bit e) (fst (process_file a f)) ->
   (exists cmd tail,
       fst (process_file a f) = Note10bit e :: PrintCommand cmd :: tail) /\
   forall src, ~ In (NoteAlready4x3 src) (fst (process_file a f))).
Proof.
  assert (forall cmd, exists tail,
             fst (emit a f cmd) = PrintCommand cmd :: tail /\
             forall ev, In ev tail -> exists rc, ev = RunCommand cmd rc) as Hemit.
  { intros cmd. unfold emit. destruct (dry_run a).
    - exists []. split; [reflexivity|]. intros ev [].
    - destruct (negb (f_run_rc f =? 0)); eexists; (split; [reflexivity|]);
        intros ev [<-|[]]; eauto. }
  unfold process_file.
  destruct (f_exists f); cbn [negb].
  2: { split; [split|]; cbn [fst].
       - intros [H|[]]; discriminate.
       - intros (info & v & iw & ih & cmd & p & H & _). discriminate.
       - intros [H|[]]; discriminate. }
  destruct (ffprobe_json (f_probe_rc f) (f_probe_out f)) as [info|ex].
  2: { split; [split|]; cbn [fst].
       - intros [].
       - intros (info & v & iw & ih & cmd & p & _ & H & _). discriminate.
       - intros []. }
  destruct (get_video_stream info) as [v|] eqn:Ev.
  2: { split; [split|]; cbn [fst].
       - intros [H|[]]; discriminate.
       - intros (info' & v & iw & ih & cmd & p & _ & [= <-] & H & _). congruence.
       - intros [H|[]]; discriminate. }
  destruct (parse_int (width v)) as [iw|] eqn:Ew, (parse_int (height v)) as [ih|] eqn:Eh.
  2-4: (split; [split|]; cbn [fst];
        [ intros [H|[]]; discriminate
        | intros (info' & v' & iw' & ih' & cmd & p & _ & [= <-] & Hv & H1 & H2 & _);
          rewrite Ev in Hv; injection Hv as <-; congruence
        | intros [H|[]]; discriminate ]).
  destruct (plan_file a f info v iw ih) as [[cmd|cmd]|ex] eqn:Eplan.
  - destruct (Hemit cmd) as (tail & Htail & Hruns).
    destruct (emit a f cmd) as [evs en]. cbn [fst] in *. subst evs.
    assert (~ In (Note10bit e) (NoteAlready4x3 (f_src f) :: PrintCommand cmd :: tail)) as Hno.
    { intros [H|[H|H]]; try discriminate. destruct (Hruns _ H) as [rc Hrc]. discriminate. }
    split; [split|]; [intros H; destruct (Hno H)| |intros H; destruct (Hno H)].
    intros (info' & v' & iw' & ih' & cmd' & p & _ & [= <-] & Hv & Hw & Hh & H & _).
    rewrite Ev in Hv; injection Hv as <-. rewrite Ew in Hw; injection Hw as <-.
    rewrite Eh in Hh; injection Hh as <-. congruence.
  - destruct (Hemit cmd) as (tail & Htail & Hruns).
    destruct (emit a f cmd) as [evs en]. cbn [fst] in *. subst evs.
    pose proof (choose_encoder_x26x (default "" (codec_name v))) as Hx.
    pose proof (endswith_spec (default "" (pix_fmt v)) "10le") as Hend.
    set (enc := choose_encoder (default "" (codec_name v))) in *.
    assert (forall c, default "" (codec_name v) = c -> c <> "" -> codec_name v = Some c) as Hcodec.
    { intros c Hc Hne. destruct (codec_name v); cbn in Hc; congruence. }
    destruct (is_x26x enc && endswith (default "" (pix_fmt v)) "10le") eqn:Eb.
    + apply andb_true_iff in Eb as [Ex Ep]. apply Hx in Ex. apply Hend in Ep as [p Hp].
      assert (pix_fmt v = Some (p +:+ "10le")) as Hpix.
      { destruct (pix_fmt v) as [q|]; cbn in Hp; [congruence|].
        destruct p; discriminate. }
      cbn [app].
      assert (forall e', In (Note10bit e') (Note10bit enc :: PrintCommand cmd :: tail) -> e' = enc)
        as Honly.
      { intros e' [H|[H|H]]; [congruence|discriminate|].
        destruct (Hruns _ H) as [rc Hrc]. discriminate. }
      split; [split|].
      * intros H%Honly. subst e. exists info, v, iw, ih, cmd, p.
        repeat (split; [first [reflexivity|assumption]|]).
        destruct Ex as [[He [Hc|Hc]]|[He [Hc|Hc]]]; [left|left|right|right];
          (split; [exact He|]); [left|right|left|right];
          apply Hcodec; first [exact Hc | discriminate].
      * intros (info' & v' & iw' & ih' & cmd' & p' & _ & [= <-] & Hv & _ & _ & _ & _ & He).
        rewrite Ev in Hv; injection Hv as <-.
        left. f_equal. destruct Ex as [[Hx1 _]|[Hx1 _]], He as [[-> Hc]|[-> Hc]];
          try exact Hx1;
          exfalso; unfold enc in Hx1;
          destruct Hc as [Hc|Hc]; rewrite Hc in Hx1; vm_compute in Hx1; discriminate.
      * intros H%Honly. subst e. split; [eauto|].
        intros src [H|[H|H]]; try discriminate. destruct (Hruns _ H) as [rc Hrc]. discriminate.
    + cbn [app].
      assert (~ In (Note10bit e) (PrintCommand cmd :: tail)) as Hno.
      { intros [H|H]; [discriminate|]. destruct (Hruns _ H) as [rc Hrc]. discriminate. }
      split; [split|]; [intros H; destruct (Hno H)| |intros H; destruct (Hno H)].
      intros (info' & v' & iw' & ih' & cmd' & p & _ & [= <-] & Hv & _ & _ & _ & Hpix & He).
      rewrite Ev in Hv; injection Hv as <-.
      apply andb_false_iff in Eb as [Eb|Eb].
      * assert (is_x26x enc = true) as Ht; [|congruence].
        apply Hx. subst enc.
        destruct He as [[-> [Hc|Hc]]|[-> [Hc|Hc]]]; rewrite Hc; cbn [default];
          [left|left|right|right]; (split; [vm_compute; reflexivity|]); auto.
      * assert (endswith (default "" (pix_fmt v)) "10le" = true) as Ht; [|congruence].
        apply Hend. exists p. rewrite Hpix. reflexivity.
  - split; [split|]; cbn [fst].
    + intros [].
    + intros (info' & v' & iw' & ih' & cmd' & p & _ & [= <-] & Hv & Hw & Hh & H & _).
      rewrite Ev in Hv; injection Hv as <-. rewrite Ew in Hw; injection Hw as <-.
      rewrite Eh in Hh; injection Hh as <-. congruence.
    + intros [].
Qed.

Example note_10bit_hevc :
  In (Note10bit "libx265") (fst (process_file args_default hevc_10bit_file)) /\
  ~ In (Note10bit "libx265") (fst (process_file args_default scenario_1_file)).
Proof.
  split; [vm_compute; left; reflexivity|].
  vm_compute. intros [H|[H|[]]]; discriminate.
Qed.

(** ** Scans and stream copies at the scenarios *)

Lemma detection_crop_is_reencoded_scenario_3 :
  exists cw ch cx cy,
    run_cropdetect (f_scan scenario_3_file) = Some (cw, ch, cx, cy) /\
    (ch = 0 ->
     plan_file args_cropdetect scenario_3_file scenario_1_info
       (h264_stream 1920 1080 (Some (JStr "4000000"))) 1920 1080
     = Raise ZeroDivisionError) /\
    (ch <> 0 ->
     exists c,
       snap_4x3 1920 (cw, ch, cx, cy) = Ok c /\
       plan_file args_cropdetect scenario_3_file scenario_1_info
         (h264_stream 1920 1080 (Some (JStr "4000000"))) 1920 1080
       = Ok (Reencode
               (build_ffmpeg_cmd (f_src scenario_3_file) (f_dst scenario_3_file) c
                  (choose_encoder
                     (default "" (codec_name (h264_stream 1920 1080 (Some (JStr "4000000"))))))
                  (match crf args_cropdetect with
                   | None => source_bitrate (h264_stream 1920 1080 (Some (JStr "4000000")))
                               scenario_1_info
                   | Some _ => None
                   end)
                  (crf args_cropdetect) (preset args_cropdetect)))).
Proof.
  apply (detection_crop_is_reencoded args_cropdetect scenario_3_file scenario_1_info
           (h264_stream 1920 1080 (Some (JStr "4000000"))) 1920 1080).
  - reflexivity.
  - vm_compute. discriminate.
Defined.

Lemma stream_copy_only_without_crop_scenario_2 :
  (use_cropdetect args_default = false \/ parse_crops (f_scan scenario_2_file) = []) /\
  wider_than_4x3 1280 960 = false /\
  copy_cmd "tape.mkv" "tape.4x3.mkv"
  = copy_cmd (f_src scenario_2_file) (f_dst scenario_2_file).
Proof.
  apply (stream_copy_only_without_crop args_default scenario_2_file scenario_2_info
           (h264_stream 1280 960 (Some (JStr "2500000"))) 1280 960
           (copy_cmd "tape.mkv" "tape.4x3.mkv")).
  vm_compute. reflexivity.
Defined.

(** * The GIF converter *)

Lemma rfind_absent (c : ascii) (t : string) :
  string_forall (fun a => negb (Ascii.eqb a c)) t = true -> PyPath.rfind c t = None.
Proof.
  induction t as [|a t IH]; [reflexivity|].
  cbn [string_forall PyPath.rfind]. intros [Ha Ht]%andb_true_iff.
  rewrite (IH Ht). apply negb_true_iff in Ha. rewrite Ha. reflexivity.
Qed.

(** [p.rfind(c)] is below the length of [p]. *)
Lemma os_rfind_bound (c : ascii) (p : string) :
  -1 <= OsPath.rfind c p < Z.of_nat (String.length p).
Proof.
  unfold OsPath.rfind. destruct (PyPath.rfind c p) as [i|] eqn:E.
  - apply rfind_Some in E as [Hi _]. lia.
  - lia.
Qed.

(** The last occurrence of a character, in a text that ends with a
    character and a rest without it. *)
Lemma os_rfind_last (s c : ascii) (d rest : string) :
  PyPath.rfind s rest = None ->
  OsPath.rfind s (d +:+ String c rest)
  = if Ascii.eqb c s then Z.of_nat (String.length d) else OsPath.rfind s d.
Proof.
  intros Hrest. unfold OsPath.rfind. rewrite rfind_append.
  cbn [PyPath.rfind]. rewrite Hrest.
  destruct (Ascii.eqb c s); [|reflexivity].
  rewrite Nat.add_0_r. reflexivity.
Qed.

Lemma no_sep_rfind (pl : OsPath.platform) (rest : string) :
  string_forall (fun c => negb (VideoToGif.is_sep pl c)) rest = true ->
  PyPath.rfind "/" rest = None /\
  (pl = OsPath.Nt -> PyPath.rfind "092" rest = None).
Proof.
  intros H. split.
  - apply rfind_absent. refine (string_forall_weaken _ _ _ _ H).
    intros c Hc. apply negb_true_iff in Hc. apply negb_true_iff.
    destruct pl; cbn [VideoToGif.is_sep] in Hc; [exact Hc|].
    apply orb_false_iff in Hc as [_ Hc]. exact Hc.
  - intros ->. apply rfind_absent. refine (string_forall_weaken _ _ _ _ H).
    intros c Hc. apply negb_true_iff in Hc. apply negb_true_iff.
    cbn [VideoToGif.is_sep] in Hc. apply orb_false_iff in Hc as [Hc _]. exact Hc.
Qed.

(** [sepIndex] of a directory prefix followed by a text without
    separators: the index of the prefix's last character. *)
Lemma sep_index_prefix (pl : OsPath.platform) (dir rest : string) :
  VideoToGif.dir_prefix pl dir ->
  string_forall (fun c => negb (VideoToGif.is_sep pl c)) rest = true ->
  OsPath.sep_index pl (dir +:+ rest) = Z.of_nat (String.length dir) - 1.
Proof.
  intros Hdir Hrest. destruct (no_sep_rfind pl rest Hrest) as [Hslash Hback].
  destruct Hdir as [->|(d & c & -> & Hc)].
  - rewrite append_empty. unfold OsPath.sep_index, OsPath.rfind.
    destruct pl; rewrite Hslash; [reflexivity|]. rewrite (Hback eq_refl). reflexivity.
  - rewrite <- append_assoc, append_cons, append_empty, length_append.
    cbn [String.length]. unfold OsPath.sep_index.
    pose proof (os_rfind_bound "/" d). pose proof (os_rfind_bound "092" d).
    destruct pl; cbn [VideoToGif.is_sep] in Hc.
    + rewrite (os_rfind_last "/" c d rest Hslash), Hc. lia.
    + rewrite (os_rfind_last "/" c d rest Hslash),
        (os_rfind_last "092" c d rest (Hback eq_refl)).
      apply orb_true_iff in Hc.
      destruct (Ascii.eqb c "092"), (Ascii.eqb c "/");
        first [lia | destruct Hc; discriminate].
Qed.

Lemma get_append_length (s t : string) (c : ascii) :
  String.get (String.length s) (s +:+ String c t) = Some c.
Proof.
  induction s as [|a s IH]; [reflexivity|].
  rewrite append_cons. cbn [String.length String.get]. exact IH.
Qed.

(** The loop over the leading dots leaves at a name character exactly
    when the base name is not made of dots only. *)
Lemma leaves_at_name_spec (base dir rest : string) :
  OsPath.leaves_at_name (dir +:+ base +:+ rest) (String.length dir) (String.length base)
  = negb (string_forall VideoToGif.is_dot base).
Proof.
  revert dir. induction base as [|c base IH]; intros dir; [reflexivity|].
  rewrite append_cons. cbn [String.length OsPath.leaves_at_name string_forall].
  rewrite get_append_length. unfold VideoToGif.is_dot at 1.
  destruct (Ascii.eqb c "."); [|reflexivity]. cbn [andb].
  specialize (IH (dir +:+ String c EmptyString)).
  rewrite <- append_assoc, append_cons, append_empty, length_append in IH.
  cbn [String.length] in IH. rewrite Nat.add_1_r in IH. exact IH.
Qed.

(** [os.path.splitext] of a path made of a directory prefix, a base
    name without separators, and an extension of a dot and a rest with
    neither dots nor separators: the extension is split off unless the
    base name is empty or made of dots. *)
Lemma splitext_spec (pl : OsPath.platform) (dir base e : string) :
  VideoToGif.dir_prefix pl dir ->
  string_forall (fun c => negb (VideoToGif.is_sep pl c)) (base +:+ String "." e) = true ->
  PyPath.rfind "." e = None ->
  OsPath.splitext pl (dir +:+ base +:+ String "." e)
  = if string_forall VideoToGif.is_dot base
    then (dir +:+ base +:+ String "." e, EmptyString)
    else (dir +:+ base, String "." e).
Proof.
  intros Hdir Hsep Hdot. unfold OsPath.splitext.
  rewrite (sep_index_prefix pl dir _ Hdir Hsep).
  assert (OsPath.rfind "." (dir +:+ base +:+ String "." e)
          = Z.of_nat (String.length dir + String.length base)) as ->.
  { rewrite append_assoc. unfold OsPath.rfind. rewrite rfind_append.
    cbn [PyPath.rfind]. rewrite Hdot. cbn [Ascii.eqb Bool.eqb].
    rewrite Nat.add_0_r, length_append. reflexivity. }
  replace (Z.of_nat (String.length dir) - 1
           <? Z.of_nat (String.length dir + String.length base)) with true
    by (symmetry; apply Z.ltb_lt; lia).
  replace (Z.to_nat (Z.of_nat (String.length dir) - 1 + 1)) with (String.length dir) by lia.
  replace (Z.to_nat (Z.of_nat (String.length dir + String.length base)
                     - (Z.of_nat (String.length dir) - 1 + 1)))
    with (String.length base) by lia.
  rewrite leaves_at_name_spec, Nat2Z.id. cbn [andb].
  destruct (string_forall VideoToGif.is_dot base); cbn [negb]; [reflexivity|].
  rewrite append_assoc, <- length_append, take_append, drop_append. reflexivity.
Qed.

(** The paths the handler accepts: those that end, in this spelling,
    with one of the three extensions. *)
Lemma accepted_spec (filepath : string) :
  VideoToGif.accepted filepath = true <->
  exists stem ext, In ext [".mp4"; ".mkv"; ".avi"] /\ filepath = stem +:+ ext.
Proof.
  unfold VideoToGif.accepted. rewrite !orb_true_iff, !endswith_spec. split.
  - intros [[[p ->]|[p ->]]|[p ->]]; eexists p, _; (split; [|reflexivity]); cbn; auto.
  - intros (stem & ext & [<-|[<-|[<-|[]]]] & ->); eauto.
Qed.

(** X22 (drop). A dropped path with one of the three extensions is
    converted by one shell command, followed by the success dialog (the
    handler does not look at the exit status).  The output path is the path
    with [.gif] in place of the extension; but when the file name before
    the extension is empty or made of dots only, [os.path.splitext]
    finds no extension and [.gif] is added to the whole path.  Either
    way the output path is not the input path. *)
Theorem drop_output_path (pl : OsPath.platform) (dir base ext : string) :
  VideoToGif.dir_prefix pl dir ->
  string_forall (fun c => negb (VideoToGif.is_sep pl c)) base = true ->
  In ext [".mp4"; ".mkv"; ".avi"] ->
  let filepath := dir +:+ base +:+ ext in
  let output_path :=
    if string_forall VideoToGif.is_dot base then filepath +:+ ".gif"
    else dir +:+ base +:+ ".gif" in
  VideoToGif.drop pl filepath
  = [VideoToGif.RunShell (VideoToGif.gif_command filepath output_path);
     VideoToGif.ShowInfo "Success" ("File converted and saved as " +:+ output_path)] /\
  output_path <> filepath.
Proof.
  intros Hdir Hbase Hext filepath output_path.
  assert (exists e, ext = String "." e /\ PyPath.rfind "." e = None /\
                    string_forall (fun c => negb (VideoToGif.is_sep pl c)) ext = true)
    as (e & He & Hdot & Hsep).
  { destruct Hext as [<-|[<-|[<-|[]]]]; eexists; (split; [reflexivity|]);
      (split; [reflexivity|]); destruct pl; reflexivity. }
  assert (VideoToGif.accepted filepath = true) as Hacc.
  { apply accepted_spec. exists (dir +:+ base), ext. split; [exact Hext|].
    unfold filepath. apply append_assoc. }
  assert (OsPath.splitext pl filepath
          = if string_forall VideoToGif.is_dot base
            then (filepath, EmptyString) else (dir +:+ base, ext)) as Hsplit.
  { unfold filepath. rewrite He. apply splitext_spec; [exact Hdir| |exact Hdot].
    rewrite string_forall_app, Hbase, <- He, Hsep. reflexivity. }
  split.
  - unfold VideoToGif.drop. rewrite Hacc, Hsplit. unfold output_path.
    destruct (string_forall VideoToGif.is_dot base); cbn [fst];
      rewrite <- ?append_assoc; reflexivity.
  - unfold output_path. destruct (string_forall VideoToGif.is_dot base).
    + intros Heq. apply (f_equal String.length) in Heq.
      rewrite length_append in Heq. cbn [String.length] in Heq. lia.
    + unfold filepath. rewrite !append_assoc. intros Heq.
      apply append_inj_length in Heq as [_ Heq]; [|reflexivity].
      destruct Hext as [<-|[<-|[<-|[]]]]; discriminate.
Qed.

Lemma drop_output_path_clip :
  VideoToGif.drop OsPath.Posix "clips/a.b.mp4"
  = [VideoToGif.RunShell
       (VideoToGif.gif_command "clips/a.b.mp4" "clips/a.b.gif");
     VideoToGif.ShowInfo "Success" "File converted and saved as clips/a.b.gif"] /\
  "clips/a.b.gif" <> "clips/a.b.mp4".
Proof.
  apply (drop_output_path OsPath.Posix "clips/" "a.b" ".mp4").
  - right. exists "clips", "/"%char. split; reflexivity.
  - reflexivity.
  - left. reflexivity.
Defined.

(** X23 (drop). A dropped path that does not end with [.mp4], [.mkv] or
    [.avi], spelled so, only gets the error dialog: the handler runs a
    command for no other path, and one command at most. *)
Theorem drop_rejects_other_names (pl : OsPath.platform) (filepath : string) :
  ((forall stem ext, In ext [".mp4"; ".mkv"; ".avi"] -> filepath <> stem +:+ ext) <->
   VideoToGif.drop pl filepath
   = [VideoToGif.ShowError "Error"
        "File type not supported. Please drop a .mp4, .mkv, or .avi file."]) /\
  (forall command,
      In (VideoToGif.RunShell command) (VideoToGif.drop pl filepath) ->
      (exists stem ext, In ext [".mp4"; ".mkv"; ".avi"] /\ filepath = stem +:+ ext) /\
      exists message,
        VideoToGif.drop pl filepath
        = [VideoToGif.RunShell command; VideoToGif.ShowInfo "Success" message]).
Proof.
  pose proof (accepted_spec filepath) as Hacc. unfold VideoToGif.drop.
  destruct (VideoToGif.accepted filepath).
  - destruct (proj1 Hacc eq_refl) as (stem & ext & Hext & Hpath). split; [split|].
    + intros H. destruct (H stem ext Hext Hpath).
    + discriminate.
    + intros command [[= <-]|[H|[]]]; [|discriminate].
      split; [eauto|]. eexists. reflexivity.
  - split; [split|].
    + intros _. reflexivity.
    + intros _ stem ext Hext Hpath.
      assert (false = true) by (apply Hacc; eauto). discriminate.
    + intros command [H|[]]. discriminate.
Qed.
